(** * chainerrl/experiments/evaluator.py: periodic evaluation of an agent

    A shallow embedding of [eval_performance], [record_stats], [save_agent],
    [update_best_model] and of the classes [Evaluator] and [AsyncEvaluator],
    followed by the properties established about them.

    Conventions of the embedding.
    - Python [int] is [Z]; Python [float] is an IEEE binary64 value, written
      as a [spec_float] in canonical binary64 form (precision 53, emax 1024).
    - The shared cells of [AsyncEvaluator] keep the C types of their
      [multiprocessing.Value] typecodes: ['l'] is a two's complement
      [long] (LP64: 64 bits), ['f'] a single precision [float], ['b'] a
      [signed char].  ctypes stores without range checks, so a store wraps
      (integers) or rounds to nearest (floats).
    - [Evaluator.max_score] starts as a [numpy.float32] scalar and becomes a
      Python float at its first update; the attribute keeps which of the two
      it holds, since [mean > self.max_score] depends on it and on NumPy's
      promotion rules.
    - Collaborators (environment, agent, explorer, the [statistics] module,
      [str] on floats) are interfaces, given as type classes; the generation
      of NumPy at hand comes with them.
    - Effects are threaded through a state monad whose state survives a raised
      exception, as Python's does; every call that can raise leaves an event
      in the world's trace. *)

From Stdlib Require Import ZArith List Bool QArith Lia.
From Stdlib Require Import Strings.String Strings.Ascii Numbers.DecimalString.
From Stdlib Require Import Floats.SpecFloat.
From Stdlib Require Numbers.DecimalZ Numbers.DecimalPos.
From stdpp Require Import base gmap strings list.

Open Scope Z_scope.

(** ** Python values *)

(** Exceptions that cross this module. [Error] stands for whatever a
    collaborator raises. *)
Inductive exn : Type :=
| StatisticsError
| OverflowError
| AssertionError
| ZeroDivisionError
| IOError (path : string)
| Error (what : string).

Inductive result (B : Type) : Type :=
| Ok (b : B)
| Err (e : exn).
Arguments Ok {B} b.
Arguments Err {B} e.

(** *** Floats *)

Definition float : Type := spec_float.

Module F64.
Definition prec : Z := 53.
Definition emax : Z := 1024.
Definition zero : float := S754_zero false.
Definition nan : float := S754_nan.
Definition add : float -> float -> float := SFadd prec emax.
Definition sub : float -> float -> float := SFsub prec emax.
Definition mul : float -> float -> float := SFmul prec emax.
Definition div : float -> float -> float := SFdiv prec emax.
Definition sqrt : float -> float := SFsqrt prec emax.
(** [x < y] and [x > y] on floats; false as soon as one side is a NaN. *)
Definition ltb (x y : float) : bool := SFltb x y.
Definition gtb (x y : float) : bool := SFltb y x.
Definition eqb (x y : float) : bool := SFeqb x y.
(** [float(n)] for an [int] within range, and [m * 2**e]. *)
Definition of_Z (n : Z) : float := binary_normalize prec emax n 0 false.
Definition ldexp (m e : Z) : float := binary_normalize prec emax m e false.

Definition is_finite (x : float) : bool :=
  match x with
  | S754_zero _ | S754_finite _ _ _ => true
  | S754_infinity _ | S754_nan => false
  end.

(** The exact value of a finite float. *)
Definition to_Q (x : float) : Q :=
  match x with
  | S754_finite s m e =>
      let n := if s then Z.neg m else Z.pos m in
      match e with
      | Z0 => inject_Z n
      | Z.pos p => inject_Z (n * 2 ^ Z.pos p)
      | Z.neg p => Qmake n (2 ^ p)%positive
      end
  | _ => 0%Q
  end.

(** The binary64 float nearest to a rational (ties to even): what
    [float(Fraction)], that is [int / int], computes. *)
Definition of_ratio (n : Z) (d : positive) : float :=
  let round (s : bool) (p : positive) :=
    let '(mz, ez, lz) := SFdiv_core_binary prec emax (Z.pos p) 0 (Z.pos d) 0 in
    binary_round_aux prec emax s mz ez lz in
  match n with
  | Z0 => zero
  | Z.pos p => round false p
  | Z.neg p => round true p
  end.
Definition of_Q (q : Q) : float := of_ratio (Qnum q) (Qden q).
End F64.

(** A C [float]: storing a double rounds it to single precision, reading it
    back widens it without loss. *)
Module C_float.
Definition prec : Z := 24.
Definition emax : Z := 128.
Definition of_double (x : float) : spec_float :=
  match x with
  | S754_finite s m e => binary_round prec emax s m e
  | _ => x
  end.
Definition to_double (x : spec_float) : float :=
  match x with
  | S754_finite s m e => binary_round F64.prec F64.emax s m e
  | _ => x
  end.
(** The Python float read from a cell after [x] was stored in it. *)
Definition stored (x : float) : float := to_double (of_double x).
End C_float.

(** A C [long] on LP64 and a C [signed char]: a store keeps the low bits. *)
Module C_long.
Definition bits : Z := 64.
Definition min_value : Z := - 2 ^ (bits - 1).
Definition max_value : Z := 2 ^ (bits - 1) - 1.
Definition stored (n : Z) : Z :=
  (n + 2 ^ (bits - 1)) mod 2 ^ bits - 2 ^ (bits - 1).
End C_long.

Module C_byte.
Definition stored (n : Z) : Z := (n + 128) mod 256 - 128.
End C_byte.

(** *** NumPy scalars *)

(** The value of [np.finfo(np.float32).min], the most negative finite single
    precision number, [-(2**24 - 1) * 2**104]. *)
Definition np_finfo_float32_min : float := F64.ldexp (- (2 ^ 24 - 1)) 104.

(** What an attribute that holds a number holds: a Python float, or a
    [numpy.float32] scalar, given by its value. *)
Inductive number : Type :=
| PythonFloat (x : float)
| NpFloat32 (x : float).

Definition number_value (n : number) : float :=
  match n with
  | PythonFloat x | NpFloat32 x => x
  end.

(** How NumPy combines a [numpy.float32] scalar with a Python float.  Up to
    NumPy 1.x both operands are promoted to double precision; from NumPy 2 on
    (NEP 50) the Python float is cast to single precision, rounding to
    nearest, and the operation is carried out there. *)
Inductive promotion : Type :=
| Legacy
| NEP50.

Class NumPy : Type := numpy_promotion : promotion.

(** [x > y] for a Python float [x].  When [y] is a [numpy.float32] scalar,
    [float.__gt__] does not know it and the reflected [y.__lt__(x)] of NumPy
    decides.  Two single precision numbers compare as their values do. *)
Definition float_gt `{NumPy} (x : float) (y : number) : bool :=
  match y with
  | PythonFloat y => F64.gtb x y
  | NpFloat32 y =>
      match numpy_promotion with
      | Legacy => F64.gtb x y
      | NEP50 => F64.gtb (C_float.stored x) y
      end
  end.
Arguments float_gt : simpl never.

(** *** Strings *)

Definition tab : string := String (ascii_of_nat 9) EmptyString.

(** [str(n)] for an [int]. *)
Definition str_int (n : Z) : string := NilZero.string_of_int (Z.to_int n).

(** ['\t'.join(cells)] *)
Definition join_tab (cells : list string) : string := String.concat tab cells.

(** [os.path.join(a, b)] for POSIX paths. *)
Definition os_path_join (a b : string) : string :=
  if String.prefix "/" b then b
  else if String.eqb a "" then b
  else if String.eqb (String.substring (String.length a - 1) 1 a) "/" then a +:+ b
  else a +:+ "/" +:+ b.

(** [str(x)] on floats is the interpreter's shortest round-trip printer; the
    development only needs it to be a function. *)
Class FloatStr : Type := str_float : float -> string.

(** The values an agent reports as statistics and that end up in a row. *)
Inductive pyvalue : Type :=
| PyInt (n : Z)
| PyFloat (x : float)
| PyStr (s : string).

Definition str `{FloatStr} (v : pyvalue) : string :=
  match v with
  | PyInt n => str_int n
  | PyFloat x => str_float x
  | PyStr s => s
  end.

(** ** The [statistics] module

    [eval_performance] only calls [mean], [median] and [stdev]; they are an
    interface of the embedding. *)
Module statistics.
Class API : Type := {
  mean : list float -> result float;
  median : list float -> result float;
  stdev : list float -> result float
}.
End statistics.

(** A reference implementation of the interface, after CPython 3.6's
    [statistics.py] on lists of floats (later versions compute the variance
    exactly and round once; the properties below rest on the interface, the
    reference serves the examples): sums are exact rationals, converted
    to the nearest float at the end; non-finite data are summed as floats.
    [x ** 2] is taken as the correctly rounded square, raising
    [OverflowError] when a finite square overflows.  [sorted] is a stable
    insertion sort on [<], which is what any stable sort returns on data
    without NaN. *)
Module cpython.
Definition exact_sum (data : list float) : Q :=
  fold_left (fun acc x => Qred (acc + F64.to_Q x)) data 0%Q.

Definition float_sum (data : list float) : float :=
  fold_left F64.add data F64.zero.

Definition all_finite (data : list float) : bool := forallb F64.is_finite data.

Definition non_finite (data : list float) : list float :=
  List.filter (fun x => negb (F64.is_finite x)) data.

Definition mean (data : list float) : result float :=
  match data with
  | [] => Err StatisticsError
  | _ =>
      let n := Z.of_nat (length data) in
      if all_finite data
      then Ok (F64.of_Q (Qred (exact_sum data / inject_Z n)))
      else Ok (F64.div (float_sum (non_finite data)) (F64.of_Z n))
  end.

Fixpoint insert_sorted (x : float) (l : list float) : list float :=
  match l with
  | [] => [x]
  | y :: l' => if F64.ltb x y then x :: l else y :: insert_sorted x l'
  end.

Definition sorted (data : list float) : list float :=
  fold_left (fun acc x => insert_sorted x acc) data [].

Definition median (data : list float) : result float :=
  let data := sorted data in
  let n := length data in
  match n with
  | O => Err StatisticsError
  | _ =>
      if Nat.eqb (n mod 2) 1
      then Ok (nth (n / 2) data F64.nan)
      else
        let i := (n / 2)%nat in
        Ok (F64.div (F64.add (nth (i - 1) data F64.nan) (nth i data F64.nan))
              (F64.of_Z 2))
  end.

Definition square_overflows (d : float) : bool :=
  F64.is_finite d && negb (F64.is_finite (F64.mul d d)).

Definition variance (data : list float) : result float :=
  let n := Z.of_nat (length data) in
  if n <? 2 then Err StatisticsError
  else
    match mean data with
    | Err e => Err e
    | Ok c =>
        let ds := map (fun x => F64.sub x c) data in
        if existsb square_overflows ds then Err OverflowError
        else if negb (all_finite ds) then Ok F64.nan
        else
          let total := exact_sum (map (fun d => F64.mul d d) ds) in
          let total2 := exact_sum ds in
          let ss := Qred (total - total2 * total2 / inject_Z n) in
          if Qlt_le_dec ss 0 then Err AssertionError
          else
            let v := F64.of_Q (Qred (ss / inject_Z (n - 1))) in
            if F64.is_finite v then Ok v else Err OverflowError
    end.

Definition stdev (data : list float) : result float :=
  match variance data with
  | Ok v => Ok (F64.sqrt v)
  | Err e => Err e
  end.

Definition api : statistics.API :=
  {| statistics.mean := mean; statistics.median := median; statistics.stdev := stdev |}.
End cpython.

(** ** Collaborators *)

(** [env.reset()] and [env.step(a)]; the [info] component of a step is
    dropped, as the caller drops it. *)
Class Environment (Obs Act E : Type) : Type := {
  reset : E -> result (Obs * E);
  step : Act -> E -> result (Obs * float * bool * E)
}.

(** [agent.act(obs)], [agent.stop_episode()], [agent.get_statistics()] and
    [agent.save(dirname)]. *)
Class Agent (Obs Act A : Type) : Type := {
  act : Obs -> A -> result (Act * A);
  stop_episode : A -> result A;
  get_statistics : A -> result (list (string * pyvalue));
  save : string -> A -> result unit
}.

(** [explorer.select_action(t, greedy_action_func)]: the explorer either
    answers with an action of its own, or calls [greedy_action_func] and
    post-processes the greedy action. *)
Inductive selection (Act : Type) : Type :=
| Explore (a : Act)
| Greedy (post : Act -> Act).
Arguments Explore {Act} a.
Arguments Greedy {Act} post.

Class Explorer (Act X : Type) : Type := {
  select_action : Z -> X -> result (selection Act * X)
}.

(** The collaborators of one run, with the [statistics] module, [str] on
    floats and the NumPy at hand. *)
Class Collaborators : Type := {
  Obs : Type;
  Act : Type;
  EnvState : Type;
  AgentState : Type;
  ExplorerState : Type;
  the_env :: Environment Obs Act EnvState;
  the_agent :: Agent Obs Act AgentState;
  the_explorer :: Explorer Act ExplorerState;
  the_statistics :: statistics.API;
  the_float_str :: FloatStr;
  the_numpy :: NumPy
}.

(** ** Events *)

Inductive mode : Type := ModeW | ModeA | ModeAPlus.

(** The three [logger.info] messages of the module; numbers are logged by
    value. *)
Inductive logrecord : Type :=
| LogTestEpisode (i : Z) (R : float)
| LogSaved (dirname : string)
| LogBestScore (old_max_score new_max_score : float).

Inductive op : Type :=
| EnvReset
| EnvStep
| AgentAct
| AgentStopEpisode
| AgentGetStatistics
| AgentSave (dirname : string)
| ExplorerSelectAction (t : Z)
| StatisticsMean
| StatisticsMedian
| StatisticsStdev
| IntMod (a b : Z)
| FileOpen (path : string) (m : mode)
| FilePrint (path : string) (m : mode) (line : string)
| TimeTime
| LoggerInfo (r : logrecord).

(** What the trace keeps of a call: that it returned (for [env.step], with
    the reward and the [done] flag it returned), or that it raised. *)
Inductive event : Type :=
| Called (o : op)
| Stepped (r : float) (done : bool)
| Failed (o : op) (e : exn).

Inductive outcome (B : Type) : Type :=
| Returns (b : B)
| Raises (e : exn)
| OutOfFuel.
Arguments Returns {B} b.
Arguments Raises {B} e.
Arguments OutOfFuel {B}.

(** [a % b] on ints. *)
Definition int_mod (a b : Z) : result Z :=
  if b =? 0 then Err ZeroDivisionError else Ok (a mod b).

(** [range(n)] *)
Definition range (n : Z) : list Z := map Z.of_nat (seq 0 (Z.to_nat n)).

(** ** The world *)

(** Everything outside the evaluator object: the collaborators' states
    ([sys_explorer] is [None] when no explorer was given), the file system
    (each file a list of lines, [sys_denied] the paths that [open] refuses),
    the directories written by [agent.save] and the clock read by
    [time.time()]. *)
Record SysOf (E A X : Type) : Type := mkSys {
  sys_env : E;
  sys_agent : A;
  sys_explorer : option X;
  sys_files : gmap string (list string);
  sys_denied : gset string;
  sys_saved : gmap string A;
  sys_clock : nat -> float;
  sys_ticks : nat
}.
Arguments mkSys {E A X}.
Arguments sys_env {E A X} s.
Arguments sys_agent {E A X} s.
Arguments sys_explorer {E A X} s.
Arguments sys_files {E A X} s.
Arguments sys_denied {E A X} s.
Arguments sys_saved {E A X} s.
Arguments sys_clock {E A X} s.
Arguments sys_ticks {E A X} s.

Record WorldOf (E A X Self : Type) : Type := mkWorld {
  w_sys : SysOf E A X;
  w_trace : list event;
  w_self : Self
}.
Arguments mkWorld {E A X Self} w_sys w_trace w_self.
Arguments w_sys {E A X Self} w.
Arguments w_trace {E A X Self} w.
Arguments w_self {E A X Self} w.

(** The system and the world of the collaborators at hand. *)
Abbreviation Sys := (SysOf EnvState AgentState ExplorerState).
Abbreviation World := (WorldOf EnvState AgentState ExplorerState).

Definition M `{Collaborators} (Self B : Type) : Type :=
  World Self -> outcome B * World Self.

Section Monad.
Context `{Collaborators} {Self : Type}.

Definition ret {B} (b : B) : M Self B := fun w => (Returns b, w).

Definition bind {B C} (m : M Self B) (k : B -> M Self C) : M Self C :=
  fun w =>
    match m w with
    | (Returns b, w') => k b w'
    | (Raises e, w') => (Raises e, w')
    | (OutOfFuel, w') => (OutOfFuel, w')
    end.

Definition out_of_fuel {B} : M Self B := fun w => (OutOfFuel, w).

Definition get_self : M Self Self := fun w => (Returns (w_self w), w).

Definition set_self (self : Self) : M Self unit :=
  fun w => (Returns tt, mkWorld (w_sys w) (w_trace w) self).

Definition get_sys : M Self Sys := fun w => (Returns (w_sys w), w).

(** A call into a collaborator or the runtime: it acts on [Sys] only and
    leaves one event, [ev b] when it returns [b]. *)
Definition perform {B} (ev : B -> event) (o : op)
    (f : Sys -> result (B * Sys)) : M Self B :=
  fun w =>
    match f (w_sys w) with
    | Ok (b, s') => (Returns b, mkWorld s' (w_trace w ++ [ev b]) (w_self w))
    | Err e => (Raises e, mkWorld (w_sys w) (w_trace w ++ [Failed o e]) (w_self w))
    end.

Definition call {B} (o : op) (f : Sys -> result (B * Sys)) : M Self B :=
  perform (fun _ => Called o) o f.
End Monad.

(** stdpp's monad notations: [x ← m; k], ['(a, b) ← m; k] and [m;; k]. *)
#[global] Instance M_ret `{Collaborators} {Self} : MRet (M Self) := @ret _ Self.
#[global] Instance M_bind `{Collaborators} {Self} : MBind (M Self) :=
  fun B C k m => bind m k.

(** ** Calls into the collaborators and the runtime *)

Section Calls.
Context `{Collaborators}.

Definition with_env (s : Sys) (e : EnvState) : Sys :=
  mkSys e (sys_agent s) (sys_explorer s) (sys_files s) (sys_denied s)
    (sys_saved s) (sys_clock s) (sys_ticks s).
Definition with_agent (s : Sys) (a : AgentState) : Sys :=
  mkSys (sys_env s) a (sys_explorer s) (sys_files s) (sys_denied s)
    (sys_saved s) (sys_clock s) (sys_ticks s).
Definition with_explorer (s : Sys) (x : option ExplorerState) : Sys :=
  mkSys (sys_env s) (sys_agent s) x (sys_files s) (sys_denied s)
    (sys_saved s) (sys_clock s) (sys_ticks s).
Definition with_files (s : Sys) (fs : gmap string (list string)) : Sys :=
  mkSys (sys_env s) (sys_agent s) (sys_explorer s) fs (sys_denied s)
    (sys_saved s) (sys_clock s) (sys_ticks s).
Definition with_saved (s : Sys) (sv : gmap string AgentState) : Sys :=
  mkSys (sys_env s) (sys_agent s) (sys_explorer s) (sys_files s) (sys_denied s)
    sv (sys_clock s) (sys_ticks s).
Definition with_ticks (s : Sys) (n : nat) : Sys :=
  mkSys (sys_env s) (sys_agent s) (sys_explorer s) (sys_files s) (sys_denied s)
    (sys_saved s) (sys_clock s) n.

Definition sys_reset (s : Sys) : result (Obs * Sys) :=
  match reset (sys_env s) with
  | Ok (obs, e) => Ok (obs, with_env s e)
  | Err x => Err x
  end.

Definition sys_step (a : Act) (s : Sys) : result (Obs * float * bool * Sys) :=
  match step a (sys_env s) with
  | Ok (obs, r, done, e) => Ok (obs, r, done, with_env s e)
  | Err x => Err x
  end.

Definition sys_act (obs : Obs) (s : Sys) : result (Act * Sys) :=
  match act obs (sys_agent s) with
  | Ok (a, ag) => Ok (a, with_agent s ag)
  | Err x => Err x
  end.

Definition sys_stop_episode (s : Sys) : result (unit * Sys) :=
  match stop_episode (sys_agent s) with
  | Ok ag => Ok (tt, with_agent s ag)
  | Err x => Err x
  end.

Definition sys_get_statistics (s : Sys) : result (list (string * pyvalue) * Sys) :=
  match get_statistics (sys_agent s) with
  | Ok st => Ok (st, s)
  | Err x => Err x
  end.

(** [agent.save(dirname)] leaves the agent's state in [dirname]. *)
Definition sys_save (dirname : string) (s : Sys) : result (unit * Sys) :=
  match save dirname (sys_agent s) with
  | Ok _ => Ok (tt, with_saved s (<[dirname := sys_agent s]> (sys_saved s)))
  | Err x => Err x
  end.

(** Only called when an explorer was given. *)
Definition sys_select_action (t : Z) (s : Sys) : result (selection Act * Sys) :=
  match sys_explorer s with
  | Some x =>
      match select_action t x with
      | Ok (c, x') => Ok (c, with_explorer s (Some x'))
      | Err e => Err e
      end
  | None => Err (Error "AttributeError")
  end.

(** [open(path, m)]: ['w'] truncates or creates, ['a'] and ['a+'] create
    the file when it is missing. *)
Definition sys_open (path : string) (m : mode) (s : Sys) : result (unit * Sys) :=
  if decide (path ∈ sys_denied s) then Err (IOError path)
  else
    match m, sys_files s !! path with
    | ModeW, _ | _, None => Ok (tt, with_files s (<[path := []]> (sys_files s)))
    | _, Some _ => Ok (tt, s)
    end.

(** [print(line, file=f)] on an open file: one more line at its end. *)
Definition sys_print (path line : string) (s : Sys) : result (unit * Sys) :=
  Ok (tt, with_files s (<[path := default [] (sys_files s !! path) ++ [line]]> (sys_files s))).

Definition sys_time (s : Sys) : result (float * Sys) :=
  Ok (sys_clock s (sys_ticks s), with_ticks s (S (sys_ticks s))).

(** A call that does not touch the world, such as [statistics.mean]. *)
Definition pure {B} (r : result B) (s : Sys) : result (B * Sys) :=
  match r with
  | Ok b => Ok (b, s)
  | Err e => Err e
  end.

Context {Self : Type}.

Definition env_reset : M Self Obs := call EnvReset sys_reset.
Definition env_step (a : Act) : M Self (Obs * float * bool) :=
  perform (fun '(_, r, done) => Stepped r done) EnvStep (sys_step a).
Definition agent_act (obs : Obs) : M Self Act := call AgentAct (sys_act obs).
Definition agent_stop_episode : M Self unit := call AgentStopEpisode sys_stop_episode.
Definition agent_get_statistics : M Self (list (string * pyvalue)) :=
  call AgentGetStatistics sys_get_statistics.
Definition agent_save (dirname : string) : M Self unit :=
  call (AgentSave dirname) (sys_save dirname).
Definition explorer_select_action (t : Z) : M Self (selection Act) :=
  call (ExplorerSelectAction t) (sys_select_action t).
Definition open (path : string) (m : mode) : M Self unit :=
  call (FileOpen path m) (sys_open path m).
Definition print (path : string) (m : mode) (line : string) : M Self unit :=
  call (FilePrint path m line) (sys_print path line).
Definition time_time : M Self float := call TimeTime sys_time.
Definition logger_info (r : logrecord) : M Self unit :=
  call (LoggerInfo r) (pure (Ok tt)).
Definition mod_ (a b : Z) : M Self Z := call (IntMod a b) (pure (int_mod a b)).
End Calls.

(** ** Module-level functions *)

Section Functions.
Context `{Collaborators} {Self : Type}.

(** [t == max_episode_len], false when [max_episode_len] is [None]. *)
Definition reached (t : Z) (max_episode_len : option Z) : bool :=
  match max_episode_len with
  | Some n => t =? n
  | None => false
  end.

(** The action of one iteration: [explorer.select_action(t,
    greedy_action_func)] when there is an explorer, [greedy_action_func()]
    otherwise. *)
Definition select (t : Z) (obs : Obs) : M Self Act :=
  let greedy_action_func := agent_act obs in
  s ← get_sys;
  match sys_explorer s with
  | Some _ =>
      c ← explorer_select_action t;
      match c with
      | Explore a => mret a
      | Greedy post => a ← greedy_action_func; mret (post a)
      end
  | None => greedy_action_func
  end.

(** The [while not (done or t == max_episode_len)] loop; [fuel] bounds the
    number of iterations.  [test_r] starts as the int [0]; adding the first
    float reward converts it, and [float(test_r)] converts it otherwise, so
    it is kept as the float [0.0] from the start. *)
Fixpoint episode_loop (fuel : nat) (max_episode_len : option Z)
    (obs : Obs) (done : bool) (test_r : float) (t : Z) : M Self float :=
  if done || reached t max_episode_len then mret test_r
  else
    match fuel with
    | O => out_of_fuel
    | S fuel' =>
        a ← select t obs;
        '(obs', r, done') ← env_step a;
        episode_loop fuel' max_episode_len obs' done' (F64.add test_r r) (t + 1)
    end.

(** The body of [for i in range(n_runs)], returning the score appended to
    [scores]. *)
Definition run_episode (fuel : nat) (max_episode_len : option Z) (i : Z)
    : M Self float :=
  obs ← env_reset;
  test_r ← episode_loop fuel max_episode_len obs false F64.zero 0;
  agent_stop_episode;;
  logger_info (LogTestEpisode i test_r);;
  mret test_r.

Fixpoint run_episodes (fuel : nat) (max_episode_len : option Z)
    (runs : list Z) (scores : list float) : M Self (list float) :=
  match runs with
  | [] => mret scores
  | i :: runs' =>
      score ← run_episode fuel max_episode_len i;
      run_episodes fuel max_episode_len runs' (scores ++ [score])
  end.

Definition eval_performance (fuel : nat) (n_runs : Z)
    (max_episode_len : option Z) : M Self (float * float * float) :=
  scores ← run_episodes fuel max_episode_len (range n_runs) [];
  mean ← call StatisticsMean (pure (statistics.mean scores));
  median ← call StatisticsMedian (pure (statistics.median scores));
  stdev ← (if n_runs >=? 2
           then call StatisticsStdev (pure (statistics.stdev scores))
           else mret F64.zero);
  mret (mean, median, stdev).

Definition record_stats (outdir : string) (values : list pyvalue) : M Self unit :=
  let path := os_path_join outdir "scores.txt" in
  open path ModeAPlus;;
  print path ModeAPlus (join_tab (map str values)).

Definition save_agent (t : Z) (outdir : string) (suffix : string) : M Self unit :=
  let dirname := os_path_join outdir (str_int t +:+ suffix) in
  agent_save dirname;;
  logger_info (LogSaved dirname).

Definition update_best_model (outdir : string) (t : Z)
    (old_max_score new_max_score : float) : M Self unit :=
  logger_info (LogBestScore old_max_score new_max_score);;
  save_agent t outdir "".
End Functions.

(** The world seen by the methods of an object [self] built in world [w]. *)
Definition bound `{Collaborators} {Self Self' : Type} (self : Self') (w : World Self)
    : World Self' :=
  mkWorld (w_sys w) (w_trace w) self.

(** ** class Evaluator *)

Module Evaluator.
(** The attributes of the object; [agent], [env], [explorer] and [logger]
    are references into the world.  [max_score] starts as the
    [numpy.float32] scalar [np.finfo(np.float32).min] and is replaced by a
    Python float, a mean, at the first update. *)
Record t : Type := mk {
  max_score : number;
  start_time : float;
  n_runs : Z;
  eval_interval : Z;
  outdir : string;
  max_episode_len : option Z;
  step_offset : Z;
  prev_eval_t : Z
}.

Definition with_max_score (self : t) (x : number) : t :=
  mk x (start_time self) (n_runs self) (eval_interval self) (outdir self)
    (max_episode_len self) (step_offset self) (prev_eval_t self).
Definition with_prev_eval_t (self : t) (n : Z) : t :=
  mk (max_score self) (start_time self) (n_runs self) (eval_interval self)
    (outdir self) (max_episode_len self) (step_offset self) n.

Section Methods.
Context `{Collaborators}.

Definition __init__ (n_runs eval_interval : Z) (outdir : string)
    (max_episode_len : option Z) (step_offset : Z) : M unit t :=
  let max_score := NpFloat32 np_finfo_float32_min in
  start_time ← time_time;
  r ← mod_ step_offset eval_interval;
  let prev_eval_t := step_offset - r in
  let path := os_path_join outdir "scores.txt" in
  open path ModeW;;
  stats ← agent_get_statistics;
  let custom_columns := map fst stats in
  let column_names :=
    ["steps"; "elapsed"; "mean"; "median"; "stdev"] ++ custom_columns in
  print path ModeW (join_tab column_names);;
  mret (mk max_score start_time n_runs eval_interval outdir max_episode_len
          step_offset prev_eval_t).

Definition evaluate_and_update_max_score (fuel : nat) (t : Z) : M Evaluator.t float :=
  self ← get_self;
  '(mean, median, stdev) ←
    eval_performance fuel (n_runs self) (max_episode_len self);
  now ← time_time;
  self ← get_self;
  let elapsed := F64.sub now (start_time self) in
  stats ← agent_get_statistics;
  let custom_values := map snd stats in
  let values :=
    [PyInt t; PyFloat elapsed; PyFloat mean; PyFloat median; PyFloat stdev]
      ++ custom_values in
  record_stats (outdir self) values;;
  self ← get_self;
  (if float_gt mean (max_score self)
   then update_best_model (outdir self) t (number_value (max_score self)) mean;;
        self ← get_self;
        set_self (with_max_score self (PythonFloat mean))
   else mret tt);;
  mret mean.

Definition evaluate_if_necessary (fuel : nat) (t : Z)
    : M Evaluator.t (option float) :=
  self ← get_self;
  if t >=? prev_eval_t self + eval_interval self
  then
    score ← evaluate_and_update_max_score fuel t;
    self ← get_self;
    r ← mod_ t (eval_interval self);
    set_self (with_prev_eval_t self (t - r));;
    mret (Some score)
  else mret None.
End Methods.
End Evaluator.

(** ** class AsyncEvaluator *)

Module AsyncEvaluator.
(** [prev_eval_t], [_max_score] and [wrote_header] are the values held by
    the shared cells [mp.Value('l', ..)], [mp.Value('f', ..)] and
    [mp.Value('b', ..)]; every write goes through the cell's C type.  The
    [with cell.get_lock():] blocks are the identity on one thread of
    control. *)
Record t : Type := mk {
  start_time : float;
  n_runs : Z;
  eval_interval : Z;
  outdir : string;
  max_episode_len : option Z;
  step_offset : Z;
  prev_eval_t : Z;
  _max_score : float;
  wrote_header : Z
}.

(** [self.cell.value = v] *)
Definition store_prev_eval_t (self : t) (n : Z) : t :=
  mk (start_time self) (n_runs self) (eval_interval self) (outdir self)
    (max_episode_len self) (step_offset self) (C_long.stored n)
    (_max_score self) (wrote_header self).
Definition store_max_score (self : t) (x : float) : t :=
  mk (start_time self) (n_runs self) (eval_interval self) (outdir self)
    (max_episode_len self) (step_offset self) (prev_eval_t self)
    (C_float.stored x) (wrote_header self).
Definition store_wrote_header (self : t) (b : Z) : t :=
  mk (start_time self) (n_runs self) (eval_interval self) (outdir self)
    (max_episode_len self) (step_offset self) (prev_eval_t self)
    (_max_score self) (C_byte.stored b).

Section Methods.
Context `{Collaborators}.

Definition __init__ (n_runs eval_interval : Z) (outdir : string)
    (max_episode_len : option Z) (step_offset : Z) : M unit t :=
  start_time ← time_time;
  r ← mod_ step_offset eval_interval;
  let prev_eval_t := C_long.stored (step_offset - r) in
  let _max_score := C_float.stored np_finfo_float32_min in
  let wrote_header := C_byte.stored 0 in
  open (os_path_join outdir "scores.txt") ModeA;;
  mret (mk start_time n_runs eval_interval outdir max_episode_len step_offset
          prev_eval_t _max_score wrote_header).

Definition max_score : M AsyncEvaluator.t float :=
  self ← get_self;
  let v := _max_score self in
  mret v.

Definition evaluate_and_update_max_score (fuel : nat) (t : Z)
    : M AsyncEvaluator.t float :=
  self ← get_self;
  '(mean, median, stdev) ←
    eval_performance fuel (n_runs self) (max_episode_len self);
  now ← time_time;
  self ← get_self;
  let elapsed := F64.sub now (start_time self) in
  stats ← agent_get_statistics;
  let custom_values := map snd stats in
  let values :=
    [PyInt t; PyFloat elapsed; PyFloat mean; PyFloat median; PyFloat stdev]
      ++ custom_values in
  record_stats (outdir self) values;;
  self ← get_self;
  (if F64.gtb mean (_max_score self)
   then update_best_model (outdir self) t (_max_score self) mean;;
        self ← get_self;
        set_self (store_max_score self mean)
   else mret tt);;
  mret mean.

Definition write_header : M AsyncEvaluator.t unit :=
  self ← get_self;
  let path := os_path_join (outdir self) "scores.txt" in
  open path ModeW;;
  stats ← agent_get_statistics;
  let custom_columns := map fst stats in
  let column_names :=
    ["steps"; "elapsed"; "mean"; "median"; "stdev"] ++ custom_columns in
  print path ModeW (join_tab column_names).

(** The block under [with self.prev_eval_t.get_lock():], returning
    [necessary]. *)
Definition claim (t : Z) : M AsyncEvaluator.t bool :=
  self ← get_self;
  if t >=? prev_eval_t self + eval_interval self
  then set_self (store_prev_eval_t self (prev_eval_t self + eval_interval self));;
       mret true
  else mret false.

(** The block under [with self.wrote_header.get_lock():]. *)
Definition ensure_header : M AsyncEvaluator.t unit :=
  self ← get_self;
  if wrote_header self =? 0
  then write_header;;
       self ← get_self;
       set_self (store_wrote_header self 1)
  else mret tt.

Definition evaluate_if_necessary (fuel : nat) (t : Z)
    : M AsyncEvaluator.t (option float) :=
  necessary ← claim t;
  if necessary : bool
  then
    ensure_header;;
    score ← evaluate_and_update_max_score fuel t;
    mret (Some score)
  else mret None.
End Methods.
End AsyncEvaluator.

(** ** Scripted collaborators

    A small closed instance on which the model can be run: the environment
    replays scripted episodes (a list of rewards and [done] flags each) and
    raises once the script of an episode is exhausted; the agent counts its
    actions and reports the count as its only statistic; NumPy is a
    NumPy 2. *)
Module Scripted.
Record env : Type := mkEnv {
  pending : list (list (float * bool));
  current : list (float * bool)
}.

Definition env_reset (e : env) : result (unit * env) :=
  match pending e with
  | [] => Ok (tt, mkEnv [] [])
  | ep :: rest => Ok (tt, mkEnv rest ep)
  end.

Definition env_step (a : unit) (e : env) : result (unit * float * bool * env) :=
  match current e with
  | [] => Err (Error "StopIteration")
  | (r, done) :: rest => Ok (tt, r, done, mkEnv (pending e) rest)
  end.

#[export] Instance environment : Environment unit unit env :=
  {| reset := env_reset; step := env_step |}.

#[export] Instance agent : Agent unit unit nat :=
  {| act := fun _ n => Ok (tt, S n);
     stop_episode := fun n => Ok n;
     get_statistics := fun n => Ok [("n_actions"%string, PyInt (Z.of_nat n))];
     save := fun _ _ => Ok tt |}.

#[export] Instance explorer : Explorer unit unit :=
  {| select_action := fun _ x => Ok (Greedy (fun a => a), x) |}.

Definition float_str : FloatStr :=
  fun x => if F64.eqb x F64.zero then "0.0"%string else "<float>"%string.

#[export] Instance collaborators : Collaborators :=
  {| Obs := unit; Act := unit; EnvState := env; AgentState := nat;
     ExplorerState := unit;
     the_statistics := cpython.api; the_float_str := float_str;
     the_numpy := NEP50 |}.

(** The first readings of the clock, one second apart. *)
Definition readings : list float := map F64.of_Z [0; 1; 2; 3; 4; 5; 6; 7].

(** A world with the given episodes to come, no explorer, an empty file
    system and that clock. *)
Definition world (episodes : list (list (float * bool))) : World unit :=
  mkWorld
    (mkSys (mkEnv episodes []) O None ∅ ∅ ∅ (fun n => nth n readings F64.zero) O)
    [] tt.

(** An episode of one step with reward [r]. *)
Definition one_step (r : float) : list (float * bool) := [(r, true)].

(** Objects as their constructors leave them for [n_runs = 1],
    [outdir = "out"], [step_offset = 0] and no [max_episode_len], in a
    world with the given episodes to come. *)
Definition evaluator (eval_interval : Z) (episodes : list (list (float * bool)))
    : World Evaluator.t :=
  bound (Evaluator.mk (NpFloat32 np_finfo_float32_min) F64.zero 1 eval_interval "out"
           None 0 0)
    (world episodes).

Definition async_evaluator (eval_interval : Z) (episodes : list (list (float * bool)))
    : World AsyncEvaluator.t :=
  bound (AsyncEvaluator.mk F64.zero 1 eval_interval "out" None 0 0
           np_finfo_float32_min 0)
    (world episodes).
End Scripted.

(** ** Faulty collaborators

    The scripted environment and explorer with an agent that has no
    statistics to report before it has acted and whose [save] always
    fails. *)
Module Faulty.
#[export] Instance agent : Agent unit unit nat :=
  {| act := fun _ n => Ok (tt, S n);
     stop_episode := fun n => Ok n;
     get_statistics := fun n =>
       match n with
       | O => Err (Error "NotReady")
       | S _ => Ok [("n_actions"%string, PyInt (Z.of_nat n))]
       end;
     save := fun _ _ => Err (Error "DiskFull") |}.

#[export] Instance collaborators : Collaborators :=
  {| Obs := unit; Act := unit; EnvState := Scripted.env; AgentState := nat;
     ExplorerState := unit;
     the_env := Scripted.environment; the_agent := agent;
     the_explorer := Scripted.explorer;
     the_statistics := cpython.api; the_float_str := Scripted.float_str;
     the_numpy := NEP50 |}.
End Faulty.

(** ** Vocabulary of the statements *)

(** How a call ended, without its value. *)
Inductive status : Type :=
| Normal
| Raised (e : exn)
| Timeout.

Definition status_of {B} (o : outcome B) : status :=
  match o with
  | Returns _ => Normal
  | Raises e => Raised e
  | OutOfFuel => Timeout
  end.

Definition map_outcome {B C} (f : B -> C) (o : outcome B) : outcome C :=
  match o with
  | Returns b => Returns (f b)
  | Raises e => Raises e
  | OutOfFuel => OutOfFuel
  end.

(** [m] relates the world it starts in to the world it ends in by [R], for
    the way it ends. *)
Definition respects `{Collaborators} {Self B : Type}
    (R : status -> World Self -> World Self -> Prop) (m : M Self B) : Prop :=
  forall w, R (status_of (m w).1) w (m w).2.

(** What a relation must satisfy to hold of every program made of the calls
    of the episode loop, and of [eval_performance]. *)
Record loop_logic `{Collaborators} {Self : Type}
    (R : status -> World Self -> World Self -> Prop) : Prop := {
  ll_refl : forall w, R Normal w w;
  ll_fuel : forall w, R Timeout w w;
  ll_trans : forall st w w1 w2, R Normal w w1 -> R st w1 w2 -> R st w w2;
  ll_step : forall a, respects R (env_step a);
  ll_act : forall obs, respects R (agent_act obs);
  ll_select : forall t, respects R (explorer_select_action t)
}.

Record episode_logic `{Collaborators} {Self : Type}
    (R : status -> World Self -> World Self -> Prop) : Prop := {
  el_loop : loop_logic R;
  el_reset : respects R env_reset;
  el_stop : respects R agent_stop_episode;
  el_log : forall i x, respects R (logger_info (LogTestEpisode i x));
  el_mean : forall r : result float, respects R (call StatisticsMean (pure r));
  el_median : forall r : result float, respects R (call StatisticsMedian (pure r));
  el_stdev : forall r : result float, respects R (call StatisticsStdev (pure r))
}.

(** The new events of [w'] with respect to [w] all satisfy [P]. *)
Definition only `{Collaborators} {Self : Type} (P : event -> Prop)
    : status -> World Self -> World Self -> Prop :=
  fun _ w w' => exists evs, w_trace w' = w_trace w ++ evs /\ Forall P evs.

(** The observation [g] of the world is unchanged. *)
Definition keeps `{Collaborators} {Self T : Type} (g : World Self -> T)
    : status -> World Self -> World Self -> Prop :=
  fun _ w w' => g w' = g w.

Definition succeeded (ev : event) : Prop :=
  match ev with
  | Failed _ _ => False
  | _ => True
  end.

(** Fail fast: the call raises [e] exactly when the last thing it did was a
    call that raised [e]; every call before it returned. *)
Definition fail_fast `{Collaborators} {Self : Type}
    : status -> World Self -> World Self -> Prop :=
  fun st w w' =>
    exists evs, w_trace w' = w_trace w ++ evs /\
      match st with
      | Raised e => exists evs0 o, evs = evs0 ++ [Failed o e] /\ Forall succeeded evs0
      | _ => Forall succeeded evs
      end.

(** The operation behind an event. *)
Definition event_op (ev : event) : op :=
  match ev with
  | Called o | Failed o _ => o
  | Stepped _ _ => EnvStep
  end.

(** The calls the episode loop makes, and those [eval_performance] makes. *)
Definition loop_op (o : op) : bool :=
  match o with
  | EnvStep | AgentAct | ExplorerSelectAction _ => true
  | _ => false
  end.

Definition episode_op (o : op) : bool :=
  match o with
  | EnvReset | AgentStopEpisode
  | StatisticsMean | StatisticsMedian | StatisticsStdev
  | LoggerInfo (LogTestEpisode _ _) => true
  | _ => loop_op o
  end.

Definition loop_event (ev : event) : Prop := loop_op (event_op ev) = true.
Definition episode_event (ev : event) : Prop := episode_op (event_op ev) = true.

(** The [(reward, done)] pairs returned by [env.step], in order. *)
Fixpoint steps_of (evs : list event) : list (float * bool) :=
  match evs with
  | [] => []
  | Stepped r done :: evs' => (r, done) :: steps_of evs'
  | _ :: evs' => steps_of evs'
  end.

(** [test_r] after adding the rewards in order to [test_r0]. *)
Definition total_reward (test_r0 : float) (steps : list (float * bool)) : float :=
  fold_left (fun acc s => F64.add acc s.1) steps test_r0.

(** The directories the agent was saved to, and the lines printed to files
    opened with ['w'] (headers) and with ['a+'] (rows), in order. *)
Fixpoint saved_dirs (evs : list event) : list string :=
  match evs with
  | [] => []
  | Called (AgentSave dirname) :: evs' => dirname :: saved_dirs evs'
  | _ :: evs' => saved_dirs evs'
  end.

Fixpoint headers (evs : list event) : list string :=
  match evs with
  | [] => []
  | Called (FilePrint _ ModeW line) :: evs' => line :: headers evs'
  | _ :: evs' => headers evs'
  end.

Fixpoint rows (evs : list event) : list string :=
  match evs with
  | [] => []
  | Called (FilePrint _ ModeAPlus line) :: evs' => line :: rows evs'
  | _ :: evs' => rows evs'
  end.

(** The scores of the episodes of a trace: an episode starts at each
    [env.reset()], and its score is the sum, from [0.0] and in order, of the
    rewards of the steps up to the next [env.reset()]. *)
Fixpoint scores_from (cur : option float) (evs : list event) : list float :=
  match evs with
  | [] => option_list cur
  | Called EnvReset :: evs' => option_list cur ++ scores_from (Some F64.zero) evs'
  | Stepped r _ :: evs' => scores_from (option_map (fun x => F64.add x r) cur) evs'
  | _ :: evs' => scores_from cur evs'
  end.

Definition episode_scores (evs : list event) : list float := scores_from None evs.

(** No step of the list reported [done]. *)
Definition all_running (steps : list (float * bool)) : Prop :=
  Forall (fun s => s.2 = false) steps.

(** What the new events [evs] of the [while] loop look like when it was
    entered with [done = False], [test_r] and [t] and ended as [out]. *)
Definition loop_post (max_episode_len : option Z) (t : Z) (test_r : float)
    (fuel : nat) (out : outcome float) (evs : list event) : Prop :=
  (forall n, max_episode_len = Some n -> t <= n ->
             Z.of_nat (length (steps_of evs)) <= n - t) /\
  match out with
  | Returns score =>
      score = total_reward test_r (steps_of evs) /\
      ((exists evs0 r, evs = evs0 ++ [Stepped r true] /\ all_running (steps_of evs0)) \/
       (all_running (steps_of evs) /\
        max_episode_len = Some (t + Z.of_nat (length (steps_of evs)))))
  | Raises _ => all_running (steps_of evs)
  | OutOfFuel =>
      all_running (steps_of evs) /\ length (steps_of evs) = fuel /\
      forall n, max_episode_len = Some n -> ~ (t <= n <= t + Z.of_nat fuel)
  end.

(** A [numpy.float32] scalar holds a single precision number: storing its
    value in a C [float] gives it back.  A Python float holds any double. *)
Definition well_formed (n : number) : Prop :=
  match n with
  | PythonFloat _ => True
  | NpFloat32 x => C_float.stored x = x
  end.

(** [mean > n] is the strict order of double precision on the values:
    always when [n] is a Python float, and under the promotion rules of
    NumPy 1.x when it is a [numpy.float32] scalar. *)
Definition compared_in_double `{NumPy} (n : number) : Prop :=
  match n with
  | PythonFloat _ => True
  | NpFloat32 _ => numpy_promotion = Legacy
  end.

(** What [eval_performance] leaves alone: the evaluator object, the files,
    the saved agents and the clock. *)
Definition episode_frame `{Collaborators} {Self : Type} (w : World Self) :=
  (w_self w, sys_files (w_sys w), sys_saved (w_sys w), sys_denied (w_sys w),
   sys_clock (w_sys w), sys_ticks (w_sys w)).

(** The world after the calls [evaluate_if_necessary(t)] for [t] in [ts], in
    order. *)
Definition Evaluator_calls `{Collaborators} (fuel : nat) (ts : list Z)
    (w : World Evaluator.t) : World Evaluator.t :=
  fold_left (fun w t => (Evaluator.evaluate_if_necessary fuel t w).2) ts w.

Definition AsyncEvaluator_calls `{Collaborators} (fuel : nat) (ts : list Z)
    (w : World AsyncEvaluator.t) : World AsyncEvaluator.t :=
  fold_left (fun w t => (AsyncEvaluator.evaluate_if_necessary fuel t w).2) ts w.

(** ** Workers sharing an [AsyncEvaluator]

    Several workers, each with an environment and an agent of its own, call
    [evaluate_if_necessary(t, env, agent)] on one shared object.  A call is
    made of three blocks: the block under the lock of [prev_eval_t], the
    block under the lock of [wrote_header], and the evaluation.  The first
    two are atomic because of their locks; the evaluation is taken as one
    step as well, which is harmless for what is stated about the header,
    since it neither reads nor writes [wrote_header] and prints no header.  A
    schedule says which worker runs its next block, and with which [t] when
    that block starts a new call. *)
Inductive progress : Type :=
| Outside
| Claimed (t : Z)
| HeaderChecked (t : Z).

Record worker `{Collaborators} : Type := mkWorker {
  wk_env : EnvState;
  wk_agent : AgentState;
  wk_at : progress
}.
Arguments mkWorker {_} wk_env wk_agent wk_at.

(** The world as worker [wk] sees it: its own environment and agent, the
    shared files, clock, trace and evaluator. *)
Definition load `{Collaborators} {Self : Type} (wk : worker) (w : World Self)
    : World Self :=
  mkWorld (with_agent (with_env (w_sys w) (wk_env wk)) (wk_agent wk))
    (w_trace w) (w_self w).

(** The worker after a block that left the world [w'], standing at [at']. *)
Definition unload `{Collaborators} {Self : Type} (w' : World Self) (at' : progress)
    : worker :=
  mkWorker (sys_env (w_sys w')) (sys_agent (w_sys w')) at'.

(** The next block of worker [wk]; [t] is the argument of the call when the
    block starts one.  A block that raises ends the call. *)
Definition block `{Collaborators} (fuel : nat) (t : Z) (wk : worker)
    (w : World AsyncEvaluator.t) : worker * World AsyncEvaluator.t :=
  match wk_at wk with
  | Outside =>
      let r := AsyncEvaluator.claim t (load wk w) in
      (unload r.2 (match r.1 with Returns true => Claimed t | _ => Outside end), r.2)
  | Claimed t0 =>
      let r := AsyncEvaluator.ensure_header (load wk w) in
      (unload r.2 (match r.1 with Returns _ => HeaderChecked t0 | _ => Outside end), r.2)
  | HeaderChecked t0 =>
      let r := AsyncEvaluator.evaluate_and_update_max_score fuel t0 (load wk w) in
      (unload r.2 Outside, r.2)
  end.

(** Running a schedule: each entry [(k, t)] lets worker [k] run its next
    block. *)
Fixpoint run_schedule `{Collaborators} (fuel : nat) (schedule : list (nat * Z))
    (workers : list worker) (w : World AsyncEvaluator.t)
    : list worker * World AsyncEvaluator.t :=
  match schedule with
  | [] => (workers, w)
  | (k, t) :: schedule' =>
      match workers !! k with
      | Some wk =>
          let r := block fuel t wk w in
          run_schedule fuel schedule' (<[k := r.1]> workers) r.2
      | None => run_schedule fuel schedule' workers w
      end
  end.

(** What one block or one call may do to the header: nothing once
    [wrote_header] is set; while it is unset, either nothing, or write one
    header and set it.  And what any number of them may do: write the header
    at most once, and exactly once as soon as [wrote_header] is set. *)
Definition header_step `{Collaborators} (w w' : World AsyncEvaluator.t) : Prop :=
  exists evs,
    w_trace w' = w_trace w ++ evs /\
    (AsyncEvaluator.wrote_header (w_self w) <> 0 ->
     headers evs = [] /\
     AsyncEvaluator.wrote_header (w_self w') = AsyncEvaluator.wrote_header (w_self w)) /\
    (AsyncEvaluator.wrote_header (w_self w) = 0 ->
     (AsyncEvaluator.wrote_header (w_self w') = 0 /\ headers evs = []) \/
     (AsyncEvaluator.wrote_header (w_self w') = 1 /\ length (headers evs) = 1%nat)).

Definition header_once `{Collaborators} (w w' : World AsyncEvaluator.t) : Prop :=
  exists evs,
    w_trace w' = w_trace w ++ evs /\
    (AsyncEvaluator.wrote_header (w_self w) <> 0 ->
     headers evs = [] /\ AsyncEvaluator.wrote_header (w_self w') <> 0) /\
    (AsyncEvaluator.wrote_header (w_self w) = 0 ->
     length (headers evs) =
       if AsyncEvaluator.wrote_header (w_self w') =? 0 then 0%nat else 1%nat).

(** ** Vocabulary of the further properties *)

(** The file system after [lines] were appended, one by one, to the file
    [path], which is created when missing: what [record_stats] does. *)
Definition appended (path : string) (lines : list string)
    (fs : gmap string (list string)) : gmap string (list string) :=
  fold_left (fun fs line => <[path := default [] (fs !! path) ++ [line]]> fs) lines fs.

(** Whether a worker is inside a call it has claimed an evaluation for, and
    how many of the workers are. *)
Definition busy `{Collaborators} (wk : worker) : nat :=
  match wk_at wk with
  | Outside => 0
  | _ => 1
  end.

Definition busy_workers `{Collaborators} (workers : list worker) : nat :=
  sum_list (map busy workers).

(** The header line for the statistics [stats] of an agent. *)
Definition header_line (stats : list (string * pyvalue)) : string :=
  join_tab (["steps"; "elapsed"; "mean"; "median"; "stdev"] ++ map fst stats).

(** The records [logger.info('test episode: %s R: %s', i, test_r)] of a
    trace, and its calls of [env.reset()] and [agent.stop_episode()] that
    returned, in order. *)
Fixpoint test_episodes (evs : list event) : list (Z * float) :=
  match evs with
  | [] => []
  | Called (LoggerInfo (LogTestEpisode i R)) :: evs' => (i, R) :: test_episodes evs'
  | _ :: evs' => test_episodes evs'
  end.

Fixpoint episode_marks (evs : list event) : list op :=
  match evs with
  | [] => []
  | Called EnvReset :: evs' => EnvReset :: episode_marks evs'
  | Called AgentStopEpisode :: evs' => AgentStopEpisode :: episode_marks evs'
  | _ :: evs' => episode_marks evs'
  end.

(** The time steps [explorer.select_action] was called with, in order, and
    the number of calls of [agent.act]; a call that raised counts. *)
Fixpoint select_times (evs : list event) : list Z :=
  match evs with
  | [] => []
  | Called (ExplorerSelectAction t) :: evs'
  | Failed (ExplorerSelectAction t) _ :: evs' => t :: select_times evs'
  | _ :: evs' => select_times evs'
  end.

Fixpoint acts (evs : list event) : nat :=
  match evs with
  | [] => 0
  | Called AgentAct :: evs' | Failed AgentAct _ :: evs' => S (acts evs')
  | _ :: evs' => acts evs'
  end.

(** The scores returned by the calls [evaluate_if_necessary(t)] for [t] in
    [ts], in order. *)
Fixpoint Evaluator_scores `{Collaborators} (fuel : nat) (ts : list Z)
    (w : World Evaluator.t) : list float :=
  match ts with
  | [] => []
  | t :: ts' =>
      let r := Evaluator.evaluate_if_necessary fuel t w in
      match r.1 with
      | Returns (Some score) => score :: Evaluator_scores fuel ts' r.2
      | _ => Evaluator_scores fuel ts' r.2
      end
  end.

(** * Properties *)

Section Respects.
Context `{Collaborators} {Self : Type}.
Variable R : status -> World Self -> World Self -> Prop.
Hypothesis R_refl : forall w, R Normal w w.
Hypothesis R_trans : forall st w w1 w2, R Normal w w1 -> R st w1 w2 -> R st w w2.

Lemma respects_ret {B} (b : B) : respects R (mret b : M Self B).
Proof. intros w. apply R_refl. Qed.

Lemma respects_bind {B C} (m : M Self B) (k : B -> M Self C) :
  respects R m -> (forall b, respects R (k b)) -> respects R (m ≫= k).
Proof.
  intros Hm Hk w. specialize (Hm w).
  unfold mbind, M_bind, bind. destruct (m w) as [[b | e | ] w1]; simpl in *; auto.
  eapply R_trans; [exact Hm | apply Hk].
Qed.

Lemma respects_get_self : respects R (get_self : M Self Self).
Proof. intros w. apply R_refl. Qed.

Lemma respects_get_sys : respects R (get_sys : M Self Sys).
Proof. intros w. apply R_refl. Qed.
End Respects.

Section LoopLogic.
Context `{Collaborators} {Self : Type}.
Variable R : status -> World Self -> World Self -> Prop.
Hypothesis L : loop_logic R.

Lemma select_respects t obs : respects R (select t obs).
Proof.
  destruct L. unfold select.
  apply respects_bind; auto using respects_get_sys.
  intros s. destruct (sys_explorer s); auto.
  apply respects_bind; auto.
  intros [a | post]; auto using respects_ret.
  apply respects_bind; auto using respects_ret.
Qed.

Lemma episode_loop_respects fuel cap obs done test_r t :
  respects R (episode_loop fuel cap obs done test_r t).
Proof.
  revert obs done test_r t.
  induction fuel as [| fuel IH]; intros obs done test_r t; simpl;
    destruct (done || reached t cap);
    try (apply respects_ret; apply L).
  - intros w. apply L.
  - apply respects_bind; try apply L; auto using select_respects.
    intros a. apply respects_bind; try apply L.
    intros [[obs' r] done']. apply IH.
Qed.
End LoopLogic.

Section EpisodeLogic.
Context `{Collaborators} {Self : Type}.
Variable R : status -> World Self -> World Self -> Prop.
Hypothesis L : episode_logic R.

Lemma run_episode_respects fuel cap i : respects R (run_episode fuel cap i).
Proof.
  destruct L as [[] ? ? ? ? ? ?]. unfold run_episode.
  repeat (apply respects_bind;
          auto using episode_loop_respects, respects_ret, el_loop; intros).
Qed.

Lemma run_episodes_respects fuel cap runs scores :
  respects R (run_episodes fuel cap runs scores).
Proof.
  revert scores. induction runs as [| i runs IH]; intros scores; simpl.
  - apply respects_ret, L.
  - apply respects_bind; try apply L; auto using run_episode_respects.
Qed.

Lemma eval_performance_respects fuel n_runs cap :
  respects R (eval_performance fuel n_runs cap).
Proof.
  destruct L as [[] ? ? ? ? ? ?]. unfold eval_performance.
  apply respects_bind; auto using run_episodes_respects. intros scores.
  apply respects_bind; auto. intros mean.
  apply respects_bind; auto. intros median.
  apply respects_bind; auto using respects_ret.
  destruct (n_runs >=? 2); auto using respects_ret.
Qed.
End EpisodeLogic.

(** ** Three instances: events, frame, fail fast *)

Section Instances.
Context `{Collaborators} {Self : Type}.

Lemma only_perform (P : event -> Prop) {B} (ev : B -> event) o f :
  (forall b, P (ev b)) -> (forall e, P (Failed o e)) ->
  respects (only P) (perform (Self := Self) ev o f).
Proof.
  intros Hev Hfail w. unfold perform.
  destruct (f (w_sys w)) as [[b s'] | e]; simpl; eexists; split; eauto.
Qed.

Lemma only_refl (P : event -> Prop) st (w : World Self) : only P st w w.
Proof. exists []. split; [by rewrite app_nil_r | constructor]. Qed.

Lemma only_trans (P : event -> Prop) st st' (w w1 w2 : World Self) :
  only P st w w1 -> only P st' w1 w2 -> only P st' w w2.
Proof.
  intros (evs1 & E1 & F1) (evs2 & E2 & F2). exists (evs1 ++ evs2). split.
  - by rewrite E2, E1, app_assoc.
  - by apply Forall_app.
Qed.

Lemma only_weaken (P Q : event -> Prop) st (w w' : World Self) :
  (forall ev, P ev -> Q ev) -> only P st w w' -> only Q st w w'.
Proof.
  intros HPQ (evs & E & F). exists evs. split; [done |].
  eapply Forall_impl; eauto.
Qed.

Lemma only_loop_logic (P : event -> Prop) :
  (forall ev, loop_event ev -> P ev) -> loop_logic (only (Self := Self) P).
Proof.
  intros HP. split; intros;
    try (apply only_perform; intros; try match goal with b : _ * _ |- _ =>
           destruct b as [[? ?] ?] end; apply HP; reflexivity).
  - apply only_refl.
  - apply only_refl.
  - eapply only_trans; eauto.
Qed.

Lemma only_episode_logic (P : event -> Prop) :
  (forall ev, episode_event ev -> P ev) -> episode_logic (only (Self := Self) P).
Proof.
  intros HP. split; intros;
    try (apply only_perform; intros; apply HP; reflexivity).
  apply only_loop_logic. intros ev Hev. apply HP.
  unfold loop_event in Hev. unfold episode_event, episode_op. rewrite Hev.
  by destruct (event_op ev) as [| | | | | | | | | | | | | | []].
Qed.

Lemma keeps_perform {T B} (g : World Self -> T) (ev : B -> event) o f :
  (forall w b s',
      f (w_sys w) = Ok (b, s') ->
      g (mkWorld s' (w_trace w ++ [ev b]) (w_self w)) = g w) ->
  (forall w e, g (mkWorld (w_sys w) (w_trace w ++ [Failed o e]) (w_self w)) = g w) ->
  respects (keeps g) (perform ev o f).
Proof.
  intros Hok Herr w. unfold keeps, perform.
  destruct (f (w_sys w)) as [[b s'] | e] eqn:E; simpl; auto.
Qed.

Lemma frame_episode_logic : episode_logic (keeps (Self := Self) episode_frame).
Proof.
  split; [split |..]; unfold keeps; intros; try congruence;
    apply keeps_perform; try reflexivity; intros w0 b s'; unfold episode_frame; simpl.
  - unfold sys_step. destruct (step _ _) as [[[[? ?] ?] ?] |]; intros [= <- <-]; done.
  - unfold sys_act. destruct (act _ _) as [[? ?] |]; intros [= <- <-]; done.
  - unfold sys_select_action. destruct (sys_explorer _); [| done].
    destruct (select_action _ _) as [[? ?] |]; intros [= <- <-]; done.
  - unfold sys_reset. destruct (reset _) as [[? ?] |]; intros [= <- <-]; done.
  - unfold sys_stop_episode. destruct (stop_episode _); intros [= <- <-]; done.
  - intros [= <- <-]; done.
  - destruct r; intros [= <- <-]; done.
  - destruct r; intros [= <- <-]; done.
  - destruct r; intros [= <- <-]; done.
Qed.

Lemma fail_fast_perform {B} (ev : B -> event) o f :
  (forall b, succeeded (ev b)) ->
  respects fail_fast (perform (Self := Self) ev o f).
Proof.
  intros Hev w. unfold perform.
  destruct (f (w_sys w)) as [[b s'] | e]; simpl; eexists; (split; [reflexivity |]).
  - repeat constructor. apply Hev.
  - exists [], o. by split.
Qed.

Lemma fail_fast_refl st (w : World Self) :
  match st with Raised _ => False | _ => True end -> fail_fast st w w.
Proof.
  intros Hst. exists []. split; [by rewrite app_nil_r |].
  destruct st; [constructor | done | constructor].
Qed.

Lemma fail_fast_trans st (w w1 w2 : World Self) :
  fail_fast Normal w w1 -> fail_fast st w1 w2 -> fail_fast st w w2.
Proof.
  intros (evs1 & E1 & F1) (evs2 & E2 & F2). exists (evs1 ++ evs2). split.
  - by rewrite E2, E1, app_assoc.
  - destruct st as [| e |]; try (by apply Forall_app).
    destruct F2 as (evs0 & o & -> & F0). exists (evs1 ++ evs0), o.
    split; [by rewrite app_assoc | by apply Forall_app].
Qed.

Lemma fail_fast_episode_logic : episode_logic (fail_fast (Self := Self)).
Proof.
  split; [split |..]; intros;
    try (apply fail_fast_perform; intros; try match goal with b : _ * _ |- _ =>
           destruct b as [[? ?] ?] end; exact I).
  - by apply fail_fast_refl.
  - by apply fail_fast_refl.
  - eapply fail_fast_trans; eauto.
Qed.
End Instances.

(** ** The episode loop *)

Section EpisodeLoop.
Context `{Collaborators} {Self : Type}.

Lemma steps_of_app evs1 evs2 : steps_of (evs1 ++ evs2) = steps_of evs1 ++ steps_of evs2.
Proof.
  induction evs1 as [| [o | r d | o e] evs1 IH]; simpl; auto. by rewrite IH.
Qed.

Lemma episode_loop_done fuel cap obs test_r t (w : World Self) :
  episode_loop fuel cap obs true test_r t w = (Returns test_r, w).
Proof. by destruct fuel. Qed.

(** Choosing the action steps the environment in no case. *)
Lemma select_no_step t obs (w : World Self) :
  exists evs, w_trace (select t obs w).2 = w_trace w ++ evs /\ steps_of evs = [].
Proof.
  unfold select, mbind, M_bind, bind, get_sys, explorer_select_action, agent_act,
    call, perform, mret, M_ret, ret; simpl.
  destruct (sys_explorer (w_sys w)) as [x |].
  - destruct (sys_select_action t (w_sys w)) as [[[a | post] s'] | e]; simpl;
      try (eexists; split; [reflexivity | reflexivity]).
    destruct (sys_act obs s') as [[a s''] | e']; simpl;
      eexists; (split; [by rewrite <- app_assoc | reflexivity]).
  - destruct (sys_act obs (w_sys w)) as [[a s''] | e]; simpl;
      eexists; (split; [reflexivity | reflexivity]).
Qed.

Lemma select_raises_or_returns t obs (w : World Self) :
  (select t obs w).1 <> OutOfFuel.
Proof.
  unfold select, mbind, M_bind, bind, get_sys, explorer_select_action, agent_act,
    call, perform, mret, M_ret, ret; simpl.
  destruct (sys_explorer (w_sys w)) as [x |].
  - destruct (sys_select_action t (w_sys w)) as [[[a | post] s'] | e]; simpl; try done.
    destruct (sys_act obs s') as [[a s''] | e']; simpl; done.
  - destruct (sys_act obs (w_sys w)) as [[a s''] | e]; simpl; done.
Qed.

Lemma episode_loop_spec fuel cap obs test_r t (w : World Self) :
  exists evs,
    w_trace (episode_loop fuel cap obs false test_r t w).2 = w_trace w ++ evs /\
    loop_post cap t test_r fuel (episode_loop fuel cap obs false test_r t w).1 evs.
Proof.
  unfold loop_post. revert obs test_r t w.
  induction fuel as [| fuel IH]; intros obs test_r t w; simpl;
    destruct (reached t cap) eqn:Hr.
  - exists []. rewrite app_nil_r. split; [done |]. split.
    + simpl. intros n -> Hn. lia.
    + simpl. split; [done |]. right. split; [constructor |].
      destruct cap as [n |]; simpl in Hr; [| done].
      apply Z.eqb_eq in Hr. f_equal. lia.
  - exists []. rewrite app_nil_r. split; [done |]. split.
    + simpl. intros n -> Hn. lia.
    + simpl. split; [constructor |]. split; [done |].
      intros n ->. simpl in Hr. apply Z.eqb_neq in Hr. lia.
  - exists []. rewrite app_nil_r. split; [done |]. split.
    + simpl. intros n -> Hn. lia.
    + simpl. split; [done |]. right. split; [constructor |].
      destruct cap as [n |]; simpl in Hr; [| done].
      apply Z.eqb_eq in Hr. f_equal. lia.
  - assert (Hcap : forall n, cap = Some n -> t <> n).
    { intros n ->. simpl in Hr. by apply Z.eqb_neq in Hr. }
    unfold mbind, M_bind, bind.
    destruct (select_no_step t obs w) as (evs1 & E1 & S1).
    pose proof (select_raises_or_returns t obs w) as N1.
    destruct (select t obs w) as [[a | e |] w1]; simpl in *; [| | done].
    2:{ exists evs1. split; [done |]. rewrite S1. split; [| constructor].
        simpl. intros n -> Hn. lia. }
    unfold env_step, perform.
    destruct (sys_step a (w_sys w1)) as [[[[obs' r] done'] s'] | e]; simpl.
    2:{ exists (evs1 ++ [Failed EnvStep e]). rewrite E1, <- app_assoc.
        split; [done |]. rewrite steps_of_app, S1. split; [| constructor].
        simpl. intros n -> Hn. lia. }
    destruct done'.
    + rewrite episode_loop_done. simpl.
      exists (evs1 ++ [Stepped r true]). rewrite E1, <- app_assoc.
      split; [done |]. rewrite steps_of_app, S1. split.
      * simpl. intros n Hn Ht. specialize (Hcap n Hn). lia.
      * simpl. split; [done |]. left. exists evs1, r. rewrite S1. split; [done | constructor].
    + match goal with |- context [episode_loop fuel cap obs' false ?x ?t' ?w'] =>
        destruct (IH obs' x t' w') as (evs2 & E2 & Hbound & Hout) end.
      simpl in E2.
      exists (evs1 ++ Stepped r false :: evs2).
      split.
      { rewrite E2, E1, <- !app_assoc. done. }
      rewrite steps_of_app, S1. simpl. split.
      { intros n Hn Ht. specialize (Hbound n Hn). specialize (Hcap n Hn). lia. }
      destruct (episode_loop fuel cap obs' false (F64.add test_r r) (t + 1) _).1
        as [score | e |]; simpl.
      * destruct Hout as [-> Hend]. split; [done |].
        destruct Hend as [(evs0 & x & -> & Hrun) | [Hrun Hc]].
        -- left. exists (evs1 ++ Stepped r false :: evs0), x.
           split; [by rewrite <- app_assoc |].
           rewrite steps_of_app, S1. simpl. by constructor.
        -- right. split; [by constructor |]. rewrite Hc. f_equal. lia.
      * by constructor.
      * destruct Hout as (Hrun & Hlen & Hn). split; [by constructor |].
        split; [by rewrite Hlen |].
        intros n Hc [Hn1 Hn2]. specialize (Hcap n Hc). apply (Hn n Hc). lia.
Qed.
End EpisodeLoop.

(** C7.  The [while] loop of an evaluation episode, entered as
    [eval_performance] enters it ([done = False], [test_r = 0], [t = 0]):
    with [max_episode_len] a non-negative integer [n] it ends within [n]
    iterations (fuel [n] is enough), steps the environment at most [n] times,
    and when it returns, the score is the sum of the rewards of the steps
    taken and the loop stopped either right after the first step that
    reported [done] or after exactly [n] steps, none of them [done]; with
    [max_episode_len] unset there is no cap: the loop returns only right
    after the first [done] step and otherwise takes as many steps as the fuel
    allows. *)
Theorem episode_loop_at_most_max_episode_len `{Collaborators} {Self : Type}
    (fuel : nat) (n : Z) (obs : Obs) (w : World Self) :
  0 <= n -> (Z.to_nat n <= fuel)%nat ->
  (exists evs,
      w_trace (episode_loop fuel (Some n) obs false F64.zero 0 w).2 = w_trace w ++ evs /\
      (episode_loop fuel (Some n) obs false F64.zero 0 w).1 <> OutOfFuel /\
      (length (steps_of evs) <= Z.to_nat n)%nat /\
      forall score,
        (episode_loop fuel (Some n) obs false F64.zero 0 w).1 = Returns score ->
        score = total_reward F64.zero (steps_of evs) /\
        ((exists evs0 r, evs = evs0 ++ [Stepped r true] /\ all_running (steps_of evs0)) \/
         (all_running (steps_of evs) /\ length (steps_of evs) = Z.to_nat n))) /\
  (exists evs,
      w_trace (episode_loop fuel None obs false F64.zero 0 w).2 = w_trace w ++ evs /\
      (forall score,
          (episode_loop fuel None obs false F64.zero 0 w).1 = Returns score ->
          score = total_reward F64.zero (steps_of evs) /\
          exists evs0 r, evs = evs0 ++ [Stepped r true] /\ all_running (steps_of evs0)) /\
      ((episode_loop fuel None obs false F64.zero 0 w).1 = OutOfFuel ->
       all_running (steps_of evs) /\ length (steps_of evs) = fuel)).
Proof.
  intros Hn Hfuel. split.
  - destruct (episode_loop_spec fuel (Some n) obs F64.zero 0 w) as (evs & E & Hbound & Hout).
    exists evs. split; [done |].
    specialize (Hbound n eq_refl Hn).
    destruct (episode_loop fuel (Some n) obs false F64.zero 0 w).1 as [score | e |].
    + split; [done |]. split; [lia |]. intros score' [= <-].
      destruct Hout as [-> [Hdone | [Hrun Hcap]]]; split; auto.
      right. split; [done |]. injection Hcap as Hcap. lia.
    + split; [done |]. split; [lia |]. done.
    + destruct Hout as (_ & _ & Hno). exfalso. apply (Hno n eq_refl). lia.
  - destruct (episode_loop_spec fuel None obs F64.zero 0 w) as (evs & E & _ & Hout).
    exists evs. split; [done |].
    destruct (episode_loop fuel None obs false F64.zero 0 w).1 as [score | e |].
    + split; [| done]. intros score' [= <-].
      destruct Hout as [-> [Hdone | [_ Hcap]]]; [auto | done].
    + split; done.
    + split; [done |]. intros _. by destruct Hout as (? & ? & _).
Qed.

(** ** What an evaluation leaves alone *)

Section Frame.
Context `{Collaborators} {Self : Type}.

Lemma saved_dirs_app evs1 evs2 : saved_dirs (evs1 ++ evs2) = saved_dirs evs1 ++ saved_dirs evs2.
Proof.
  induction evs1 as [| [[] | |] evs1 IH]; simpl; auto. by rewrite IH.
Qed.

Lemma headers_app evs1 evs2 : headers (evs1 ++ evs2) = headers evs1 ++ headers evs2.
Proof.
  induction evs1 as [| ev evs1 IH]; [done |].
  simpl. repeat case_match; by rewrite ?IH.
Qed.

Lemma rows_app evs1 evs2 : rows (evs1 ++ evs2) = rows evs1 ++ rows evs2.
Proof.
  induction evs1 as [| ev evs1 IH]; [done |].
  simpl. repeat case_match; by rewrite ?IH.
Qed.

Lemma episode_events_quiet evs :
  Forall episode_event evs -> saved_dirs evs = [] /\ headers evs = [] /\ rows evs = [].
Proof.
  induction 1 as [| ev evs Hev _ IH]; [done |].
  destruct ev as [[] | |[]]; try discriminate Hev; simpl; auto.
Qed.

(** [eval_performance] only talks to the environment, the agent, the
    explorer, [statistics] and the logger. *)
Lemma eval_performance_frame fuel n_runs cap (w : World Self) :
  episode_frame (eval_performance fuel n_runs cap w).2 = episode_frame w /\
  exists evs,
    w_trace (eval_performance fuel n_runs cap w).2 = w_trace w ++ evs /\
    Forall episode_event evs.
Proof.
  split.
  - apply (eval_performance_respects _ frame_episode_logic).
  - apply (eval_performance_respects _ (only_episode_logic _ (fun _ H => H))).
Qed.

Lemma gtb_irrefl x : F64.gtb x x = false.
Proof.
  unfold F64.gtb, SFltb.
  destruct x as [| [] | | [] m e]; simpl; try done;
    rewrite Z.compare_refl, Pos.compare_cont_refl; done.
Qed.

Lemma gtb_eqb x y : F64.eqb x y = true -> F64.gtb x y = false.
Proof.
  unfold F64.gtb, F64.eqb, SFltb, SFeqb.
  destruct x as [| [] | | [] m e], y as [| [] | | [] m' e']; simpl; try done;
    destruct (Z.compare_spec e e') as [-> | |]; try done;
    rewrite ?Z.compare_refl;
    destruct (Pos.compare_cont Eq m m') eqn:Hm; try done;
    apply (Pos.compare_eq m m') in Hm as ->;
    by rewrite Pos.compare_cont_refl.
Qed.
End Frame.

(** ** Comparing a mean with [max_score] *)

Section Comparison.
Context `{NumPy}.

Lemma eqb_cases (x y : float) :
  F64.eqb x y = true ->
  x = y \/ exists s s', x = S754_zero s /\ y = S754_zero s'.
Proof.
  unfold F64.eqb, SFeqb.
  destruct x as [s | [] | | [] m e], y as [s' | [] | | [] m' e']; simpl; try done;
    try (right; by eauto);
    try (left; done);
    destruct (Z.compare_spec e e') as [-> | |]; try done;
    destruct (Pos.compare_cont Eq m m') eqn:Hm; try done;
    apply (Pos.compare_eq m m') in Hm as ->; by left.
Qed.

(** For a mean that single precision holds exactly, the test is the order of
    double precision under either promotion. *)
Lemma float_gt_single (x : float) (y : number) :
  C_float.stored x = x -> float_gt x y = F64.gtb x (number_value y).
Proof.
  unfold float_gt. intros Hx. destruct y as [y | y]; simpl; [done |].
  destruct numpy_promotion; [done | by rewrite Hx].
Qed.

(** A mean equal to the number it is compared with is not greater than it,
    under either promotion. *)
Lemma float_gt_eqb (x : float) (y : number) :
  well_formed y -> F64.eqb x (number_value y) = true -> float_gt x y = false.
Proof.
  unfold float_gt. destruct y as [y | y]; simpl; intros Hy Heq.
  - by apply gtb_eqb.
  - destruct numpy_promotion; [by apply gtb_eqb |].
    destruct (eqb_cases _ _ Heq) as [-> | (s & s' & -> & ->)].
    + rewrite Hy. apply gtb_irrefl.
    + by destruct s, s'.
Qed.
End Comparison.

(** ** The methods, call by call *)

(** Unfolds the straight-line part of a method down to the calls. *)
Ltac exec :=
  repeat progress
    (unfold time_time, agent_get_statistics, record_stats, update_best_model,
       save_agent, agent_save, logger_info, mod_, open, print, call in *);
  repeat progress
    (unfold mbind, M_bind, bind, mret, M_ret, ret, get_self, set_self, get_sys,
       perform, sys_time, sys_get_statistics, sys_open, sys_print, sys_save, pure,
       int_mod in *; simpl in *).

Section EvaluatorFacts.
Context `{Collaborators}.
Import Evaluator.

(** A completed [evaluate_and_update_max_score]: one run of
    [eval_performance], one row, and a checkpoint exactly when the mean
    beats [max_score]. *)
Lemma Evaluator_evaluation_anatomy fuel t (w w' : World Evaluator.t) mean :
  evaluate_and_update_max_score fuel t w = (Returns mean, w') ->
  let self := w_self w in
  let dirname := os_path_join (outdir self) (str_int t +:+ "") in
  let best := float_gt mean (max_score self) in
  (exists median stdev w1,
      eval_performance fuel (n_runs self) (max_episode_len self) w
      = (Returns (mean, median, stdev), w1)) /\
  w_self w' = (if best then with_max_score self (PythonFloat mean) else self) /\
  sys_saved (w_sys w') =
    (if best then <[dirname := sys_agent (w_sys w')]> (sys_saved (w_sys w))
     else sys_saved (w_sys w)) /\
  exists evs,
    w_trace w' = w_trace w ++ evs /\
    saved_dirs evs = (if best then [dirname] else []) /\
    headers evs = [] /\
    length (rows evs) = 1%nat.
Proof.
  unfold evaluate_and_update_max_score. exec.
  destruct (eval_performance_frame fuel (n_runs (w_self w))
              (max_episode_len (w_self w)) w) as [Hframe (evs1 & E1 & F1)].
  destruct (eval_performance _ _ _ w) as [[[[m md] sd] | e |] w1]; try done.
  simpl in *. unfold episode_frame in Hframe.
  injection Hframe as Hself Hfiles Hsaved Hdenied Hclock Hticks.
  destruct (episode_events_quiet _ F1) as (Q1 & Q2 & Q3).
  destruct (get_statistics _) as [stats |]; simpl; [| done].
  destruct (decide _) as [? | Hden]; simpl; [done |].
  rewrite Hself.
  destruct (sys_files (w_sys w1) !! _) eqn:Hf; simpl;
    (destruct (float_gt m _) eqn:Hbest; simpl;
      [destruct (save _ _) eqn:Hsave; simpl; [| done] |]);
    intros [= <- <-]; simpl; rewrite ?Hbest, ?Hsaved, E1, <- ?app_assoc;
    (split; [by eauto |]); (split; [done |]); (split; [done |]);
    (eexists; split; [reflexivity |]);
    rewrite ?saved_dirs_app, ?headers_app, ?rows_app, Q1, Q2, Q3; done.
Qed.

(** However it ends, [evaluate_and_update_max_score] changes no attribute
    but [max_score]. *)
Lemma Evaluator_evaluation_attributes fuel t (w : World Evaluator.t) :
  let self' := w_self (evaluate_and_update_max_score fuel t w).2 in
  self' = w_self w \/ exists x, self' = with_max_score (w_self w) x.
Proof.
  unfold evaluate_and_update_max_score. exec.
  destruct (eval_performance_frame fuel (n_runs (w_self w))
              (max_episode_len (w_self w)) w) as [Hframe _].
  destruct (eval_performance _ _ _ w) as [[[[m md] sd] | e |] w1];
    simpl in *; unfold episode_frame in Hframe;
    injection Hframe as Hself Hfiles Hsaved Hdenied Hclock Hticks; auto.
  destruct (get_statistics _) as [stats |]; simpl; auto.
  destruct (decide _) as [? | Hden]; simpl; auto.
  rewrite Hself.
  destruct (sys_files (w_sys w1) !! _) eqn:Hf; simpl;
    (destruct (float_gt m _) eqn:Hbest; simpl;
      [destruct (save _ _) eqn:Hsave; simpl |]); eauto.
Qed.

(** [evaluate_if_necessary] when the evaluation is not due, and when it
    is. *)
Lemma Evaluator_not_due fuel t (w : World Evaluator.t) :
  t < prev_eval_t (w_self w) + eval_interval (w_self w) ->
  evaluate_if_necessary fuel t w = (Returns None, w).
Proof.
  intros Ht. unfold evaluate_if_necessary. exec.
  destruct (Z.geb_spec t (prev_eval_t (w_self w) + eval_interval (w_self w))); [lia | done].
Qed.

Lemma Evaluator_due fuel t (w : World Evaluator.t) :
  prev_eval_t (w_self w) + eval_interval (w_self w) <= t ->
  evaluate_if_necessary fuel t w =
    match evaluate_and_update_max_score fuel t w with
    | (Returns score, w1) =>
        let i := eval_interval (w_self w1) in
        if i =? 0
        then (Raises ZeroDivisionError,
              mkWorld (w_sys w1) (w_trace w1 ++ [Failed (IntMod t i) ZeroDivisionError])
                (w_self w1))
        else (Returns (Some score),
              mkWorld (w_sys w1) (w_trace w1 ++ [Called (IntMod t i)])
                (with_prev_eval_t (w_self w1) (t - t mod i)))
    | (Raises e, w1) => (Raises e, w1)
    | (OutOfFuel, w1) => (OutOfFuel, w1)
    end.
Proof.
  intros Ht. unfold evaluate_if_necessary. exec.
  destruct (Z.geb_spec t (prev_eval_t (w_self w) + eval_interval (w_self w))); [| lia].
  destruct (evaluate_and_update_max_score fuel t w) as [[score | e |] w1]; try done.
  simpl. by destruct (eval_interval (w_self w1) =? 0).
Qed.
End EvaluatorFacts.

Section AsyncEvaluatorFacts.
Context `{Collaborators}.
Import AsyncEvaluator.

Lemma AsyncEvaluator_evaluation_anatomy fuel t (w w' : World AsyncEvaluator.t) mean :
  evaluate_and_update_max_score fuel t w = (Returns mean, w') ->
  let self := w_self w in
  let dirname := os_path_join (outdir self) (str_int t +:+ "") in
  let best := F64.gtb mean (_max_score self) in
  (exists median stdev w1,
      eval_performance fuel (n_runs self) (max_episode_len self) w
      = (Returns (mean, median, stdev), w1)) /\
  w_self w' = (if best then store_max_score self mean else self) /\
  sys_saved (w_sys w') =
    (if best then <[dirname := sys_agent (w_sys w')]> (sys_saved (w_sys w))
     else sys_saved (w_sys w)) /\
  exists evs,
    w_trace w' = w_trace w ++ evs /\
    saved_dirs evs = (if best then [dirname] else []) /\
    headers evs = [] /\
    length (rows evs) = 1%nat.
Proof.
  unfold evaluate_and_update_max_score. exec.
  destruct (eval_performance_frame fuel (n_runs (w_self w))
              (max_episode_len (w_self w)) w) as [Hframe (evs1 & E1 & F1)].
  destruct (eval_performance _ _ _ w) as [[[[m md] sd] | e |] w1]; try done.
  simpl in *. unfold episode_frame in Hframe.
  injection Hframe as Hself Hfiles Hsaved Hdenied Hclock Hticks.
  destruct (episode_events_quiet _ F1) as (Q1 & Q2 & Q3).
  destruct (get_statistics _) as [stats |]; simpl; [| done].
  destruct (decide _) as [? | Hden]; simpl; [done |].
  rewrite Hself.
  destruct (sys_files (w_sys w1) !! _) eqn:Hf; simpl;
    (destruct (F64.gtb m _) eqn:Hbest; simpl;
      [destruct (save _ _) eqn:Hsave; simpl; [| done] |]);
    intros [= <- <-]; simpl; rewrite ?Hbest, ?Hsaved, E1, <- ?app_assoc;
    (split; [by eauto |]); (split; [done |]); (split; [done |]);
    (eexists; split; [reflexivity |]);
    rewrite ?saved_dirs_app, ?headers_app, ?rows_app, Q1, Q2, Q3; done.
Qed.

(** However it ends, [evaluate_and_update_max_score] writes no header and
    changes no cell but [_max_score]. *)
Lemma AsyncEvaluator_evaluation_attributes fuel t (w : World AsyncEvaluator.t) :
  let w' := (evaluate_and_update_max_score fuel t w).2 in
  (w_self w' = w_self w \/ exists x, w_self w' = store_max_score (w_self w) x) /\
  exists evs, w_trace w' = w_trace w ++ evs /\ headers evs = [].
Proof.
  unfold evaluate_and_update_max_score. exec.
  destruct (eval_performance_frame fuel (n_runs (w_self w))
              (max_episode_len (w_self w)) w) as [Hframe (evs1 & E1 & F1)].
  destruct (episode_events_quiet _ F1) as (Q1 & Q2 & Q3).
  assert (Hfin : forall (tr : list event) evs2,
             tr = w_trace w ++ evs1 -> headers evs2 = [] ->
             exists evs, tr ++ evs2 = w_trace w ++ evs /\ headers evs = []).
  { intros tr evs2 -> H2. exists (evs1 ++ evs2).
    by rewrite app_assoc, headers_app, Q2, H2. }
  destruct (eval_performance _ _ _ w) as [[[[m md] sd] | e |] w1];
    simpl in *; unfold episode_frame in Hframe;
    injection Hframe as Hself Hfiles Hsaved Hdenied Hclock Hticks;
    try (split; [auto | by exists evs1]).
  destruct (get_statistics _) as [stats |]; simpl;
    [| split; [auto | rewrite <- app_assoc; by apply Hfin]].
  destruct (decide _) as [? | Hden]; simpl;
    [split; [auto | rewrite <- !app_assoc; by apply Hfin] |].
  rewrite Hself.
  destruct (sys_files (w_sys w1) !! _) eqn:Hf; simpl;
    (destruct (F64.gtb m _) eqn:Hbest; simpl;
      [destruct (save _ _) eqn:Hsave; simpl |]);
    (split; [by eauto | rewrite <- !app_assoc; by apply Hfin]).
Qed.

Lemma AsyncEvaluator_claim_not_due t (w : World AsyncEvaluator.t) :
  t < prev_eval_t (w_self w) + eval_interval (w_self w) ->
  claim t w = (Returns false, w).
Proof.
  intros Ht. unfold claim. exec.
  destruct (Z.geb_spec t (prev_eval_t (w_self w) + eval_interval (w_self w))); [lia | done].
Qed.

Lemma AsyncEvaluator_claim_due t (w : World AsyncEvaluator.t) :
  prev_eval_t (w_self w) + eval_interval (w_self w) <= t ->
  claim t w =
    (Returns true,
     bound (store_prev_eval_t (w_self w)
              (prev_eval_t (w_self w) + eval_interval (w_self w))) w).
Proof.
  intros Ht. unfold claim. exec.
  destruct (Z.geb_spec t (prev_eval_t (w_self w) + eval_interval (w_self w))); [done | lia].
Qed.

Lemma AsyncEvaluator_not_due fuel t (w : World AsyncEvaluator.t) :
  t < prev_eval_t (w_self w) + eval_interval (w_self w) ->
  evaluate_if_necessary fuel t w = (Returns None, w).
Proof.
  intros Ht. unfold evaluate_if_necessary, mbind, M_bind, bind.
  by rewrite AsyncEvaluator_claim_not_due.
Qed.

Lemma AsyncEvaluator_due fuel t (w : World AsyncEvaluator.t) :
  prev_eval_t (w_self w) + eval_interval (w_self w) <= t ->
  evaluate_if_necessary fuel t w =
    (ensure_header;; score ← evaluate_and_update_max_score fuel t; mret (Some score))
      (bound (store_prev_eval_t (w_self w)
                (prev_eval_t (w_self w) + eval_interval (w_self w))) w).
Proof.
  intros Ht. unfold evaluate_if_necessary. unfold mbind at 1. unfold M_bind, bind.
  by rewrite AsyncEvaluator_claim_due.
Qed.

(** The header block: nothing happens once [wrote_header] is set;
    otherwise the header is written and the flag set, unless [open] or
    [agent.get_statistics] raises, which leaves the flag unset. *)
Lemma AsyncEvaluator_ensure_header_set (w : World AsyncEvaluator.t) :
  wrote_header (w_self w) <> 0 -> ensure_header w = (Returns tt, w).
Proof.
  intros Hw. unfold ensure_header. exec.
  destruct (Z.eqb_spec (wrote_header (w_self w)) 0); [done |].
  by destruct w.
Qed.

Lemma AsyncEvaluator_ensure_header_unset (w : World AsyncEvaluator.t) :
  wrote_header (w_self w) = 0 ->
  let path := os_path_join (outdir (w_self w)) "scores.txt" in
  let w' := (ensure_header w).2 in
  w_sys w' = (write_header w).2.(w_sys) /\
  match (ensure_header w).1 with
  | Returns _ =>
      exists stats,
        get_statistics (sys_agent (w_sys w)) = Ok stats /\
        w_self w' = store_wrote_header (w_self w) 1 /\
        w_trace w' = w_trace w ++
          [Called (FileOpen path ModeW); Called AgentGetStatistics;
           Called (FilePrint path ModeW
                     (join_tab (["steps"; "elapsed"; "mean"; "median"; "stdev"]
                                  ++ map fst stats)))]
  | _ =>
      w_self w' = w_self w /\
      exists evs, w_trace w' = w_trace w ++ evs /\ headers evs = []
  end.
Proof.
  intros Hw. unfold ensure_header, write_header. exec. rewrite Hw. simpl.
  destruct (decide _) as [? | Hden]; simpl.
  { split; [done |]. split; [done |]. by eexists. }
  destruct (get_statistics _) as [stats |]; simpl.
  - split; [done |]. exists stats. by rewrite <- !app_assoc.
  - split; [done |]. split; [done |]. rewrite <- app_assoc. by eexists.
Qed.
End AsyncEvaluatorFacts.

(** ** Claims about [evaluate_if_necessary] *)

Section AsyncHeaderFacts.
Context `{Collaborators}.
Import AsyncEvaluator.

(** The header block appends no row, saves no agent and touches no cell
    but [wrote_header]. *)
Lemma AsyncEvaluator_ensure_header_attributes (w : World AsyncEvaluator.t) :
  let w' := (ensure_header w).2 in
  (w_self w' = w_self w \/ w_self w' = store_wrote_header (w_self w) 1) /\
  exists evs, w_trace w' = w_trace w ++ evs /\ rows evs = [] /\ saved_dirs evs = [].
Proof.
  unfold ensure_header, write_header. exec.
  destruct (wrote_header (w_self w) =? 0); simpl.
  2:{ split; [by left |]. exists []. by rewrite app_nil_r. }
  destruct (decide _) as [? | Hden]; simpl.
  { split; [by left |]. by eexists. }
  destruct (get_statistics _) as [stats |]; simpl.
  - split; [by right |]. rewrite <- !app_assoc. by eexists.
  - split; [by left |]. rewrite <- !app_assoc. by eexists.
Qed.
End AsyncHeaderFacts.

(** C1 (amended).  When [evaluate_if_necessary] is called with
    [t >= prev_eval_t + eval_interval] and the evaluation it starts returns,
    the call is exactly one evaluation (one run of
    [evaluate_and_update_max_score], one row appended to the scores) and
    returns its score.  [Evaluator] then advances [prev_eval_t] to
    [t - t % eval_interval]; [AsyncEvaluator] advanced it, before the
    evaluation, to [prev_eval_t + eval_interval] as stored in the C long,
    which is [prev_eval_t + eval_interval] itself within the range of a
    long. *)
Theorem evaluate_if_necessary_advances_prev_eval_t `{Collaborators}
    (fuel : nat) (t : Z) :
  (forall (w w1 : World Evaluator.t) (score : float),
      Evaluator.prev_eval_t (w_self w) + Evaluator.eval_interval (w_self w) <= t ->
      Evaluator.eval_interval (w_self w) <> 0 ->
      Evaluator.evaluate_and_update_max_score fuel t w = (Returns score, w1) ->
      let r := Evaluator.evaluate_if_necessary fuel t w in
      r.1 = Returns (Some score) /\
      Evaluator.prev_eval_t (w_self r.2) = t - t mod Evaluator.eval_interval (w_self w) /\
      exists evs, w_trace r.2 = w_trace w ++ evs /\ length (rows evs) = 1%nat) /\
  (forall (w wh w1 : World AsyncEvaluator.t) (score : float),
      let next :=
        AsyncEvaluator.prev_eval_t (w_self w) + AsyncEvaluator.eval_interval (w_self w) in
      next <= t ->
      AsyncEvaluator.ensure_header
        (bound (AsyncEvaluator.store_prev_eval_t (w_self w) next) w) = (Returns tt, wh) ->
      AsyncEvaluator.evaluate_and_update_max_score fuel t wh = (Returns score, w1) ->
      let r := AsyncEvaluator.evaluate_if_necessary fuel t w in
      r.1 = Returns (Some score) /\
      AsyncEvaluator.prev_eval_t (w_self r.2) = C_long.stored next /\
      (C_long.min_value <= next <= C_long.max_value ->
       AsyncEvaluator.prev_eval_t (w_self r.2) = next) /\
      exists evs, w_trace r.2 = w_trace w ++ evs /\ length (rows evs) = 1%nat).
Proof.
  split.
  - intros w w1 score Hdue Hi Hev r. subst r.
    rewrite (Evaluator_due _ _ _ Hdue), Hev.
    destruct (Evaluator_evaluation_anatomy _ _ _ _ _ Hev) as (_ & Hself & _ & evs & E & _ & _ & Hrows).
    assert (Hint : Evaluator.eval_interval (w_self w1) = Evaluator.eval_interval (w_self w)).
    { rewrite Hself. by destruct (float_gt _ _). }
    simpl. rewrite Hint. destruct (Z.eqb_spec (Evaluator.eval_interval (w_self w)) 0); [done |].
    simpl. split; [done |]. split; [done |].
    exists (evs ++ [Called (IntMod t (Evaluator.eval_interval (w_self w)))]).
    rewrite E, <- app_assoc. split; [done |].
    rewrite rows_app, length_app. simpl. lia.
  - intros w wh w1 score next Hdue Hh Hev r. subst r.
    rewrite (AsyncEvaluator_due _ _ _ Hdue).
    fold next. unfold mbind, M_bind, bind. rewrite Hh, Hev. simpl.
    destruct (AsyncEvaluator_evaluation_anatomy _ _ _ _ _ Hev)
      as (_ & Hself & _ & evs & E & _ & _ & Hrows).
    pose proof (AsyncEvaluator_ensure_header_attributes
                  (bound (AsyncEvaluator.store_prev_eval_t (w_self w) next) w))
      as [Hselfh (evsh & Eh & Rh & _)].
    rewrite Hh in Hselfh, Eh. simpl in Hselfh, Eh.
    assert (Hprev : AsyncEvaluator.prev_eval_t (w_self w1) = C_long.stored next).
    { rewrite Hself. destruct (F64.gtb _ _); destruct Hselfh as [-> | ->]; done. }
    split; [done |]. split; [done |]. split.
    + intros Hrange. rewrite Hprev. unfold C_long.stored, C_long.min_value, C_long.max_value,
        C_long.bits in *. simpl in *. rewrite Z.mod_small; lia.
    + exists (evsh ++ evs). rewrite E, Eh, <- app_assoc. split; [done |].
      by rewrite rows_app, Rh.
Qed.

(** The scenario of C1 on scripted collaborators, for both classes:
    [eval_interval = 100], [step_offset = 0], calls at 50, 100, 150, 250. *)
Lemma evaluate_if_necessary_advances_prev_eval_t_witness :
  let five := F64.of_Z 5 in
  let seven := F64.of_Z 7 in
  let e0 := Scripted.evaluator 100 [Scripted.one_step five; Scripted.one_step seven] in
  let e50 := Evaluator.evaluate_if_necessary 5 50 e0 in
  let e100 := Evaluator.evaluate_if_necessary 5 100 e50.2 in
  let e150 := Evaluator.evaluate_if_necessary 5 150 e100.2 in
  let e250 := Evaluator.evaluate_if_necessary 5 250 e150.2 in
  let a0 := Scripted.async_evaluator 100 [Scripted.one_step five; Scripted.one_step seven] in
  let a50 := AsyncEvaluator.evaluate_if_necessary 5 50 a0 in
  let a100 := AsyncEvaluator.evaluate_if_necessary 5 100 a50.2 in
  let a150 := AsyncEvaluator.evaluate_if_necessary 5 150 a100.2 in
  let a250 := AsyncEvaluator.evaluate_if_necessary 5 250 a150.2 in
  (e50.1 = Returns None /\ Evaluator.prev_eval_t (w_self e50.2) = 0) /\
  (e100.1 = Returns (Some five) /\ Evaluator.prev_eval_t (w_self e100.2) = 100) /\
  (e150.1 = Returns None /\ Evaluator.prev_eval_t (w_self e150.2) = 100) /\
  (e250.1 = Returns (Some seven) /\ Evaluator.prev_eval_t (w_self e250.2) = 200) /\
  (a50.1 = Returns None /\ AsyncEvaluator.prev_eval_t (w_self a50.2) = 0) /\
  (a100.1 = Returns (Some five) /\ AsyncEvaluator.prev_eval_t (w_self a100.2) = 100) /\
  (a150.1 = Returns None /\ AsyncEvaluator.prev_eval_t (w_self a150.2) = 100) /\
  (a250.1 = Returns (Some seven) /\ AsyncEvaluator.prev_eval_t (w_self a250.2) = 200).
Proof.
  intros five seven e0 e50 e100 e150 e250 a0 a50 a100 a150 a250.
  pose proof (@evaluate_if_necessary_advances_prev_eval_t Scripted.collaborators 5 100)
    as [E100 A100].
  pose proof (@evaluate_if_necessary_advances_prev_eval_t Scripted.collaborators 5 250)
    as [E250 A250].
  split; [vm_compute; split; reflexivity |].
  split.
  { destruct (E100 e50.2 (Evaluator.evaluate_and_update_max_score 5 100 e50.2).2 five)
      as (R & P & _);
      [vm_compute; discriminate | vm_compute; discriminate | vm_compute; reflexivity |].
    split; [exact R | exact P]. }
  split; [vm_compute; split; reflexivity |].
  split.
  { destruct (E250 e150.2 (Evaluator.evaluate_and_update_max_score 5 250 e150.2).2 seven)
      as (R & P & _);
      [vm_compute; discriminate | vm_compute; discriminate | vm_compute; reflexivity |].
    split; [exact R | exact P]. }
  split; [vm_compute; split; reflexivity |].
  split.
  { pose (wc := bound (AsyncEvaluator.store_prev_eval_t (w_self a50.2) 100) a50.2).
    pose (wh := (AsyncEvaluator.ensure_header wc).2).
    destruct (A100 a50.2 wh (AsyncEvaluator.evaluate_and_update_max_score 5 100 wh).2 five)
      as (R & P & _);
      [vm_compute; discriminate | vm_compute; reflexivity | vm_compute; reflexivity |].
    split; [exact R | exact P]. }
  split; [vm_compute; split; reflexivity |].
  { pose (wc := bound (AsyncEvaluator.store_prev_eval_t (w_self a150.2) 200) a150.2).
    pose (wh := (AsyncEvaluator.ensure_header wc).2).
    destruct (A250 a150.2 wh (AsyncEvaluator.evaluate_and_update_max_score 5 250 wh).2 seven)
      as (R & P & _);
      [vm_compute; discriminate | vm_compute; reflexivity | vm_compute; reflexivity |].
    split; [exact R | exact P]. }
Defined.

(** C1 as stated fails for [AsyncEvaluator]: with [prev_eval_t = 0] and
    [eval_interval = 100], the call at [t = 250] evaluates and leaves
    [prev_eval_t = 100], not [250 - 250 % 100 = 200]. *)
Lemma AsyncEvaluator_prev_eval_t_not_aligned :
  let a0 := Scripted.async_evaluator 100 [Scripted.one_step (F64.of_Z 5)] in
  let r := AsyncEvaluator.evaluate_if_necessary 5 250 a0 in
  AsyncEvaluator.prev_eval_t (w_self a0) + AsyncEvaluator.eval_interval (w_self a0) <= 250 /\
  r.1 = Returns (Some (F64.of_Z 5)) /\
  AsyncEvaluator.prev_eval_t (w_self r.2) <> 250 - 250 mod AsyncEvaluator.eval_interval (w_self a0).
Proof. vm_compute. repeat split; discriminate. Qed.

(** C7 on a scripted episode of three steps that never reports [done],
    capped at two steps. *)
Lemma episode_loop_at_most_max_episode_len_witness :
  let one := F64.of_Z 1 in
  let w := (env_reset (Scripted.world [[(one, false); (one, false); (one, false)]])).2 in
  0 <= 2 /\ (Z.to_nat 2 <= 5)%nat /\
  (@episode_loop Scripted.collaborators unit 5 (Some 2) tt false F64.zero 0 w).1 = Returns (F64.of_Z 2) /\
  exists evs,
    w_trace (@episode_loop Scripted.collaborators unit 5 (Some 2) tt false F64.zero 0 w).2 = w_trace w ++ evs /\
    (length (steps_of evs) <= 2)%nat.
Proof.
  intros one w.
  split; [lia |]. split; [lia |]. split; [vm_compute; reflexivity |].
  destruct (@episode_loop_at_most_max_episode_len Scripted.collaborators unit 5 2 tt w)
    as [(evs & E & _ & L & _) _]; [lia | lia |].
  exists evs. split; [exact E | exact L].
Defined.


(** C3.  [evaluate_if_necessary(t)] returns [None] and does nothing at all
    when [t < prev_eval_t + eval_interval]; when
    [t >= prev_eval_t + eval_interval] its result is the score of the
    evaluation it runs (the outcome of [evaluate_and_update_max_score],
    wrapped in [Some]; an exception of the evaluation is the exception of
    the call), and that score is the mean returned by the [eval_performance]
    run of that evaluation.  For [AsyncEvaluator] the evaluation runs after
    the claim and the header block. *)
Theorem evaluate_if_necessary_returns_mean_or_None `{Collaborators}
    (fuel : nat) (t : Z) :
  (forall w : World Evaluator.t,
      let self := w_self w in
      (t < Evaluator.prev_eval_t self + Evaluator.eval_interval self ->
       Evaluator.evaluate_if_necessary fuel t w = (Returns None, w)) /\
      (Evaluator.prev_eval_t self + Evaluator.eval_interval self <= t ->
       Evaluator.eval_interval self <> 0 ->
       (Evaluator.evaluate_if_necessary fuel t w).1 =
         map_outcome Some (Evaluator.evaluate_and_update_max_score fuel t w).1 /\
       forall score,
         (Evaluator.evaluate_and_update_max_score fuel t w).1 = Returns score ->
         (Evaluator.evaluate_if_necessary fuel t w).1 = Returns (Some score) /\
         exists median stdev,
           (eval_performance fuel (Evaluator.n_runs self) (Evaluator.max_episode_len self) w).1
           = Returns (score, median, stdev))) /\
  (forall w : World AsyncEvaluator.t,
      let self := w_self w in
      let next := AsyncEvaluator.prev_eval_t self + AsyncEvaluator.eval_interval self in
      let claimed := bound (AsyncEvaluator.store_prev_eval_t self next) w in
      (t < next -> AsyncEvaluator.evaluate_if_necessary fuel t w = (Returns None, w)) /\
      (next <= t ->
       (AsyncEvaluator.evaluate_if_necessary fuel t w).1 =
         map_outcome Some
           ((AsyncEvaluator.ensure_header;;
             AsyncEvaluator.evaluate_and_update_max_score fuel t) claimed).1 /\
       forall wh score,
         AsyncEvaluator.ensure_header claimed = (Returns tt, wh) ->
         (AsyncEvaluator.evaluate_and_update_max_score fuel t wh).1 = Returns score ->
         (AsyncEvaluator.evaluate_if_necessary fuel t w).1 = Returns (Some score) /\
         exists median stdev,
           (eval_performance fuel (AsyncEvaluator.n_runs self)
              (AsyncEvaluator.max_episode_len self) wh).1
           = Returns (score, median, stdev))).
Proof.
  split.
  - intros w self. split; [apply Evaluator_not_due |].
    intros Hdue Hi.
    assert (Hmap : (Evaluator.evaluate_if_necessary fuel t w).1 =
                   map_outcome Some (Evaluator.evaluate_and_update_max_score fuel t w).1).
    { rewrite (Evaluator_due _ _ _ Hdue).
      pose proof (Evaluator_evaluation_attributes fuel t w) as Hattr. simpl in Hattr.
      destruct (Evaluator.evaluate_and_update_max_score fuel t w) as [[score | e |] w1];
        try done.
      simpl in *.
      assert (Hint : Evaluator.eval_interval (w_self w1) = Evaluator.eval_interval self).
      { destruct Hattr as [-> | [x ->]]; done. }
      rewrite Hint. by destruct (Z.eqb_spec (Evaluator.eval_interval self) 0). }
    split; [exact Hmap |].
    intros score Hs. rewrite Hmap, Hs. split; [done |].
    destruct (Evaluator.evaluate_and_update_max_score fuel t w) as [o w1] eqn:Hev.
    simpl in Hs. subst o.
    destruct (Evaluator_evaluation_anatomy _ _ _ _ _ Hev) as ((md & sd & w0 & Hp) & _).
    exists md, sd. fold self in Hp. by rewrite Hp.
  - intros w self next claimed. split; [apply AsyncEvaluator_not_due |].
    intros Hdue.
    assert (Hmap : (AsyncEvaluator.evaluate_if_necessary fuel t w).1 =
              map_outcome Some
                ((AsyncEvaluator.ensure_header;;
                  AsyncEvaluator.evaluate_and_update_max_score fuel t) claimed).1).
    { rewrite (AsyncEvaluator_due _ _ _ Hdue). fold self next claimed.
      unfold mbind, M_bind, bind, mret, M_ret, ret.
      destruct (AsyncEvaluator.ensure_header claimed) as [[[] | e |] wh]; try done.
      by destruct (AsyncEvaluator.evaluate_and_update_max_score fuel t wh) as [[s | e |] w1]. }
    split; [exact Hmap |].
    intros wh score Hh Hs. rewrite Hmap.
    unfold mbind, M_bind, bind. rewrite Hh.
    destruct (AsyncEvaluator.evaluate_and_update_max_score fuel t wh) as [o w1] eqn:Hev.
    simpl in Hs. subst o. split; [done |].
    destruct (AsyncEvaluator_evaluation_anatomy _ _ _ _ _ Hev) as ((md & sd & w0 & Hp) & _).
    exists md, sd.
    pose proof (AsyncEvaluator_ensure_header_attributes claimed) as [Hself _].
    rewrite Hh in Hself. simpl in Hself.
    assert (Hn : AsyncEvaluator.n_runs (w_self wh) = AsyncEvaluator.n_runs self /\
                 AsyncEvaluator.max_episode_len (w_self wh) = AsyncEvaluator.max_episode_len self).
    { destruct Hself as [-> | ->]; done. }
    destruct Hn as [<- <-]. by rewrite Hp.
Qed.

(** C3 on scripted collaborators: not due at [t = 50], due at [t = 100]. *)
Lemma evaluate_if_necessary_returns_mean_or_None_witness :
  let five := F64.of_Z 5 in
  let e0 := Scripted.evaluator 100 [Scripted.one_step five] in
  let a0 := Scripted.async_evaluator 100 [Scripted.one_step five] in
  (50 < 0 + 100 /\ Evaluator.evaluate_if_necessary 5 50 e0 = (Returns None, e0)) /\
  (0 + 100 <= 100 /\ 100 <> 0 /\
   (Evaluator.evaluate_if_necessary 5 100 e0).1 = Returns (Some five)) /\
  (50 < 0 + 100 /\ AsyncEvaluator.evaluate_if_necessary 5 50 a0 = (Returns None, a0)) /\
  (0 + 100 <= 100 /\
   (AsyncEvaluator.evaluate_if_necessary 5 100 a0).1 = Returns (Some five)).
Proof.
  intros five e0 a0.
  destruct (@evaluate_if_necessary_returns_mean_or_None Scripted.collaborators 5 50)
    as [E50 A50].
  destruct (@evaluate_if_necessary_returns_mean_or_None Scripted.collaborators 5 100)
    as [E100 A100].
  split.
  { split; [lia |]. destruct (E50 e0) as [N _]. apply N. vm_compute. reflexivity. }
  split.
  { split; [lia |]. split; [lia |].
    destruct (E100 e0) as [_ S].
    destruct S as [_ S]; [vm_compute; discriminate | vm_compute; discriminate |].
    destruct (S five) as [R _]; [vm_compute; reflexivity | exact R]. }
  split.
  { split; [lia |]. destruct (A50 a0) as [N _]. apply N. vm_compute. reflexivity. }
  split; [lia |].
  destruct (A100 a0) as [_ S].
  destruct S as [_ S]; [vm_compute; discriminate |].
  pose (claimed := bound (AsyncEvaluator.store_prev_eval_t (w_self a0) 100) a0).
  destruct (S (AsyncEvaluator.ensure_header claimed).2 five) as [R _];
    [vm_compute; reflexivity | vm_compute; reflexivity | exact R].
Defined.

(** ** Claims about checkpoints and [max_score] *)

Lemma append_empty_r (s : string) : s +:+ "" = s.
Proof.
  induction s as [| c s IH]; [done |].
  change (String c (s +:+ "") = String c s). by rewrite IH.
Qed.

(** C2 (amended).  After an evaluation at step [t] that computed [mean],
    the agent has been saved, once and into [outdir/<t>], exactly when
    [mean > max_score] evaluated to true for the [max_score] recorded before,
    and [max_score] is updated exactly when the agent is saved: to [mean], a
    Python float, in [Evaluator], and in [AsyncEvaluator] to [mean] as stored
    in the single precision cell.  Against a Python float, which is what
    [AsyncEvaluator] always compares with and [Evaluator] from its first
    update on, the test is the strict order of double precision.  Against
    the [numpy.float32] scalar that [Evaluator.max_score] starts as, the test
    is NumPy's: the order of double precision up to NumPy 1.x, and from
    NumPy 2 on the order of single precision after [mean] was rounded to
    it, which is the order of double precision again for a mean that single
    precision holds exactly.  In every case a mean equal to [max_score]
    saves nothing. *)
Theorem checkpoint_iff_mean_beats_max_score `{Collaborators} (fuel : nat) (t : Z) :
  (forall (w w' : World Evaluator.t) (mean : float),
      Evaluator.evaluate_and_update_max_score fuel t w = (Returns mean, w') ->
      let self := w_self w in
      let dirname := os_path_join (Evaluator.outdir self) (str_int t) in
      let best := float_gt mean (Evaluator.max_score self) in
      (exists median stdev w1,
          eval_performance fuel (Evaluator.n_runs self) (Evaluator.max_episode_len self) w
          = (Returns (mean, median, stdev), w1)) /\
      (forall m, Evaluator.max_score self = PythonFloat m -> best = F64.gtb mean m) /\
      (forall m, Evaluator.max_score self = NpFloat32 m ->
                 best = match numpy_promotion with
                        | Legacy => F64.gtb mean m
                        | NEP50 => F64.gtb (C_float.stored mean) m
                        end) /\
      (C_float.stored mean = mean ->
       best = F64.gtb mean (number_value (Evaluator.max_score self))) /\
      (well_formed (Evaluator.max_score self) ->
       F64.eqb mean (number_value (Evaluator.max_score self)) = true -> best = false) /\
      (exists evs,
          w_trace w' = w_trace w ++ evs /\
          saved_dirs evs = (if best then [dirname] else [])) /\
      sys_saved (w_sys w') =
        (if best then <[dirname := sys_agent (w_sys w')]> (sys_saved (w_sys w))
         else sys_saved (w_sys w)) /\
      Evaluator.max_score (w_self w') =
        (if best then PythonFloat mean else Evaluator.max_score self)) /\
  (forall (w w' : World AsyncEvaluator.t) (mean : float),
      AsyncEvaluator.evaluate_and_update_max_score fuel t w = (Returns mean, w') ->
      let self := w_self w in
      let dirname := os_path_join (AsyncEvaluator.outdir self) (str_int t) in
      let best := F64.gtb mean (AsyncEvaluator._max_score self) in
      (exists median stdev w1,
          eval_performance fuel (AsyncEvaluator.n_runs self)
            (AsyncEvaluator.max_episode_len self) w
          = (Returns (mean, median, stdev), w1)) /\
      (F64.eqb mean (AsyncEvaluator._max_score self) = true -> best = false) /\
      (exists evs,
          w_trace w' = w_trace w ++ evs /\
          saved_dirs evs = (if best then [dirname] else [])) /\
      sys_saved (w_sys w') =
        (if best then <[dirname := sys_agent (w_sys w')]> (sys_saved (w_sys w))
         else sys_saved (w_sys w)) /\
      AsyncEvaluator._max_score (w_self w') =
        (if best then C_float.stored mean else AsyncEvaluator._max_score self)).
Proof.
  split; intros w w' mean Hev self dirname best.
  - destruct (Evaluator_evaluation_anatomy _ _ _ _ _ Hev)
      as (Hp & Hself & Hsaved & evs & E & Hdirs & _).
    rewrite append_empty_r in Hsaved, Hdirs. fold self dirname best in Hself, Hsaved, Hdirs.
    split; [exact Hp |].
    split; [intros m Hm; subst best; by rewrite Hm |].
    split; [intros m Hm; subst best; by rewrite Hm |].
    split; [intros Hm; subst best; by apply float_gt_single |].
    split; [apply float_gt_eqb |]. split; [by exists evs |].
    split; [exact Hsaved |]. rewrite Hself. by destruct best.
  - destruct (AsyncEvaluator_evaluation_anatomy _ _ _ _ _ Hev)
      as (Hp & Hself & Hsaved & evs & E & Hdirs & _).
    rewrite append_empty_r in Hsaved, Hdirs. fold self dirname best in Hself, Hsaved, Hdirs.
    split; [exact Hp |]. split; [apply gtb_eqb |]. split; [by exists evs |].
    split; [exact Hsaved |]. rewrite Hself. by destruct best.
Qed.

(** C2 on scripted collaborators, with NumPy 2.  A first evaluation with mean
    5 is saved to [out/100] by both classes.  A first evaluation of an
    [Evaluator] whose mean is -3.4028234663852882e+38, the double next above
    the initial [max_score], saves nothing: in single precision the two are
    equal. *)
Lemma checkpoint_iff_mean_beats_max_score_witness :
  let five := F64.of_Z 5 in
  let next := F64.ldexp (- ((2 ^ 24 - 1) * 2 ^ 29 - 1)) 75 in
  let e0 := Scripted.evaluator 100 [Scripted.one_step five] in
  let n0 := Scripted.evaluator 100 [Scripted.one_step next] in
  let a0 := Scripted.async_evaluator 100 [Scripted.one_step five] in
  let e1 := Evaluator.evaluate_and_update_max_score 5 100 e0 in
  let n1 := Evaluator.evaluate_and_update_max_score 5 100 n0 in
  let a1 := AsyncEvaluator.evaluate_and_update_max_score 5 100 a0 in
  (e1 = (Returns five, e1.2) /\
   (exists evs, w_trace e1.2 = w_trace e0 ++ evs /\ saved_dirs evs = ["out/100"]) /\
   Evaluator.max_score (w_self e1.2) = PythonFloat five) /\
  (n1 = (Returns next, n1.2) /\
   F64.gtb next np_finfo_float32_min = true /\
   (exists evs, w_trace n1.2 = w_trace n0 ++ evs /\ saved_dirs evs = []) /\
   Evaluator.max_score (w_self n1.2) = NpFloat32 np_finfo_float32_min) /\
  (a1 = (Returns five, a1.2) /\
   (exists evs, w_trace a1.2 = w_trace a0 ++ evs /\ saved_dirs evs = ["out/100"]) /\
   AsyncEvaluator._max_score (w_self a1.2) = C_float.stored five).
Proof.
  intros five next e0 n0 a0 e1 n1 a1.
  destruct (@checkpoint_iff_mean_beats_max_score Scripted.collaborators 5 100) as [HE HA].
  assert (He : e1 = (Returns five, e1.2)) by (vm_compute; reflexivity).
  assert (Hn : n1 = (Returns next, n1.2)) by (vm_compute; reflexivity).
  assert (Ha : a1 = (Returns five, a1.2)) by (vm_compute; reflexivity).
  split; [| split].
  - split; [exact He |].
    destruct (HE e0 e1.2 five He) as (_ & _ & _ & _ & _ & Hevs & _ & Hmax).
    split; [exact Hevs | exact Hmax].
  - split; [exact Hn |]. split; [vm_compute; reflexivity |].
    destruct (HE n0 n1.2 next Hn) as (_ & _ & _ & _ & _ & Hevs & _ & Hmax).
    split; [exact Hevs | exact Hmax].
  - split; [exact Ha |].
    destruct (HA a0 a1.2 five Ha) as (_ & _ & Hevs & _ & Hmax).
    split; [exact Hevs | exact Hmax].
Defined.

(** C2 as stated fails for [AsyncEvaluator]: after an evaluation with mean
    [0.7] was saved, [max_score] is not that mean (the cell holds its single
    precision rounding, which is smaller), and a second evaluation with the
    same mean is saved again. *)
Lemma AsyncEvaluator_equal_mean_saved_again :
  let m := F64.of_Q (7 # 10) in
  let a0 := Scripted.async_evaluator 100 [Scripted.one_step m; Scripted.one_step m] in
  let a1 := AsyncEvaluator.evaluate_and_update_max_score 5 100 a0 in
  let a2 := AsyncEvaluator.evaluate_and_update_max_score 5 200 a1.2 in
  a1.1 = Returns m /\
  sys_saved (w_sys a1.2) !! "out/100" = Some 1%nat /\
  AsyncEvaluator._max_score (w_self a1.2) <> m /\
  a2.1 = Returns m /\
  sys_saved (w_sys a1.2) !! "out/200" = None /\
  sys_saved (w_sys a2.2) !! "out/200" = Some 2%nat.
Proof. vm_compute. repeat split; discriminate. Qed.

(** ** The constructors *)

Section Constructors.
Context `{Collaborators}.

(** [Evaluator.__init__] returns when [eval_interval] is not zero, [open]
    accepts [outdir/scores.txt] and the agent reports its statistics. *)
Lemma Evaluator_init_returns n_runs i outdir cap off (w : World unit) stats :
  let path := os_path_join outdir "scores.txt" in
  let header := join_tab (["steps"; "elapsed"; "mean"; "median"; "stdev"] ++ map fst stats) in
  i <> 0 -> path ∉ sys_denied (w_sys w) ->
  get_statistics (sys_agent (w_sys w)) = Ok stats ->
  Evaluator.__init__ n_runs i outdir cap off w =
    (Returns (Evaluator.mk (NpFloat32 np_finfo_float32_min)
                (sys_clock (w_sys w) (sys_ticks (w_sys w)))
                n_runs i outdir cap off (off - off mod i)),
     mkWorld
       (with_files (with_ticks (w_sys w) (S (sys_ticks (w_sys w))))
          (<[path := [header]]> (sys_files (w_sys w))))
       (w_trace w ++
          [Called TimeTime; Called (IntMod off i); Called (FileOpen path ModeW);
           Called AgentGetStatistics; Called (FilePrint path ModeW header)])
       tt).
Proof.
  intros path header Hi Hden Hst. unfold Evaluator.__init__. exec.
  destruct (Z.eqb_spec i 0); [done |]. simpl.
  destruct (decide _); [done |]. simpl. rewrite Hst. simpl.
  rewrite lookup_insert_eq, <- !app_assoc. simpl.
  destruct w as [s tr []]. unfold with_files. simpl. by rewrite insert_insert_eq.
Qed.

Lemma Evaluator_init_inv n_runs i outdir cap off (w w' : World unit) self :
  Evaluator.__init__ n_runs i outdir cap off w = (Returns self, w') ->
  i <> 0 /\ (os_path_join outdir "scores.txt" ∉ sys_denied (w_sys w)) /\
  exists stats, get_statistics (sys_agent (w_sys w)) = Ok stats.
Proof.
  unfold Evaluator.__init__. exec.
  destruct (Z.eqb_spec i 0); [done |]. simpl.
  destruct (decide _); [done |]. simpl.
  destruct (get_statistics _) as [stats |]; [| done]. eauto.
Qed.

(** [AsyncEvaluator.__init__] returns when [eval_interval] is not zero and
    [open] accepts [outdir/scores.txt]; it creates the file when it is
    missing and prints nothing. *)
Lemma AsyncEvaluator_init_returns n_runs i outdir cap off (w : World unit) :
  let path := os_path_join outdir "scores.txt" in
  i <> 0 -> path ∉ sys_denied (w_sys w) ->
  AsyncEvaluator.__init__ n_runs i outdir cap off w =
    (Returns (AsyncEvaluator.mk (sys_clock (w_sys w) (sys_ticks (w_sys w)))
                n_runs i outdir cap off (C_long.stored (off - off mod i))
                (C_float.stored np_finfo_float32_min) (C_byte.stored 0)),
     mkWorld
       (match sys_files (w_sys w) !! path with
        | Some _ => with_ticks (w_sys w) (S (sys_ticks (w_sys w)))
        | None =>
            with_files (with_ticks (w_sys w) (S (sys_ticks (w_sys w))))
              (<[path := []]> (sys_files (w_sys w)))
        end)
       (w_trace w ++
          [Called TimeTime; Called (IntMod off i); Called (FileOpen path ModeA)])
       tt).
Proof.
  intros path Hi Hden. unfold AsyncEvaluator.__init__. exec.
  destruct (Z.eqb_spec i 0); [done |]. simpl.
  destruct (decide _); [done |]. simpl.
  destruct w as [s tr []]. simpl. rewrite <- !app_assoc. simpl.
  subst path. simpl. by destruct (sys_files s !! _).
Qed.

Lemma AsyncEvaluator_init_inv n_runs i outdir cap off (w w' : World unit) self :
  AsyncEvaluator.__init__ n_runs i outdir cap off w = (Returns self, w') ->
  i <> 0 /\ (os_path_join outdir "scores.txt" ∉ sys_denied (w_sys w)).
Proof.
  unfold AsyncEvaluator.__init__. exec.
  destruct (Z.eqb_spec i 0); [done |]. simpl.
  destruct (decide _); [done |]. done.
Qed.

(** However it ends, [AsyncEvaluator.__init__] prints nothing. *)
Lemma AsyncEvaluator_init_prints_nothing n_runs i outdir cap off (w : World unit) :
  exists evs,
    w_trace (AsyncEvaluator.__init__ n_runs i outdir cap off w).2 = w_trace w ++ evs /\
    headers evs = [] /\ rows evs = [].
Proof.
  unfold AsyncEvaluator.__init__. exec.
  destruct (i =? 0); simpl; [rewrite <- !app_assoc; by eexists |].
  destruct (decide _); simpl; [rewrite <- !app_assoc; by eexists |].
  destruct (sys_files _ !! _); simpl; rewrite <- !app_assoc; by eexists.
Qed.
End Constructors.

(** C9.  When the [Evaluator] constructor runs ([eval_interval] not zero,
    [outdir/scores.txt] can be opened, the agent reports its statistics
    [stats]), it returns the object and [outdir/scores.txt] then holds
    exactly one line, whatever it held before: the tab-separated header
    [steps], [elapsed], [mean], [median], [stdev] followed by the names of
    [stats] in their order. *)
Theorem Evaluator_init_writes_header `{Collaborators}
    (n_runs eval_interval : Z) (outdir : string) (max_episode_len : option Z)
    (step_offset : Z) (w : World unit) (stats : list (string * pyvalue)) :
  let path := os_path_join outdir "scores.txt" in
  let r := Evaluator.__init__ n_runs eval_interval outdir max_episode_len step_offset w in
  eval_interval <> 0 ->
  path ∉ sys_denied (w_sys w) ->
  get_statistics (sys_agent (w_sys w)) = Ok stats ->
  (exists self, r.1 = Returns self) /\
  sys_files (w_sys r.2) !! path =
    Some [join_tab (["steps"; "elapsed"; "mean"; "median"; "stdev"] ++ map fst stats)] /\
  headers (drop (length (w_trace w)) (w_trace r.2)) =
    [join_tab (["steps"; "elapsed"; "mean"; "median"; "stdev"] ++ map fst stats)].
Proof.
  intros path r Hi Hden Hst. subst r.
  rewrite (Evaluator_init_returns _ _ _ _ _ _ _ Hi Hden Hst). simpl.
  split; [by eexists |]. split; [by rewrite lookup_insert_eq |].
  by rewrite drop_app_length.
Qed.

(** C9 on scripted collaborators, over a stale [out/scores.txt]. *)
Lemma Evaluator_init_writes_header_witness :
  let w0 := Scripted.world [] in
  let w := mkWorld (with_files (w_sys w0) {["out/scores.txt" := ["stale"; "lines"]]})
             [] tt in
  let r := Evaluator.__init__ 1 100 "out" None 0 w in
  100 <> 0 /\ ("out/scores.txt" ∉ sys_denied (w_sys w)) /\
  sys_files (w_sys r.2) !! "out/scores.txt" =
    Some [join_tab ["steps"; "elapsed"; "mean"; "median"; "stdev"; "n_actions"]].
Proof.
  intros w0 w r.
  split; [lia |]. split; [vm_compute; set_solver |].
  destruct (@Evaluator_init_writes_header Scripted.collaborators 1 100 "out" None 0 w
              [("n_actions"%string, PyInt 0)]) as (_ & Hfile & _);
    [lia | vm_compute; set_solver | reflexivity |].
  exact Hfile.
Defined.

(** C5 (amended).  Both constructors initialise [max_score] to the most
    negative finite single precision value, [np.finfo(np.float32).min]:
    [Evaluator] keeps the [numpy.float32] scalar itself, [AsyncEvaluator] a
    single precision cell, which holds it exactly and is read back as a
    Python float.  [Evaluator.max_score] stays that scalar until the first
    best-score update; after a best-score update it is the new mean itself, a
    Python float, that is a double.  The [max_score] accessor of
    [AsyncEvaluator] returns the new mean rounded to single precision, since
    the cell is a C float. *)
Theorem max_score_initial_and_updated `{Collaborators} :
  C_float.stored np_finfo_float32_min = np_finfo_float32_min /\
  (forall n_runs eval_interval outdir max_episode_len step_offset (w w' : World unit) self,
      Evaluator.__init__ n_runs eval_interval outdir max_episode_len step_offset w
      = (Returns self, w') ->
      Evaluator.max_score self = NpFloat32 np_finfo_float32_min) /\
  (forall n_runs eval_interval outdir max_episode_len step_offset (w w' : World unit) self,
      AsyncEvaluator.__init__ n_runs eval_interval outdir max_episode_len step_offset w
      = (Returns self, w') ->
      AsyncEvaluator.max_score (bound self w')
      = (Returns np_finfo_float32_min, bound self w')) /\
  (forall fuel t (w w' : World Evaluator.t) mean,
      Evaluator.evaluate_and_update_max_score fuel t w = (Returns mean, w') ->
      (float_gt mean (Evaluator.max_score (w_self w)) = true ->
       Evaluator.max_score (w_self w') = PythonFloat mean) /\
      (float_gt mean (Evaluator.max_score (w_self w)) = false ->
       Evaluator.max_score (w_self w') = Evaluator.max_score (w_self w))) /\
  (forall fuel t (w w' : World AsyncEvaluator.t) mean,
      AsyncEvaluator.evaluate_and_update_max_score fuel t w = (Returns mean, w') ->
      F64.gtb mean (AsyncEvaluator._max_score (w_self w)) = true ->
      AsyncEvaluator.max_score w' = (Returns (C_float.stored mean), w')).
Proof.
  assert (Hmin : C_float.stored np_finfo_float32_min = np_finfo_float32_min)
    by (vm_compute; reflexivity).
  split; [exact Hmin |]. split; [| split; [| split]].
  - intros n_runs i outdir cap off w w' self Hinit.
    destruct (Evaluator_init_inv _ _ _ _ _ _ _ _ Hinit) as (Hi & Hden & stats & Hst).
    rewrite (Evaluator_init_returns _ _ _ _ _ _ _ Hi Hden Hst) in Hinit.
    by injection Hinit as <- _.
  - intros n_runs i outdir cap off w w' self Hinit.
    destruct (AsyncEvaluator_init_inv _ _ _ _ _ _ _ _ Hinit) as (Hi & Hden).
    rewrite (AsyncEvaluator_init_returns _ _ _ _ _ _ Hi Hden) in Hinit.
    injection Hinit as <- _. unfold AsyncEvaluator.max_score. exec. by rewrite Hmin.
  - intros fuel t w w' mean Hev.
    destruct (Evaluator_evaluation_anatomy _ _ _ _ _ Hev) as (_ & Hself & _).
    split; intros Hbest; rewrite Hself, Hbest; done.
  - intros fuel t w w' mean Hev Hbest.
    destruct (AsyncEvaluator_evaluation_anatomy _ _ _ _ _ Hev) as (_ & Hself & _).
    unfold AsyncEvaluator.max_score. exec. rewrite Hself. simpl. by rewrite Hbest.
Qed.

(** C5 on scripted collaborators: a first evaluation with mean 5 (a value
    that single precision holds exactly). *)
Lemma max_score_initial_and_updated_witness :
  let five := F64.of_Z 5 in
  let e0 := Scripted.evaluator 100 [Scripted.one_step five] in
  let a0 := Scripted.async_evaluator 100 [Scripted.one_step five] in
  let e1 := Evaluator.evaluate_and_update_max_score 5 100 e0 in
  let a1 := AsyncEvaluator.evaluate_and_update_max_score 5 100 a0 in
  (e1 = (Returns five, e1.2) /\
   Evaluator.max_score (w_self e0) = NpFloat32 np_finfo_float32_min /\
   @float_gt (@the_numpy Scripted.collaborators) five (Evaluator.max_score (w_self e0))
   = true /\
   Evaluator.max_score (w_self e1.2) = PythonFloat five) /\
  (a1 = (Returns five, a1.2) /\
   F64.gtb five (AsyncEvaluator._max_score (w_self a0)) = true /\
   (AsyncEvaluator.max_score a1.2).1 = Returns five).
Proof.
  intros five e0 a0 e1 a1.
  destruct (@max_score_initial_and_updated Scripted.collaborators) as (_ & _ & _ & HE & HA).
  assert (He : e1 = (Returns five, e1.2)) by (vm_compute; reflexivity).
  assert (Ha : a1 = (Returns five, a1.2)) by (vm_compute; reflexivity).
  split.
  - split; [exact He |]. split; [reflexivity |]. split; [vm_compute; reflexivity |].
    apply (HE 5%nat 100 e0 e1.2 five He). vm_compute. reflexivity.
  - split; [exact Ha |]. split; [vm_compute; reflexivity |].
    rewrite (HA 5%nat 100 a0 a1.2 five Ha); [| vm_compute; reflexivity].
    vm_compute. reflexivity.
Defined.

(** C5 as stated fails for [AsyncEvaluator]: after the best-score update of
    an evaluation whose mean is [0.1], the [max_score] accessor does not
    return that mean. *)
Lemma AsyncEvaluator_max_score_is_single_precision :
  let m := F64.of_Q (1 # 10) in
  let a0 := Scripted.async_evaluator 100 [Scripted.one_step m] in
  let a1 := AsyncEvaluator.evaluate_if_necessary 5 100 a0 in
  a1.1 = Returns (Some m) /\
  F64.gtb m (AsyncEvaluator._max_score (w_self a0)) = true /\
  (AsyncEvaluator.max_score a1.2).1 <> Returns m.
Proof. vm_compute. repeat split; discriminate. Qed.

(** ** Fail fast *)

Section FailFast.
Context `{Collaborators} {Self : Type}.

Lemma ff_ret {B} (b : B) : respects fail_fast (mret b : M Self B).
Proof. intros w. by apply fail_fast_refl. Qed.

Lemma ff_bind {B C} (m : M Self B) (k : B -> M Self C) :
  respects fail_fast m -> (forall b, respects fail_fast (k b)) ->
  respects fail_fast (m ≫= k).
Proof. apply respects_bind. apply fail_fast_trans. Qed.

Lemma ff_get_self : respects fail_fast (get_self : M Self Self).
Proof. intros w. by apply fail_fast_refl. Qed.

Lemma ff_set_self self : respects fail_fast (set_self self : M Self unit).
Proof. intros w. exists []. simpl. split; [by rewrite app_nil_r | constructor]. Qed.

Lemma ff_call {B} o (f : Sys -> result (B * Sys)) :
  respects fail_fast (call o f : M Self B).
Proof. by apply fail_fast_perform. Qed.

Lemma ff_eval_performance fuel n_runs cap :
  respects fail_fast (eval_performance fuel n_runs cap : M Self (float * float * float)).
Proof. apply eval_performance_respects, fail_fast_episode_logic. Qed.

Lemma fail_fast_elim st (w w' : World Self) :
  fail_fast st w w' ->
  exists evs,
    w_trace w' = w_trace w ++ evs /\
    (forall e, st = Raised e <->
               exists evs0 o, evs = evs0 ++ [Failed o e] /\ Forall succeeded evs0) /\
    ((forall e, st <> Raised e) -> Forall succeeded evs).
Proof.
  intros (evs & E & Hst). exists evs. split; [exact E |].
  assert (Hnot : Forall succeeded evs ->
                 forall e, ~ exists evs0 o, evs = evs0 ++ [Failed o e] /\ Forall succeeded evs0).
  { intros Hall e (evs0 & o & -> & _).
    apply Forall_app in Hall as [_ Hlast]. by inversion Hlast. }
  destruct st as [| e' |].
  - split; [| done]. intros e. split; [done |]. intros Hex. by destruct (Hnot Hst e).
  - split.
    + intros e. split.
      * by intros [= <-].
      * intros (evs0 & o & E0 & _). destruct Hst as (evs1 & o1 & E1 & _).
        rewrite E0 in E1. apply app_inj_tail in E1 as [_ E1]. by injection E1 as _ ->.
    + intros Hno. by destruct (Hno e').
  - split; [| done]. intros e. split; [done |]. intros Hex. by destruct (Hnot Hst e).
Qed.
End FailFast.

(** Proves [respects fail_fast m] for a program [m] made of calls. *)
Ltac fail_fast_tac :=
  repeat first
    [ apply ff_ret
    | apply ff_get_self
    | apply ff_set_self
    | apply ff_call
    | apply ff_eval_performance
    | apply ff_bind; [| intros ?]
    | match goal with
      | |- respects _ (if ?b then _ else _) => destruct b
      | |- respects _ (match ?x with _ => _ end) => destruct x
      end ].

Section FailFastMethods.
Context `{Collaborators}.

Lemma ff_Evaluator_evaluate_if_necessary fuel t :
  respects fail_fast (Evaluator.evaluate_if_necessary fuel t).
Proof.
  unfold Evaluator.evaluate_if_necessary, Evaluator.evaluate_and_update_max_score,
    record_stats, update_best_model, save_agent, time_time, agent_get_statistics,
    agent_save, logger_info, mod_, open, print.
  fail_fast_tac.
Qed.

Lemma ff_AsyncEvaluator_evaluate_if_necessary fuel t :
  respects fail_fast (AsyncEvaluator.evaluate_if_necessary fuel t).
Proof.
  unfold AsyncEvaluator.evaluate_if_necessary, AsyncEvaluator.claim,
    AsyncEvaluator.ensure_header, AsyncEvaluator.write_header,
    AsyncEvaluator.evaluate_and_update_max_score,
    record_stats, update_best_model, save_agent, time_time, agent_get_statistics,
    agent_save, logger_info, mod_, open, print.
  fail_fast_tac.
Qed.
End FailFastMethods.

(** C8.  In a call of [evaluate_if_necessary], of either class, every call
    into the agent, the environment, the explorer, [statistics], the file
    system or the clock that raises ends the call at that point: the call
    raises [e] if and only if the last thing it did was a call that raised
    [e], and every call made before that one returned.  So no error is
    caught, retried or swallowed. *)
Theorem errors_propagate_unhandled `{Collaborators} (fuel : nat) (t : Z) :
  (forall w : World Evaluator.t,
      let r := Evaluator.evaluate_if_necessary fuel t w in
      exists evs,
        w_trace r.2 = w_trace w ++ evs /\
        (forall e, r.1 = Raises e <->
                   exists evs0 o, evs = evs0 ++ [Failed o e] /\ Forall succeeded evs0) /\
        ((forall e, r.1 <> Raises e) -> Forall succeeded evs)) /\
  (forall w : World AsyncEvaluator.t,
      let r := AsyncEvaluator.evaluate_if_necessary fuel t w in
      exists evs,
        w_trace r.2 = w_trace w ++ evs /\
        (forall e, r.1 = Raises e <->
                   exists evs0 o, evs = evs0 ++ [Failed o e] /\ Forall succeeded evs0) /\
        ((forall e, r.1 <> Raises e) -> Forall succeeded evs)).
Proof.
  assert (Hst : forall B (o : outcome B) e, status_of o = Raised e <-> o = Raises e).
  { intros B [b | e' |] e; simpl; split; try done; by intros [= ->]. }
  split; intros w r.
  - destruct (fail_fast_elim _ _ _ (ff_Evaluator_evaluate_if_necessary fuel t w))
      as (evs & E & Hiff & Hall).
    exists evs. split; [exact E |]. split.
    + intros e. rewrite <- Hiff. symmetry. apply Hst.
    + intros Hno. apply Hall. intros e He. apply (Hno e). by apply Hst.
  - destruct (fail_fast_elim _ _ _ (ff_AsyncEvaluator_evaluate_if_necessary fuel t w))
      as (evs & E & Hiff & Hall).
    exists evs. split; [exact E |]. split.
    + intros e. rewrite <- Hiff. symmetry. apply Hst.
    + intros Hno. apply Hall. intros e He. apply (Hno e). by apply Hst.
Qed.

(** C8 on scripted collaborators: the environment raises at the first step
    of the evaluation (its script is empty); the call raises that error and
    the failed [env.step] is the last thing it did. *)
Lemma errors_propagate_unhandled_witness :
  let e0 := Scripted.evaluator 100 [[]] in
  let a0 := Scripted.async_evaluator 100 [[]] in
  let re := Evaluator.evaluate_if_necessary 5 100 e0 in
  let ra := AsyncEvaluator.evaluate_if_necessary 5 100 a0 in
  (re.1 = Raises (Error "StopIteration") /\
   exists evs0 o,
     w_trace re.2 = w_trace e0 ++ evs0 ++ [Failed o (Error "StopIteration")] /\
     Forall succeeded evs0) /\
  (ra.1 = Raises (Error "StopIteration") /\
   exists evs0 o,
     w_trace ra.2 = w_trace a0 ++ evs0 ++ [Failed o (Error "StopIteration")] /\
     Forall succeeded evs0).
Proof.
  intros e0 a0 re ra.
  destruct (@errors_propagate_unhandled Scripted.collaborators 5 100) as [HE HA].
  assert (Hre : re.1 = Raises (Error "StopIteration")) by (vm_compute; reflexivity).
  assert (Hra : ra.1 = Raises (Error "StopIteration")) by (vm_compute; reflexivity).
  split.
  - split; [exact Hre |].
    destruct (HE e0) as (evs & E & Hiff & _).
    destruct (proj1 (Hiff _) Hre) as (evs0 & o & -> & Hall).
    exists evs0, o. split; [exact E | exact Hall].
  - split; [exact Hra |].
    destruct (HA a0) as (evs & E & Hiff & _).
    destruct (proj1 (Hiff _) Hra) as (evs0 & o & -> & Hall).
    exists evs0, o. split; [exact E | exact Hall].
Defined.

(** ** The grid of [prev_eval_t] *)

Section Grid.
Context `{Collaborators}.

(** What a call of [evaluate_if_necessary] does to [prev_eval_t] and
    [eval_interval], however it ends. *)
Lemma Evaluator_call_prev_eval_t fuel t (w : World Evaluator.t) :
  let self := w_self w in
  let self' := w_self (Evaluator.evaluate_if_necessary fuel t w).2 in
  Evaluator.eval_interval self' = Evaluator.eval_interval self /\
  (Evaluator.prev_eval_t self' = Evaluator.prev_eval_t self \/
   Evaluator.eval_interval self <> 0 /\
   Evaluator.prev_eval_t self' = t - t mod Evaluator.eval_interval self).
Proof.
  intros self.
  destruct (Z_lt_le_dec t (Evaluator.prev_eval_t self + Evaluator.eval_interval self))
    as [Hlt | Hdue].
  { rewrite (Evaluator_not_due _ _ _ Hlt). simpl. auto. }
  rewrite (Evaluator_due _ _ _ Hdue).
  pose proof (Evaluator_evaluation_attributes fuel t w) as Hattr. simpl in Hattr.
  destruct (Evaluator.evaluate_and_update_max_score fuel t w) as [[score | e |] w1];
    simpl in *.
  - assert (Hint : Evaluator.eval_interval (w_self w1) = Evaluator.eval_interval self).
    { destruct Hattr as [-> | [x ->]]; done. }
    rewrite Hint.
    destruct (Z.eqb_spec (Evaluator.eval_interval self) 0); simpl.
    + split; [done |]. left. destruct Hattr as [-> | [x ->]]; done.
    + split; [done |]. by right.
  - destruct Hattr as [-> | [x ->]]; auto.
  - destruct Hattr as [-> | [x ->]]; auto.
Qed.

Lemma AsyncEvaluator_call_prev_eval_t fuel t (w : World AsyncEvaluator.t) :
  let self := w_self w in
  let next := AsyncEvaluator.prev_eval_t self + AsyncEvaluator.eval_interval self in
  let self' := w_self (AsyncEvaluator.evaluate_if_necessary fuel t w).2 in
  AsyncEvaluator.eval_interval self' = AsyncEvaluator.eval_interval self /\
  AsyncEvaluator.prev_eval_t self' =
    (if decide (next <= t) then C_long.stored next else AsyncEvaluator.prev_eval_t self).
Proof.
  intros self next. destruct (decide (next <= t)) as [Hdue | Hlt].
  2:{ rewrite AsyncEvaluator_not_due by (fold self next; lia). done. }
  rewrite (AsyncEvaluator_due _ _ _ Hdue). fold self next.
  set (claimed := bound (AsyncEvaluator.store_prev_eval_t self next) w).
  unfold mbind, M_bind, bind, mret, M_ret, ret.
  pose proof (AsyncEvaluator_ensure_header_attributes claimed) as [Hh _].
  destruct (AsyncEvaluator.ensure_header claimed) as [[[] | e |] wh]; simpl in *;
    try (destruct Hh as [-> | ->]; done).
  pose proof (AsyncEvaluator_evaluation_attributes fuel t wh) as [Hev _].
  destruct (AsyncEvaluator.evaluate_and_update_max_score fuel t wh) as [[s | e |] w1];
    simpl in *;
    destruct Hev as [-> | [x ->]]; destruct Hh as [-> | ->]; done.
Qed.

Lemma C_long_stored_in_range n :
  C_long.min_value <= n <= C_long.max_value -> C_long.stored n = n.
Proof.
  unfold C_long.stored, C_long.min_value, C_long.max_value, C_long.bits. simpl.
  intros Hn. rewrite Z.mod_small; lia.
Qed.

Lemma aligned_down (i n : Z) : i <> 0 -> (n - n mod i) mod i = 0.
Proof.
  intros Hi. rewrite (Z.div_mod n i) at 1 by done.
  replace (i * (n / i) + n mod i - n mod i) with (n / i * i) by lia.
  apply Z.mod_mul. done.
Qed.
End Grid.

(** C10 (amended).  For every [eval_interval > 0], [prev_eval_t] is an exact
    multiple of [eval_interval] when the constructor returns and after every
    sequence of [evaluate_if_necessary] calls: for [Evaluator] always (it
    assigns [t - t % eval_interval]), for [AsyncEvaluator] (it adds
    [eval_interval]) as long as [step_offset] is a non-negative C long and
    the step counts [t] fit a C long, so that the shared cell never wraps. *)
Theorem prev_eval_t_multiple_of_eval_interval `{Collaborators} (fuel : nat) :
  (forall n_runs i outdir cap off (w w' : World unit) self,
      i > 0 ->
      Evaluator.__init__ n_runs i outdir cap off w = (Returns self, w') ->
      Evaluator.eval_interval self = i /\ Evaluator.prev_eval_t self mod i = 0) /\
  (forall (ts : list Z) (w : World Evaluator.t),
      let i := Evaluator.eval_interval (w_self w) in
      i > 0 ->
      Evaluator.prev_eval_t (w_self w) mod i = 0 ->
      let self' := w_self (Evaluator_calls fuel ts w) in
      Evaluator.eval_interval self' = i /\ Evaluator.prev_eval_t self' mod i = 0) /\
  (forall n_runs i outdir cap off (w w' : World unit) self,
      i > 0 -> 0 <= off <= C_long.max_value ->
      AsyncEvaluator.__init__ n_runs i outdir cap off w = (Returns self, w') ->
      AsyncEvaluator.eval_interval self = i /\
      AsyncEvaluator.prev_eval_t self mod i = 0 /\
      C_long.min_value <= AsyncEvaluator.prev_eval_t self <= C_long.max_value) /\
  (forall (ts : list Z) (w : World AsyncEvaluator.t),
      let i := AsyncEvaluator.eval_interval (w_self w) in
      i > 0 ->
      Forall (fun t => t <= C_long.max_value) ts ->
      AsyncEvaluator.prev_eval_t (w_self w) mod i = 0 ->
      C_long.min_value <= AsyncEvaluator.prev_eval_t (w_self w) <= C_long.max_value ->
      let self' := w_self (AsyncEvaluator_calls fuel ts w) in
      AsyncEvaluator.eval_interval self' = i /\
      AsyncEvaluator.prev_eval_t self' mod i = 0 /\
      C_long.min_value <= AsyncEvaluator.prev_eval_t self' <= C_long.max_value).
Proof.
  split; [| split; [| split]].
  - intros n_runs i outdir cap off w w' self Hi Hinit.
    destruct (Evaluator_init_inv _ _ _ _ _ _ _ _ Hinit) as (Hi0 & Hden & stats & Hst).
    rewrite (Evaluator_init_returns _ _ _ _ _ _ _ Hi0 Hden Hst) in Hinit.
    injection Hinit as <- _. simpl. split; [done |]. by apply aligned_down.
  - intros ts. induction ts as [| t ts IH]; intros w i Hi Hal; [done |].
    simpl. pose proof (Evaluator_call_prev_eval_t fuel t w) as [Hint Hprev].
    simpl in Hint, Hprev. fold i in Hint, Hprev.
    set (w1 := (Evaluator.evaluate_if_necessary fuel t w).2) in *.
    assert (Hal1 : Evaluator.prev_eval_t (w_self w1) mod i = 0).
    { destruct Hprev as [-> | [Hi0 ->]]; [done | by apply aligned_down]. }
    specialize (IH w1). simpl in IH. rewrite Hint in IH. by apply IH.
  - intros n_runs i outdir cap off w w' self Hi Hoff Hinit.
    destruct (AsyncEvaluator_init_inv _ _ _ _ _ _ _ _ Hinit) as (Hi0 & Hden).
    rewrite (AsyncEvaluator_init_returns _ _ _ _ _ _ Hi0 Hden) in Hinit.
    injection Hinit as <- _. simpl.
    assert (Hm : 0 <= off mod i < i) by (apply Z.mod_pos_bound; lia).
    assert (Hr : C_long.min_value <= off - off mod i <= C_long.max_value).
    { assert (off mod i <= off) by (apply Z.mod_le; lia).
      unfold C_long.min_value, C_long.max_value, C_long.bits in *. simpl in *. lia. }
    rewrite (C_long_stored_in_range _ Hr).
    split; [done |]. split; [by apply aligned_down | done].
  - intros ts. induction ts as [| t ts IH]; intros w i Hi Hts Hal Hr; [done |].
    simpl. apply Forall_cons in Hts as [Ht Hts].
    pose proof (AsyncEvaluator_call_prev_eval_t fuel t w) as [Hint Hprev].
    simpl in Hint, Hprev. fold i in Hint, Hprev.
    set (w1 := (AsyncEvaluator.evaluate_if_necessary fuel t w).2) in *.
    assert (H1 : AsyncEvaluator.prev_eval_t (w_self w1) mod i = 0 /\
                 C_long.min_value <= AsyncEvaluator.prev_eval_t (w_self w1)
                 <= C_long.max_value).
    { rewrite Hprev. destruct (decide _) as [Hdue | _]; [| done].
      rewrite C_long_stored_in_range by lia.
      split; [| lia]. rewrite Z.add_mod, Hal, Z.mod_same by lia. simpl.
      apply Z.mod_0_l. lia. }
    destruct H1 as [Hal1 Hr1].
    specialize (IH w1). simpl in IH. rewrite Hint in IH. by apply IH.
Qed.

(** C10 on scripted collaborators: [step_offset = 250], and the calls at
    50, 100, 150 and 250 of the scenario of C1. *)
Lemma prev_eval_t_multiple_of_eval_interval_witness :
  let five := F64.of_Z 5 in
  let seven := F64.of_Z 7 in
  let w0 := Scripted.world [] in
  let e := Evaluator.mk (NpFloat32 np_finfo_float32_min) F64.zero 1 100 "out" None 250 200 in
  let a := AsyncEvaluator.mk F64.zero 1 100 "out" None 250 200 np_finfo_float32_min 0 in
  let e0 := Scripted.evaluator 100 [Scripted.one_step five; Scripted.one_step seven] in
  let a0 := Scripted.async_evaluator 100 [Scripted.one_step five; Scripted.one_step seven] in
  (100 > 0 /\ 0 <= 250 <= C_long.max_value) /\
  (Evaluator.__init__ 1 100 "out" None 250 w0
   = (Returns e, (Evaluator.__init__ 1 100 "out" None 250 w0).2) /\
   Evaluator.prev_eval_t e mod 100 = 0) /\
  (AsyncEvaluator.__init__ 1 100 "out" None 250 w0
   = (Returns a, (AsyncEvaluator.__init__ 1 100 "out" None 250 w0).2) /\
   AsyncEvaluator.prev_eval_t a mod 100 = 0) /\
  Evaluator.prev_eval_t (w_self (Evaluator_calls 5 [50; 100; 150; 250] e0)) mod 100 = 0 /\
  AsyncEvaluator.prev_eval_t (w_self (AsyncEvaluator_calls 5 [50; 100; 150; 250] a0))
    mod 100 = 0.
Proof.
  intros five seven w0 e a e0 a0.
  destruct (@prev_eval_t_multiple_of_eval_interval Scripted.collaborators 5)
    as (HEi & HEc & HAi & HAc).
  assert (Hmax : 0 <= 250 <= C_long.max_value) by (vm_compute; split; discriminate).
  split; [split; [lia | exact Hmax] |].
  split.
  { assert (Hinit : Evaluator.__init__ 1 100 "out" None 250 w0
                    = (Returns e, (Evaluator.__init__ 1 100 "out" None 250 w0).2))
      by (vm_compute; reflexivity).
    split; [exact Hinit |].
    destruct (HEi 1 100 "out"%string None 250 w0 _ e ltac:(lia) Hinit) as [_ Hal].
    exact Hal. }
  split.
  { assert (Hinit : AsyncEvaluator.__init__ 1 100 "out" None 250 w0
                    = (Returns a, (AsyncEvaluator.__init__ 1 100 "out" None 250 w0).2))
      by (vm_compute; reflexivity).
    split; [exact Hinit |].
    destruct (HAi 1 100 "out"%string None 250 w0 _ a ltac:(lia) Hmax Hinit) as (_ & Hal & _).
    exact Hal. }
  split.
  - destruct (HEc [50; 100; 150; 250] e0) as [_ Hal];
      [vm_compute; reflexivity | vm_compute; reflexivity | exact Hal].
  - destruct (HAc [50; 100; 150; 250] a0) as (_ & Hal & _);
      [vm_compute; reflexivity | | vm_compute; reflexivity
       | vm_compute; split; discriminate | exact Hal].
    repeat constructor; vm_compute; discriminate.
Defined.

(** C10 as stated fails for [AsyncEvaluator] once the C long wraps: built
    with [eval_interval = 3] and [step_offset = 2**63 - 1], the object has
    [prev_eval_t = 2**63 - 2], a multiple of 3; the call at
    [t = 2**63 + 1] evaluates and leaves [prev_eval_t = -2**63 + 1], which is
    not. *)
Lemma AsyncEvaluator_prev_eval_t_wraps :
  let w0 := Scripted.world [Scripted.one_step (F64.of_Z 5)] in
  let init := AsyncEvaluator.__init__ 1 3 "out" None (2 ^ 63 - 1) w0 in
  let a := AsyncEvaluator.mk F64.zero 1 3 "out" None (2 ^ 63 - 1) (2 ^ 63 - 2)
             np_finfo_float32_min 0 in
  let r := AsyncEvaluator.evaluate_if_necessary 5 (2 ^ 63 + 1) (bound a init.2) in
  init.1 = Returns a /\
  AsyncEvaluator.prev_eval_t a mod 3 = 0 /\
  r.1 = Returns (Some (F64.of_Z 5)) /\
  AsyncEvaluator.prev_eval_t (w_self r.2) = - 2 ^ 63 + 1 /\
  AsyncEvaluator.prev_eval_t (w_self r.2) mod 3 <> 0.
Proof. vm_compute. repeat split; discriminate. Qed.

(** ** The header of [AsyncEvaluator] *)

Section Header.
Context `{Collaborators}.
Import AsyncEvaluator.

Lemma AsyncEvaluator_ensure_header_returns (w : World AsyncEvaluator.t) stats :
  wrote_header (w_self w) = 0 ->
  os_path_join (outdir (w_self w)) "scores.txt" ∉ sys_denied (w_sys w) ->
  get_statistics (sys_agent (w_sys w)) = Ok stats ->
  (ensure_header w).1 = Returns tt.
Proof.
  intros Hw Hden Hst. unfold ensure_header, write_header. exec. rewrite Hw. simpl.
  destruct (decide _); [done |]. simpl. by rewrite Hst.
Qed.

(** One call is a header step. *)
Lemma AsyncEvaluator_call_header fuel t (w : World AsyncEvaluator.t) :
  header_step w (evaluate_if_necessary fuel t w).2.
Proof.
  unfold header_step.
  destruct (Z_lt_le_dec t (prev_eval_t (w_self w) + eval_interval (w_self w)))
    as [Hlt | Hdue].
  { rewrite (AsyncEvaluator_not_due _ _ _ Hlt). simpl.
    exists []. rewrite app_nil_r. split; [done |]. split; [done |]. by left. }
  rewrite (AsyncEvaluator_due _ _ _ Hdue).
  set (claimed := bound (store_prev_eval_t (w_self w)
                           (prev_eval_t (w_self w) + eval_interval (w_self w))) w).
  assert (Hc : wrote_header (w_self claimed) = wrote_header (w_self w)) by done.
  unfold mbind, M_bind, bind, mret, M_ret, ret.
  destruct (Z.eq_dec (wrote_header (w_self w)) 0) as [Hw | Hw].
  - pose proof (AsyncEvaluator_ensure_header_unset claimed) as Hh.
    rewrite Hc in Hh. specialize (Hh Hw). simpl in Hh. destruct Hh as [_ Hh].
    destruct (ensure_header claimed) as [[[] | e |] wh]; simpl in *.
    + destruct Hh as (stats & _ & Hself & Htr).
      pose proof (AsyncEvaluator_evaluation_attributes fuel t wh) as [Hev (evs & E & Hq)].
      assert (Hwh : wrote_header
                      (w_self (evaluate_and_update_max_score fuel t wh).2) = 1).
      { destruct Hev as [-> | [x ->]]; rewrite Hself; done. }
      eexists (_ ++ evs).
      destruct (evaluate_and_update_max_score fuel t wh) as [[s | e |] w1]; simpl in *;
        (split; [by rewrite E, Htr, <- app_assoc |]);
        (split; [done |]); intros _; right; (split; [done |]);
        rewrite headers_app, Hq; done.
    + destruct Hh as (Hself & evs & E & Hq). exists evs.
      split; [by rewrite E |]. split; [done |]. intros _. left. by rewrite Hself.
    + destruct Hh as (Hself & evs & E & Hq). exists evs.
      split; [by rewrite E |]. split; [done |]. intros _. left. by rewrite Hself.
  - rewrite AsyncEvaluator_ensure_header_set by (by rewrite Hc).
    pose proof (AsyncEvaluator_evaluation_attributes fuel t claimed) as [Hev (evs & E & Hq)].
    exists evs.
    assert (Hwh : wrote_header
                    (w_self (evaluate_and_update_max_score fuel t claimed).2)
                  = wrote_header (w_self w)).
    { destruct Hev as [-> | [x ->]]; done. }
    destruct (evaluate_and_update_max_score fuel t claimed) as [[s | e |] w1]; simpl in *;
      (split; [by rewrite E |]); (split; [done |]); done.
Qed.

(** One block of one worker is a header step. *)
Lemma block_header fuel t (wk : worker) (w : World AsyncEvaluator.t) :
  header_step w (block fuel t wk w).2.
Proof.
  unfold header_step, block.
  set (wl := load wk w).
  assert (Hl : w_trace wl = w_trace w /\ w_self wl = w_self w) by done.
  destruct Hl as [Htr Hself]. rewrite <- Htr, <- Hself. clearbody wl. clear Htr Hself.
  destruct (wk_at wk) as [| t0 | t0]; simpl.
  - destruct (Z_lt_le_dec t (prev_eval_t (w_self wl) + eval_interval (w_self wl)))
      as [Hlt | Hdue].
    + rewrite (AsyncEvaluator_claim_not_due _ _ Hlt). simpl.
      exists []. rewrite app_nil_r. split; [done |]. split; [done |]. by left.
    + rewrite (AsyncEvaluator_claim_due _ _ Hdue). simpl.
      exists []. rewrite app_nil_r. split; [done |]. split; [done |]. by left.
  - destruct (Z.eq_dec (wrote_header (w_self wl)) 0) as [Hw | Hw].
    + pose proof (AsyncEvaluator_ensure_header_unset wl Hw) as [_ Hh]. simpl in Hh.
      destruct (ensure_header wl) as [[[] | e |] wh]; simpl in *.
      * destruct Hh as (stats & _ & Hs & Htr). eexists. split; [exact Htr |].
        split; [done |]. intros _. right. by rewrite Hs.
      * destruct Hh as (Hs & evs & E & Hq). exists evs.
        split; [done |]. split; [done |]. intros _. left. by rewrite Hs.
      * destruct Hh as (Hs & evs & E & Hq). exists evs.
        split; [done |]. split; [done |]. intros _. left. by rewrite Hs.
    + rewrite (AsyncEvaluator_ensure_header_set _ Hw). simpl.
      exists []. rewrite app_nil_r. split; [done |]. split; [done |]. done.
  - pose proof (AsyncEvaluator_evaluation_attributes fuel t0 wl) as [Hev (evs & E & Hq)].
    exists evs. split; [exact E |].
    assert (Hwh : wrote_header (w_self (evaluate_and_update_max_score fuel t0 wl).2)
                  = wrote_header (w_self wl)).
    { destruct Hev as [-> | [x ->]]; done. }
    split; [done |]. intros Hw. left. by rewrite Hwh.
Qed.

Lemma header_once_refl (w : World AsyncEvaluator.t) : header_once w w.
Proof.
  exists []. rewrite app_nil_r. split; [done |]. split; [done |]. by intros ->.
Qed.

Lemma header_once_step (w w1 w2 : World AsyncEvaluator.t) :
  header_step w w1 -> header_once w1 w2 -> header_once w w2.
Proof.
  intros (evs1 & E1 & Hset1 & Hunset1) (evs2 & E2 & Hset2 & Hunset2).
  exists (evs1 ++ evs2). split; [by rewrite E2, E1, app_assoc |].
  rewrite headers_app, length_app. split.
  - intros Hw. destruct (Hset1 Hw) as [-> Hw1]. apply Hset2. by rewrite Hw1.
  - intros Hw. destruct (Hunset1 Hw) as [[Hw1 ->] | [Hw1 ->]].
    + by apply Hunset2.
    + destruct Hset2 as [-> Hw2]; [by rewrite Hw1 |].
      by destruct (Z.eqb_spec (wrote_header (w_self w2)) 0).
Qed.

Lemma calls_header_once fuel ts (w : World AsyncEvaluator.t) :
  header_once w (AsyncEvaluator_calls fuel ts w).
Proof.
  revert w. induction ts as [| t ts IH]; intros w; [apply header_once_refl |].
  simpl. eapply header_once_step; [apply AsyncEvaluator_call_header | apply IH].
Qed.

Lemma schedule_header_once fuel schedule workers (w : World AsyncEvaluator.t) :
  header_once w (run_schedule fuel schedule workers w).2.
Proof.
  revert workers w. induction schedule as [| [k t] schedule IH]; intros workers w;
    [apply header_once_refl |].
  simpl. destruct (workers !! k) as [wk |]; [| apply IH].
  eapply header_once_step; [apply block_header | apply IH].
Qed.
End Header.

(** C6.  [AsyncEvaluator.__init__] never writes the header (it prints
    nothing and leaves [wrote_header] unset).  Over any sequence of
    [evaluate_if_necessary] calls made one after the other, the header is
    written at most once, and exactly once as soon as [wrote_header] is set,
    and so it is over any schedule of the blocks of the calls of several
    workers; the first call that claims an evaluation writes it (provided [open] and
    [agent.get_statistics] do not raise) and sets [wrote_header]; every
    call that finds [wrote_header] set writes no header and leaves it set. *)
Theorem AsyncEvaluator_header_written_once `{Collaborators} (fuel : nat) :
  (forall n_runs i outdir cap off (w : World unit),
      let r := AsyncEvaluator.__init__ n_runs i outdir cap off w in
      (exists evs, w_trace r.2 = w_trace w ++ evs /\ headers evs = []) /\
      forall self, r.1 = Returns self -> AsyncEvaluator.wrote_header self = 0) /\
  (forall (ts : list Z) (w : World AsyncEvaluator.t),
      let w' := AsyncEvaluator_calls fuel ts w in
      exists evs,
        w_trace w' = w_trace w ++ evs /\
        (AsyncEvaluator.wrote_header (w_self w) <> 0 ->
         headers evs = [] /\ AsyncEvaluator.wrote_header (w_self w') <> 0) /\
        (AsyncEvaluator.wrote_header (w_self w) = 0 ->
         length (headers evs) =
           if AsyncEvaluator.wrote_header (w_self w') =? 0 then 0%nat else 1%nat)) /\
  (forall (schedule : list (nat * Z)) (workers : list worker)
          (w : World AsyncEvaluator.t),
      let w' := (run_schedule fuel schedule workers w).2 in
      exists evs,
        w_trace w' = w_trace w ++ evs /\
        (AsyncEvaluator.wrote_header (w_self w) <> 0 ->
         headers evs = [] /\ AsyncEvaluator.wrote_header (w_self w') <> 0) /\
        (AsyncEvaluator.wrote_header (w_self w) = 0 ->
         length (headers evs) =
           if AsyncEvaluator.wrote_header (w_self w') =? 0 then 0%nat else 1%nat)) /\
  (forall (t : Z) (w : World AsyncEvaluator.t) stats,
      let self := w_self w in
      let w' := (AsyncEvaluator.evaluate_if_necessary fuel t w).2 in
      AsyncEvaluator.wrote_header self = 0 ->
      AsyncEvaluator.prev_eval_t self + AsyncEvaluator.eval_interval self <= t ->
      os_path_join (AsyncEvaluator.outdir self) "scores.txt" ∉ sys_denied (w_sys w) ->
      get_statistics (sys_agent (w_sys w)) = Ok stats ->
      AsyncEvaluator.wrote_header (w_self w') = 1 /\
      exists evs,
        w_trace w' = w_trace w ++ evs /\
        headers evs =
          [join_tab (["steps"; "elapsed"; "mean"; "median"; "stdev"] ++ map fst stats)]).
Proof.
  split; [| split; [| split]].
  - intros n_runs i outdir cap off w r. subst r. split.
    + destruct (AsyncEvaluator_init_prints_nothing n_runs i outdir cap off w)
        as (evs & E & Hh & _). by exists evs.
    + intros self Hr.
      destruct (AsyncEvaluator.__init__ n_runs i outdir cap off w) as [o w'] eqn:Hinit.
      simpl in Hr. subst o.
      destruct (AsyncEvaluator_init_inv _ _ _ _ _ _ _ _ Hinit) as (Hi0 & Hden).
      rewrite (AsyncEvaluator_init_returns _ _ _ _ _ _ Hi0 Hden) in Hinit.
      by injection Hinit as <- _.
  - intros ts w. apply calls_header_once.
  - intros schedule workers w. apply schedule_header_once.
  - intros t w stats self w' Hw Hdue Hden Hst. subst w'.
    rewrite (AsyncEvaluator_due _ _ _ Hdue). fold self.
    set (claimed := bound (AsyncEvaluator.store_prev_eval_t self
                             (AsyncEvaluator.prev_eval_t self
                              + AsyncEvaluator.eval_interval self)) w).
    pose proof (AsyncEvaluator_ensure_header_returns claimed stats Hw Hden Hst) as Hret.
    pose proof (AsyncEvaluator_ensure_header_unset claimed Hw) as [_ Hh].
    unfold mbind, M_bind, bind, mret, M_ret, ret.
    destruct (AsyncEvaluator.ensure_header claimed) as [o wh]. simpl in Hret, Hh. subst o.
    destruct Hh as (stats' & Hst' & Hself & Htr).
    assert (stats' = stats) as -> by (simpl in Hst'; congruence).
    pose proof (AsyncEvaluator_evaluation_attributes fuel t wh) as [Hev (evs & E & Hq)].
    assert (Hwh : AsyncEvaluator.wrote_header
                    (w_self (AsyncEvaluator.evaluate_and_update_max_score fuel t wh).2) = 1).
    { destruct Hev as [-> | [x ->]]; rewrite Hself; done. }
    destruct (AsyncEvaluator.evaluate_and_update_max_score fuel t wh) as [[s | e |] w1];
      simpl in *; (split; [done |]); eexists (_ ++ evs);
      (split; [by rewrite E, Htr, <- app_assoc |]);
      rewrite headers_app, Hq; done.
Qed.

(** C6 on scripted collaborators: the call at 100 writes the header; over
    the calls at 50, 100, 150 and 250 it is written once; and it is written
    once when two workers claim the evaluations due at 100 and 200 and the
    second one reaches the header block first. *)
Lemma AsyncEvaluator_header_written_once_witness :
  let five := F64.of_Z 5 in
  let seven := F64.of_Z 7 in
  let a0 := Scripted.async_evaluator 100 [Scripted.one_step five; Scripted.one_step seven] in
  let a100 := (AsyncEvaluator.evaluate_if_necessary 5 100 a0).2 in
  let a250 := AsyncEvaluator_calls 5 [50; 100; 150; 250] a0 in
  let workers :=
    [@mkWorker Scripted.collaborators (Scripted.mkEnv [Scripted.one_step five] []) O Outside;
     @mkWorker Scripted.collaborators (Scripted.mkEnv [Scripted.one_step seven] []) O Outside]
  in
  let schedule := [(0%nat, 100); (1%nat, 200); (1%nat, 200); (0%nat, 100);
                   (0%nat, 100); (1%nat, 200)] in
  let b := (run_schedule 5 schedule workers a0).2 in
  (AsyncEvaluator.wrote_header (w_self a0) = 0 /\ 0 + 100 <= 100 /\
   ("out/scores.txt" ∉ sys_denied (w_sys a0))) /\
  AsyncEvaluator.wrote_header (w_self a100) = 1 /\
  (exists evs,
      w_trace a100 = w_trace a0 ++ evs /\
      headers evs = [join_tab ["steps"; "elapsed"; "mean"; "median"; "stdev"; "n_actions"]]) /\
  (exists evs, w_trace a250 = w_trace a0 ++ evs /\ length (headers evs) = 1%nat) /\
  (exists evs, w_trace b = w_trace a0 ++ evs /\ length (headers evs) = 1%nat /\
               length (rows evs) = 2%nat).
Proof.
  intros five seven a0 a100 a250 workers schedule b.
  destruct (@AsyncEvaluator_header_written_once Scripted.collaborators 5)
    as (_ & Hcalls & Hsched & Hfirst).
  assert (Hden : "out/scores.txt" ∉ sys_denied (w_sys a0)) by (vm_compute; set_solver).
  split; [split; [reflexivity | split; [lia | exact Hden]] |].
  destruct (Hfirst 100 a0 [("n_actions"%string, PyInt 0)]) as [Hset Hevs];
    [reflexivity | vm_compute; discriminate | exact Hden | reflexivity |].
  split; [exact Hset |]. split; [exact Hevs |].
  split.
  - destruct (Hcalls [50; 100; 150; 250] a0) as (evs & E & _ & Hlen).
    exists evs. split; [exact E |].
    rewrite Hlen by reflexivity. vm_compute. reflexivity.
  - destruct (Hsched schedule workers a0) as (evs & E & _ & Hlen).
    exists evs. split; [exact E |]. split.
    + rewrite Hlen by reflexivity. vm_compute. reflexivity.
    + assert (Hevs' : evs = w_trace b) by (symmetry; exact E).
      rewrite Hevs'. vm_compute. reflexivity.
Defined.

(** ** The scores of [eval_performance] *)

Section Scores.
Context `{Collaborators} {Self : Type}.

Lemma scores_from_loop cur evs rest :
  Forall loop_event evs ->
  scores_from cur (evs ++ rest) =
    scores_from (option_map (fun x => total_reward x (steps_of evs)) cur) rest.
Proof.
  intros Hevs. revert cur. induction Hevs as [| ev evs Hev _ IH]; intros cur; simpl.
  - by destruct cur.
  - destruct ev as [[] | r d | []]; try discriminate Hev; simpl; rewrite IH;
      by destruct cur.
Qed.

Lemma scores_from_quiet cur evs tail :
  (forall cur', scores_from cur' tail = option_list cur') ->
  scores_from cur (evs ++ tail) = scores_from cur evs.
Proof.
  intros Htail. revert cur. induction evs as [| ev evs IH]; intros cur; simpl; [done |].
  repeat case_match; by rewrite ?IH.
Qed.

Lemma run_episode_spec fuel cap i (w w' : World Self) score :
  run_episode fuel cap i w = (Returns score, w') ->
  exists evs,
    w_trace w' = w_trace w ++ Called EnvReset :: evs ++
                   [Called AgentStopEpisode; Called (LoggerInfo (LogTestEpisode i score))] /\
    Forall loop_event evs /\
    score = total_reward F64.zero (steps_of evs).
Proof.
  unfold run_episode, env_reset, agent_stop_episode, logger_info, call, perform, pure.
  unfold mbind, M_bind, bind, mret, M_ret, ret.
  destruct (sys_reset (w_sys w)) as [[obs s1] | e]; [| done].
  match goal with |- context [episode_loop fuel cap obs false F64.zero 0 ?w0] =>
    set (w1 := w0) end.
  destruct (episode_loop_spec fuel cap obs F64.zero 0 w1) as (evs & E & _ & Hout).
  pose proof (episode_loop_respects _ (only_loop_logic _ (fun _ H => H))
                fuel cap obs false F64.zero 0 w1) as (evs' & E' & Hloop).
  rewrite E in E'. apply app_inv_head in E' as <-.
  destruct (episode_loop fuel cap obs false F64.zero 0 w1) as [[x | e |] w2];
    simpl in *; try done.
  destruct Hout as [-> _].
  destruct (sys_stop_episode (w_sys w2)) as [[[] s3] | e]; simpl; [| done].
  intros [= <- <-]. exists evs. simpl. rewrite E. simpl.
  split; [| done]. by rewrite <- !app_assoc.
Qed.

Lemma run_episodes_spec fuel cap runs scores0 (w w' : World Self) scores :
  run_episodes fuel cap runs scores0 w = (Returns scores, w') ->
  exists evs new,
    w_trace w' = w_trace w ++ evs /\
    scores = scores0 ++ new /\
    length new = length runs /\
    forall cur, scores_from cur evs = option_list cur ++ new.
Proof.
  revert scores0 w. induction runs as [| i runs IH]; intros scores0 w; simpl.
  - intros [= <- <-]. exists [], []. rewrite !app_nil_r.
    repeat split. intros cur. simpl. by rewrite app_nil_r.
  - unfold mbind, M_bind, bind.
    destruct (run_episode fuel cap i w) as [[score | e |] w1] eqn:Hep; try done.
    destruct (run_episode_spec _ _ _ _ _ _ Hep) as (evs1 & E1 & Hloop & Hscore).
    intros Hrest. destruct (IH _ _ Hrest) as (evs2 & new & E2 & -> & Hlen & Hfrom).
    eexists (_ ++ evs2), (score :: new). split; [by rewrite E2, E1, <- app_assoc |].
    split; [by rewrite <- app_assoc |]. split; [by rewrite <- Hlen |].
    intros cur. simpl. rewrite <- app_assoc, scores_from_loop by done. simpl.
    rewrite Hfrom, <- Hscore. done.
Qed.
End Scores.

(** C4.  A call of [eval_performance] that returns, returns
    [statistics.mean] and [statistics.median] of the scores of its [n_runs]
    episodes, one score per episode, each the sum of the rewards of that
    episode, and as third component [statistics.stdev] of these scores when
    [n_runs >= 2] and exactly [0.0] when [n_runs < 2].  The call does return
    whenever the episodes complete and the statistics functions it calls
    return.  On the scores [1.0, 3.0, 2.0] the reference statistics give mean
    [2.0], median [2.0] and sample standard deviation [1.0]. *)
Theorem eval_performance_returns_statistics `{Collaborators} {Self : Type}
    (fuel : nat) (n_runs : Z) (max_episode_len : option Z) (w : World Self) :
  let r := eval_performance fuel n_runs max_episode_len w in
  (forall mean median stdev,
      r.1 = Returns (mean, median, stdev) ->
      exists evs scores,
        w_trace r.2 = w_trace w ++ evs /\
        scores = episode_scores evs /\
        length scores = Z.to_nat n_runs /\
        statistics.mean scores = Ok mean /\
        statistics.median scores = Ok median /\
        (2 <= n_runs -> statistics.stdev scores = Ok stdev) /\
        (n_runs < 2 -> stdev = F64.zero)) /\
  (forall scores w1,
      run_episodes fuel max_episode_len (range n_runs) [] w = (Returns scores, w1) ->
      forall mean median,
        statistics.mean scores = Ok mean ->
        statistics.median scores = Ok median ->
        (n_runs < 2 -> r.1 = Returns (mean, median, F64.zero)) /\
        (forall stdev,
            2 <= n_runs -> statistics.stdev scores = Ok stdev ->
            r.1 = Returns (mean, median, stdev))) /\
  (cpython.mean [F64.of_Z 1; F64.of_Z 3; F64.of_Z 2] = Ok (F64.of_Z 2) /\
   cpython.median [F64.of_Z 1; F64.of_Z 3; F64.of_Z 2] = Ok (F64.of_Z 2) /\
   cpython.stdev [F64.of_Z 1; F64.of_Z 3; F64.of_Z 2] = Ok (F64.of_Z 1)).
Proof.
  intros r. subst r.
  unfold eval_performance, call, perform, pure.
  unfold mbind, M_bind, bind, mret, M_ret, ret.
  split; [| split; [| repeat split; vm_compute; reflexivity]].
  - intros mean median stdev.
    destruct (run_episodes fuel max_episode_len (range n_runs) [] w)
      as [[scores | e |] w0] eqn:Hrun; try done.
    destruct (run_episodes_spec _ _ _ _ _ _ _ Hrun) as (evs & new & E & Hs & Hlen & Hfrom).
    simpl in Hs. subst new.
    assert (Hn : length scores = Z.to_nat n_runs)
      by (rewrite Hlen; unfold range; by rewrite length_map, length_seq).
    assert (Hfin : forall tail,
               (forall cur, scores_from cur tail = option_list cur) ->
               scores = episode_scores (evs ++ tail)).
    { intros tail Hq. unfold episode_scores. rewrite scores_from_quiet by done.
      by rewrite Hfrom. }
    simpl.
    destruct (statistics.mean scores) as [m |] eqn:Hmean; simpl; [| done].
    destruct (statistics.median scores) as [md |] eqn:Hmed; simpl; [| done].
    destruct (Z.geb_spec n_runs 2) as [Hge | Hlt].
    + destruct (statistics.stdev scores) as [sd |] eqn:Hsd; simpl; [| done].
      intros [= <- <- <-].
      exists (evs ++ [Called StatisticsMean; Called StatisticsMedian; Called StatisticsStdev]),
        scores.
      split; [by rewrite E, <- !app_assoc |].
      split; [by apply Hfin |]. repeat split; try done; lia.
    + intros [= <- <- <-].
      exists (evs ++ [Called StatisticsMean; Called StatisticsMedian]), scores.
      split; [by rewrite E, <- !app_assoc |].
      split; [by apply Hfin |]. repeat split; try done; lia.
  - intros scores w1 Hrun mean median Hmean Hmed.
    rewrite Hrun. simpl. rewrite Hmean. simpl. rewrite Hmed. simpl. split.
    + intros Hn. destruct (Z.geb_spec n_runs 2); [lia | done].
    + intros stdev Hn ->. destruct (Z.geb_spec n_runs 2); [done | lia].
Qed.

(** C4 on scripted collaborators: three episodes with total rewards 1, 3
    and 2, and a single episode with total reward 5. *)
Lemma eval_performance_returns_statistics_witness :
  let s := [F64.of_Z 1; F64.of_Z 3; F64.of_Z 2] in
  let five := F64.of_Z 5 in
  let w3 := Scripted.world (map Scripted.one_step s) in
  let w1 := Scripted.world [Scripted.one_step five] in
  let r3 := @eval_performance Scripted.collaborators unit 5 3 None w3 in
  let r1 := @eval_performance Scripted.collaborators unit 5 1 None w1 in
  (r3.1 = Returns (F64.of_Z 2, F64.of_Z 2, F64.of_Z 1) /\
   exists evs,
     w_trace r3.2 = w_trace w3 ++ evs /\ episode_scores evs = s /\
     cpython.stdev (episode_scores evs) = Ok (F64.of_Z 1)) /\
  (r1.1 = Returns (five, five, F64.zero) /\
   exists evs, w_trace r1.2 = w_trace w1 ++ evs /\ episode_scores evs = [five]).
Proof.
  intros s five w3 w1 r3 r1.
  assert (H3 : r3.1 = Returns (F64.of_Z 2, F64.of_Z 2, F64.of_Z 1))
    by (vm_compute; reflexivity).
  assert (H1 : r1.1 = Returns (five, five, F64.zero)) by (vm_compute; reflexivity).
  split.
  - split; [exact H3 |].
    destruct (@eval_performance_returns_statistics Scripted.collaborators unit
                5 3 None w3) as (Hret & _).
    destruct (Hret _ _ _ H3) as (evs & scores & E & Hs & _ & _ & _ & Hsd & _).
    exists evs. split; [exact E |]. subst scores. split.
    + vm_compute in E. subst evs. vm_compute. reflexivity.
    + apply Hsd. lia.
  - split; [exact H1 |].
    destruct (@eval_performance_returns_statistics Scripted.collaborators unit
                5 1 None w1) as (Hret & _).
    destruct (Hret _ _ _ H1) as (evs & scores & E & Hs & _).
    exists evs. split; [exact E |].
    vm_compute in E. subst evs. vm_compute. reflexivity.
Defined.

(** * Further properties *)

(** ** The straight-line code of the functions and methods *)

Section RecordStats.
Context `{Collaborators} {Self : Type}.

Lemma record_stats_run outdir values (w : World Self) :
  let path := os_path_join outdir "scores.txt" in
  let line := join_tab (map str values) in
  record_stats outdir values w =
    if decide (path ∈ sys_denied (w_sys w))
    then (Raises (IOError path),
          mkWorld (w_sys w) (w_trace w ++ [Failed (FileOpen path ModeAPlus) (IOError path)])
            (w_self w))
    else (Returns tt,
          mkWorld
            (with_files (w_sys w)
               (<[path := default [] (sys_files (w_sys w) !! path) ++ [line]]>
                  (sys_files (w_sys w))))
            (w_trace w ++ [Called (FileOpen path ModeAPlus); Called (FilePrint path ModeAPlus line)])
            (w_self w)).
Proof.
  intros path line. unfold record_stats. exec. fold path line.
  destruct (decide _) as [? | Hden]; simpl; [done |].
  destruct (sys_files (w_sys w) !! path) eqn:Hf; simpl.
  - rewrite Hf, <- app_assoc. done.
  - rewrite lookup_insert_eq, <- app_assoc. simpl. unfold with_files. simpl.
    by rewrite insert_insert_eq.
Qed.
End RecordStats.

Section EvaluatorRun.
Context `{Collaborators}.
Import Evaluator.

Lemma Evaluator_evaluation_run fuel t (w : World Evaluator.t) :
  let self := w_self w in
  let path := os_path_join (outdir self) "scores.txt" in
  let dirname := os_path_join (outdir self) (str_int t) in
  evaluate_and_update_max_score fuel t w =
    match eval_performance fuel (n_runs self) (max_episode_len self) w with
    | (Returns (mean, median, stdev), w1) =>
        let s := w_sys w1 in
        let now := sys_clock s (sys_ticks s) in
        let s1 := with_ticks s (S (sys_ticks s)) in
        let tr1 := w_trace w1 ++ [Called TimeTime] in
        match get_statistics (sys_agent s) with
        | Err e => (Raises e, mkWorld s1 (tr1 ++ [Failed AgentGetStatistics e]) self)
        | Ok stats =>
            let values :=
              [PyInt t; PyFloat (F64.sub now (start_time self)); PyFloat mean;
               PyFloat median; PyFloat stdev] ++ map snd stats in
            let line := join_tab (map str values) in
            let tr2 := tr1 ++ [Called AgentGetStatistics] in
            if decide (path ∈ sys_denied s)
            then (Raises (IOError path),
                  mkWorld s1 (tr2 ++ [Failed (FileOpen path ModeAPlus) (IOError path)]) self)
            else
              let s2 :=
                with_files s1 (<[path := default [] (sys_files s !! path) ++ [line]]>
                                 (sys_files s)) in
              let tr3 :=
                tr2 ++ [Called (FileOpen path ModeAPlus); Called (FilePrint path ModeAPlus line)] in
              if float_gt mean (max_score self)
              then
                let tr4 :=
                  tr3 ++ [Called (LoggerInfo (LogBestScore (number_value (max_score self))
                                                mean))] in
                match save dirname (sys_agent s) with
                | Ok _ =>
                    (Returns mean,
                     mkWorld (with_saved s2 (<[dirname := sys_agent s]> (sys_saved s)))
                       (tr4 ++ [Called (AgentSave dirname); Called (LoggerInfo (LogSaved dirname))])
                       (with_max_score self (PythonFloat mean)))
                | Err e => (Raises e, mkWorld s2 (tr4 ++ [Failed (AgentSave dirname) e]) self)
                end
              else (Returns mean, mkWorld s2 tr3 self)
        end
    | (Raises e, w1) => (Raises e, w1)
    | (OutOfFuel, w1) => (OutOfFuel, w1)
    end.
Proof.
  intros self path dirname.
  unfold evaluate_and_update_max_score.
  unfold mbind at 1. unfold M_bind, bind at 1. unfold get_self at 1. fold self.
  unfold mbind at 1. unfold bind at 1.
  destruct (eval_performance_frame fuel (n_runs self) (max_episode_len self) w) as [Hframe _].
  destruct (eval_performance _ _ _ w) as [[[[m md] sd] | e |] w1]; try done.
  simpl in Hframe. unfold episode_frame in Hframe.
  injection Hframe as Hself Hfiles Hsaved Hdenied Hclock Hticks.
  unfold mbind. unfold bind at 1. unfold time_time, call, perform at 1. simpl.
  unfold bind at 1. unfold get_self at 1. simpl.
  unfold bind at 1. unfold agent_get_statistics, call, perform at 1, sys_get_statistics. simpl.
  destruct (get_statistics (sys_agent (w_sys w1))) as [stats |]; simpl; [| by rewrite Hself].
  unfold bind at 1. rewrite record_stats_run. simpl. rewrite Hself. fold self path.
  destruct (decide _) as [? | Hden]; simpl; [by rewrite <- !app_assoc |].
  exec. fold self. rewrite append_empty_r. fold dirname.
  destruct (float_gt m (max_score self)); simpl; [| by rewrite <- !app_assoc].
  destruct (save dirname _); simpl; by rewrite <- !app_assoc.
Qed.
End EvaluatorRun.

Section AsyncEvaluatorRun.
Context `{Collaborators}.
Import AsyncEvaluator.

Lemma AsyncEvaluator_evaluation_run fuel t (w : World AsyncEvaluator.t) :
  let self := w_self w in
  let path := os_path_join (outdir self) "scores.txt" in
  let dirname := os_path_join (outdir self) (str_int t) in
  evaluate_and_update_max_score fuel t w =
    match eval_performance fuel (n_runs self) (max_episode_len self) w with
    | (Returns (mean, median, stdev), w1) =>
        let s := w_sys w1 in
        let now := sys_clock s (sys_ticks s) in
        let s1 := with_ticks s (S (sys_ticks s)) in
        let tr1 := w_trace w1 ++ [Called TimeTime] in
        match get_statistics (sys_agent s) with
        | Err e => (Raises e, mkWorld s1 (tr1 ++ [Failed AgentGetStatistics e]) self)
        | Ok stats =>
            let values :=
              [PyInt t; PyFloat (F64.sub now (start_time self)); PyFloat mean;
               PyFloat median; PyFloat stdev] ++ map snd stats in
            let line := join_tab (map str values) in
            let tr2 := tr1 ++ [Called AgentGetStatistics] in
            if decide (path ∈ sys_denied s)
            then (Raises (IOError path),
                  mkWorld s1 (tr2 ++ [Failed (FileOpen path ModeAPlus) (IOError path)]) self)
            else
              let s2 :=
                with_files s1 (<[path := default [] (sys_files s !! path) ++ [line]]>
                                 (sys_files s)) in
              let tr3 :=
                tr2 ++ [Called (FileOpen path ModeAPlus); Called (FilePrint path ModeAPlus line)] in
              if F64.gtb mean (_max_score self)
              then
                let tr4 := tr3 ++ [Called (LoggerInfo (LogBestScore (_max_score self) mean))] in
                match save dirname (sys_agent s) with
                | Ok _ =>
                    (Returns mean,
                     mkWorld (with_saved s2 (<[dirname := sys_agent s]> (sys_saved s)))
                       (tr4 ++ [Called (AgentSave dirname); Called (LoggerInfo (LogSaved dirname))])
                       (store_max_score self mean))
                | Err e => (Raises e, mkWorld s2 (tr4 ++ [Failed (AgentSave dirname) e]) self)
                end
              else (Returns mean, mkWorld s2 tr3 self)
        end
    | (Raises e, w1) => (Raises e, w1)
    | (OutOfFuel, w1) => (OutOfFuel, w1)
    end.
Proof.
  intros self path dirname.
  unfold evaluate_and_update_max_score.
  unfold mbind at 1. unfold M_bind, bind at 1. unfold get_self at 1. fold self.
  unfold mbind at 1. unfold bind at 1.
  destruct (eval_performance_frame fuel (n_runs self) (max_episode_len self) w) as [Hframe _].
  destruct (eval_performance _ _ _ w) as [[[[m md] sd] | e |] w1]; try done.
  simpl in Hframe. unfold episode_frame in Hframe.
  injection Hframe as Hself Hfiles Hsaved Hdenied Hclock Hticks.
  unfold mbind. unfold bind at 1. unfold time_time, call, perform at 1. simpl.
  unfold bind at 1. unfold get_self at 1. simpl.
  unfold bind at 1. unfold agent_get_statistics, call, perform at 1, sys_get_statistics. simpl.
  destruct (get_statistics (sys_agent (w_sys w1))) as [stats |]; simpl; [| by rewrite Hself].
  unfold bind at 1. rewrite record_stats_run. simpl. rewrite Hself. fold self path.
  destruct (decide _) as [? | Hden]; simpl; [by rewrite <- !app_assoc |].
  exec. fold self. rewrite append_empty_r. fold dirname.
  destruct (F64.gtb m (_max_score self)); simpl; [| by rewrite <- !app_assoc].
  destruct (save dirname _); simpl; by rewrite <- !app_assoc.
Qed.
End AsyncEvaluatorRun.

Section Appended.
Lemma appended_app path l1 l2 fs :
  appended path (l1 ++ l2) fs = appended path l2 (appended path l1 fs).
Proof. apply fold_left_app. Qed.

Lemma appended_lookup path lines fs l :
  fs !! path = Some l -> appended path lines fs !! path = Some (l ++ lines).
Proof.
  revert fs l. induction lines as [| line lines IH]; intros fs l Hl; simpl.
  - by rewrite app_nil_r.
  - rewrite (IH _ (l ++ [line])).
    + by rewrite <- app_assoc.
    + by rewrite lookup_insert_eq, Hl.
Qed.

Lemma appended_lookup_ne path lines fs p :
  p <> path -> appended path lines fs !! p = fs !! p.
Proof.
  intros Hp. revert fs. induction lines as [| line lines IH]; intros fs; simpl; [done |].
  rewrite IH. by rewrite lookup_insert_ne.
Qed.
End Appended.

Section EvaluatorEffects.
Context `{Collaborators}.
Import Evaluator.

(** What [evaluate_and_update_max_score] does to the files, the saved agents
    and the object, however it ends. *)
Lemma Evaluator_evaluation_effects fuel t (w : World Evaluator.t) :
  let self := w_self w in
  let path := os_path_join (outdir self) "scores.txt" in
  let dirname := os_path_join (outdir self) (str_int t) in
  let r := evaluate_and_update_max_score fuel t w in
  exists evs,
    w_trace r.2 = w_trace w ++ evs /\
    headers evs = [] /\
    (length (rows evs) <= 1)%nat /\
    sys_files (w_sys r.2) = appended path (rows evs) (sys_files (w_sys w)) /\
    ((saved_dirs evs = [] /\ sys_saved (w_sys r.2) = sys_saved (w_sys w) /\
      w_self r.2 = self) \/
     (saved_dirs evs = [dirname] /\
      sys_saved (w_sys r.2) = <[dirname := sys_agent (w_sys r.2)]> (sys_saved (w_sys w)) /\
      exists mean,
        r.1 = Returns mean /\ float_gt mean (max_score self) = true /\
        w_self r.2 = with_max_score self (PythonFloat mean))).
Proof.
  intros self path dirname r. subst r. rewrite Evaluator_evaluation_run.
  fold self path dirname.
  destruct (eval_performance_frame fuel (n_runs self) (max_episode_len self) w)
    as [Hframe (evs1 & E1 & F1)].
  destruct (episode_events_quiet _ F1) as (Q1 & Q2 & Q3).
  destruct (eval_performance _ _ _ w) as [[[[m md] sd] | e |] w1]; simpl in *;
    unfold episode_frame in Hframe;
    injection Hframe as Hself Hfiles Hsaved Hdenied Hclock Hticks;
    try (exists evs1; rewrite Q1, Q2, Q3; simpl; repeat split; auto; lia).
  destruct (get_statistics _) as [stats |]; simpl.
  2:{ eexists. split; [rewrite E1, <- !app_assoc; reflexivity |].
      rewrite !headers_app, !rows_app, !saved_dirs_app, Q1, Q2, Q3. simpl.
      repeat split; auto. }
  destruct (decide _) as [? | Hden]; simpl.
  { eexists. split; [rewrite E1, <- !app_assoc; reflexivity |].
    rewrite !headers_app, !rows_app, !saved_dirs_app, Q1, Q2, Q3. simpl.
    repeat split; auto. }
  destruct (float_gt m (max_score self)) eqn:Hbest; simpl.
  2:{ eexists. split; [rewrite E1, <- !app_assoc; reflexivity |].
      rewrite !headers_app, !rows_app, !saved_dirs_app, Q1, Q2, Q3. simpl.
      rewrite Hfiles. repeat split; auto. }
  destruct (save dirname _); simpl.
  - eexists. split; [rewrite E1, <- !app_assoc; reflexivity |].
    rewrite !headers_app, !rows_app, !saved_dirs_app, Q1, Q2, Q3. simpl.
    rewrite Hfiles, Hsaved. repeat split; auto. right. repeat split; eauto.
  - eexists. split; [rewrite E1, <- !app_assoc; reflexivity |].
    rewrite !headers_app, !rows_app, !saved_dirs_app, Q1, Q2, Q3. simpl.
    rewrite Hfiles. repeat split; auto.
Qed.
End EvaluatorEffects.

Section AsyncEvaluatorEffects.
Context `{Collaborators}.
Import AsyncEvaluator.

(** What [evaluate_and_update_max_score] does to the files, the saved agents
    and the object, however it ends. *)
Lemma AsyncEvaluator_evaluation_effects fuel t (w : World AsyncEvaluator.t) :
  let self := w_self w in
  let path := os_path_join (outdir self) "scores.txt" in
  let dirname := os_path_join (outdir self) (str_int t) in
  let r := evaluate_and_update_max_score fuel t w in
  exists evs,
    w_trace r.2 = w_trace w ++ evs /\
    headers evs = [] /\
    (length (rows evs) <= 1)%nat /\
    sys_files (w_sys r.2) = appended path (rows evs) (sys_files (w_sys w)) /\
    ((saved_dirs evs = [] /\ sys_saved (w_sys r.2) = sys_saved (w_sys w) /\
      w_self r.2 = self) \/
     (saved_dirs evs = [dirname] /\
      sys_saved (w_sys r.2) = <[dirname := sys_agent (w_sys r.2)]> (sys_saved (w_sys w)) /\
      exists mean,
        r.1 = Returns mean /\ F64.gtb mean (_max_score self) = true /\
        w_self r.2 = store_max_score self mean)).
Proof.
  intros self path dirname r. subst r. rewrite AsyncEvaluator_evaluation_run.
  fold self path dirname.
  destruct (eval_performance_frame fuel (n_runs self) (max_episode_len self) w)
    as [Hframe (evs1 & E1 & F1)].
  destruct (episode_events_quiet _ F1) as (Q1 & Q2 & Q3).
  destruct (eval_performance _ _ _ w) as [[[[m md] sd] | e |] w1]; simpl in *;
    unfold episode_frame in Hframe;
    injection Hframe as Hself Hfiles Hsaved Hdenied Hclock Hticks;
    try (exists evs1; rewrite Q1, Q2, Q3; simpl; repeat split; auto; lia).
  destruct (get_statistics _) as [stats |]; simpl.
  2:{ eexists. split; [rewrite E1, <- !app_assoc; reflexivity |].
      rewrite !headers_app, !rows_app, !saved_dirs_app, Q1, Q2, Q3. simpl.
      repeat split; auto. }
  destruct (decide _) as [? | Hden]; simpl.
  { eexists. split; [rewrite E1, <- !app_assoc; reflexivity |].
    rewrite !headers_app, !rows_app, !saved_dirs_app, Q1, Q2, Q3. simpl.
    repeat split; auto. }
  destruct (F64.gtb m (_max_score self)) eqn:Hbest; simpl.
  2:{ eexists. split; [rewrite E1, <- !app_assoc; reflexivity |].
      rewrite !headers_app, !rows_app, !saved_dirs_app, Q1, Q2, Q3. simpl.
      rewrite Hfiles. repeat split; auto. }
  destruct (save dirname _); simpl.
  - eexists. split; [rewrite E1, <- !app_assoc; reflexivity |].
    rewrite !headers_app, !rows_app, !saved_dirs_app, Q1, Q2, Q3. simpl.
    rewrite Hfiles, Hsaved. repeat split; auto. right. repeat split; eauto.
  - eexists. split; [rewrite E1, <- !app_assoc; reflexivity |].
    rewrite !headers_app, !rows_app, !saved_dirs_app, Q1, Q2, Q3. simpl.
    rewrite Hfiles. repeat split; auto.
Qed.
End AsyncEvaluatorEffects.

Section EvaluatorCall.
Context `{Collaborators}.
Import Evaluator.

(** What one call of [evaluate_if_necessary] does, however it ends. *)
Lemma Evaluator_call_effects fuel t (w : World Evaluator.t) :
  let self := w_self w in
  let path := os_path_join (outdir self) "scores.txt" in
  let dirname := os_path_join (outdir self) (str_int t) in
  let r := evaluate_if_necessary fuel t w in
  let self' := w_self r.2 in
  outdir self' = outdir self /\
  eval_interval self' = eval_interval self /\
  exists evs,
    w_trace r.2 = w_trace w ++ evs /\
    headers evs = [] /\
    (length (rows evs) <= 1)%nat /\
    sys_files (w_sys r.2) = appended path (rows evs) (sys_files (w_sys w)) /\
    (rows evs <> [] -> prev_eval_t self + eval_interval self <= t) /\
    ((saved_dirs evs = [] /\ sys_saved (w_sys r.2) = sys_saved (w_sys w) /\
      (prev_eval_t self' = prev_eval_t self \/
       prev_eval_t self + eval_interval self <= t /\
       eval_interval self <> 0 /\
       prev_eval_t self' = t - t mod eval_interval self)) \/
     (saved_dirs evs = [dirname] /\
      sys_saved (w_sys r.2) = <[dirname := sys_agent (w_sys r.2)]> (sys_saved (w_sys w)) /\
      prev_eval_t self + eval_interval self <= t /\
      (eval_interval self <> 0 ->
       prev_eval_t self' = t - t mod eval_interval self))).
Proof.
  intros self path dirname r self'. subst r self'.
  destruct (Z_lt_le_dec t (prev_eval_t self + eval_interval self)) as [Hlt | Hdue].
  { rewrite (Evaluator_not_due _ _ _ Hlt). simpl. split; [done |]. split; [done |].
    exists []. rewrite app_nil_r. simpl. repeat split; auto; done. }
  rewrite (Evaluator_due _ _ _ Hdue).
  destruct (Evaluator_evaluation_effects fuel t w)
    as (evs & E & Hh & Hr & Hf & Hs).
  fold self path dirname in E, Hh, Hr, Hf, Hs.
  destruct (evaluate_and_update_max_score fuel t w) as [[score | e |] w1]; simpl in *.
  - assert (Hattr : outdir (w_self w1) = outdir self /\
                    eval_interval (w_self w1) = eval_interval self /\
                    prev_eval_t (w_self w1) = prev_eval_t self).
    { destruct Hs as [(_ & _ & ->) | (_ & _ & mean & _ & _ & ->)]; done. }
    destruct Hattr as (Ho & Hi & Hp). rewrite Hi.
    destruct (Z.eqb_spec (eval_interval self) 0) as [Hz | Hnz]; simpl.
    + split; [done |]. split; [done |].
      eexists. split; [rewrite E, <- app_assoc; reflexivity |].
      rewrite headers_app, rows_app, saved_dirs_app, Hh, !app_nil_r. simpl.
      repeat split; auto.
      destruct Hs as [(Hd & Hsv & _) | (Hd & Hsv & _)]; [left | right]; repeat split; auto; done.
    + split; [done |]. split; [done |].
      eexists. split; [rewrite E, <- app_assoc; reflexivity |].
      rewrite headers_app, rows_app, saved_dirs_app, Hh, !app_nil_r. simpl.
      repeat split; auto.
      destruct Hs as [(Hd & Hsv & _) | (Hd & Hsv & _)]; [left | right]; repeat split; auto.
  - destruct Hs as [(Hd & Hsv & Hself) | (_ & _ & mean & Hm & _)]; [| done].
    rewrite Hself. split; [done |]. split; [done |].
    exists evs. repeat split; auto.
  - destruct Hs as [(Hd & Hsv & Hself) | (_ & _ & mean & Hm & _)]; [| done].
    rewrite Hself. split; [done |]. split; [done |].
    exists evs. repeat split; auto.
Qed.
End EvaluatorCall.

Section AsyncEvaluatorHeaderRun.
Context `{Collaborators}.
Import AsyncEvaluator.

Lemma AsyncEvaluator_ensure_header_run (w : World AsyncEvaluator.t) :
  let self := w_self w in
  let s := w_sys w in
  let path := os_path_join (outdir self) "scores.txt" in
  ensure_header w =
    if wrote_header self =? 0
    then
      if decide (path ∈ sys_denied s)
      then (Raises (IOError path),
            mkWorld s (w_trace w ++ [Failed (FileOpen path ModeW) (IOError path)]) self)
      else
        match get_statistics (sys_agent s) with
        | Ok stats =>
            let h := join_tab (["steps"; "elapsed"; "mean"; "median"; "stdev"]
                                 ++ map fst stats) in
            (Returns tt,
             mkWorld (with_files s (<[path := [h]]> (sys_files s)))
               (w_trace w ++ [Called (FileOpen path ModeW); Called AgentGetStatistics;
                              Called (FilePrint path ModeW h)])
               (store_wrote_header self 1))
        | Err e =>
            (Raises e,
             mkWorld (with_files s (<[path := []]> (sys_files s)))
               (w_trace w ++ [Called (FileOpen path ModeW); Failed AgentGetStatistics e])
               self)
        end
    else (Returns tt, w).
Proof.
  intros self s path. unfold ensure_header, write_header. exec. fold self s path.
  destruct (wrote_header self =? 0); simpl; [| by destruct w].
  destruct (decide _) as [? | Hden]; simpl; [done |].
  destruct (get_statistics _) as [stats |]; simpl.
  - rewrite lookup_insert_eq, <- !app_assoc. simpl. unfold with_files. simpl.
    by rewrite insert_insert_eq.
  - by rewrite <- !app_assoc.
Qed.
End AsyncEvaluatorHeaderRun.

Section AsyncCall.
Context `{Collaborators}.
Import AsyncEvaluator.

(** What one call of [evaluate_if_necessary] does, however it ends. *)
Lemma AsyncEvaluator_call_effects fuel t (w : World AsyncEvaluator.t) :
  let self := w_self w in
  let path := os_path_join (outdir self) "scores.txt" in
  let next := prev_eval_t self + eval_interval self in
  let r := evaluate_if_necessary fuel t w in
  let self' := w_self r.2 in
  outdir self' = outdir self /\
  eval_interval self' = eval_interval self /\
  prev_eval_t self' = (if decide (next <= t) then C_long.stored next else prev_eval_t self) /\
  exists evs,
    w_trace r.2 = w_trace w ++ evs /\
    (length (rows evs) <= 1)%nat /\
    (rows evs <> [] -> next <= t) /\
    ((wrote_header self <> 0 /\ wrote_header self' = wrote_header self /\
      headers evs = [] /\
      sys_files (w_sys r.2) = appended path (rows evs) (sys_files (w_sys w))) \/
     (wrote_header self = 0 /\ wrote_header self' = 0 /\
      headers evs = [] /\ rows evs = []) \/
     (wrote_header self = 0 /\ wrote_header self' = 1 /\
      exists stats,
        headers evs = [header_line stats] /\
        sys_files (w_sys r.2) !! path = Some (header_line stats :: rows evs))).
Proof.
  intros self path next r self'. subst r self'.
  destruct (decide (next <= t)) as [Hdue | Hlt].
  2:{ rewrite AsyncEvaluator_not_due by (fold self next; lia). simpl.
      split; [done |]. split; [done |]. split; [done |].
      exists []. rewrite app_nil_r. simpl. split; [done |]. split; [lia |]. split; [done |].
      destruct (Z.eq_dec (wrote_header self) 0) as [Hw | Hw]; [right; left | left]; done. }
  rewrite (AsyncEvaluator_due _ _ _ Hdue). fold self next.
  set (claimed := bound (store_prev_eval_t self next) w).
  unfold mbind, M_bind, bind, mret, M_ret, ret.
  rewrite AsyncEvaluator_ensure_header_run. simpl. fold path.
  destruct (Z.eqb_spec (wrote_header self) 0) as [Hw | Hw]; simpl.
  - destruct (decide _) as [? | Hden]; simpl.
    { split; [done |]. split; [done |]. split; [done |].
      eexists. split; [reflexivity |]. simpl. split; [lia |]. split; [done |].
      right. left. done. }
    destruct (get_statistics _) as [stats |]; simpl.
    2:{ split; [done |]. split; [done |]. split; [done |].
        eexists. split; [reflexivity |]. simpl. split; [lia |]. split; [done |].
        right. left. done. }
    match goal with |- context [evaluate_and_update_max_score fuel t ?w0] =>
      set (wh := w0) end.
    destruct (AsyncEvaluator_evaluation_effects fuel t wh)
      as (evs & E & Hh & Hr & Hf & Hs).
    simpl in E, Hf, Hs. fold path in Hf, Hs.
    assert (Hattr : outdir (w_self (evaluate_and_update_max_score fuel t wh).2)
                    = outdir self /\
                    eval_interval (w_self (evaluate_and_update_max_score fuel t wh).2)
                    = eval_interval self /\
                    prev_eval_t (w_self (evaluate_and_update_max_score fuel t wh).2)
                    = C_long.stored next /\
                    wrote_header (w_self (evaluate_and_update_max_score fuel t wh).2) = 1).
    { destruct Hs as [(_ & _ & ->) | (_ & _ & mean & _ & _ & ->)]; done. }
    destruct Hattr as (Ho & Hi & Hp & Hwh).
    assert (Hfile : sys_files (w_sys (evaluate_and_update_max_score fuel t wh).2) !! path
                    = Some (header_line stats :: rows evs)).
    { rewrite Hf. rewrite (appended_lookup _ _ _ [header_line stats]); [done |].
      by rewrite lookup_insert_eq. }
    destruct (evaluate_and_update_max_score fuel t wh) as [[s | e |] w1]; simpl in *;
      (split; [done |]); (split; [done |]); (split; [done |]);
      eexists (_ ++ evs); (split; [by rewrite E, <- app_assoc |]);
      rewrite !rows_app, !headers_app, Hh; simpl;
      (split; [done |]); (split; [done |]);
      right; right; (split; [done |]); (split; [done |]); by exists stats.
  - destruct (AsyncEvaluator_evaluation_effects fuel t claimed)
      as (evs & E & Hh & Hr & Hf & Hs).
    simpl in E, Hf, Hs. fold path in Hf, Hs.
    assert (Hattr : outdir (w_self (evaluate_and_update_max_score fuel t claimed).2)
                    = outdir self /\
                    eval_interval (w_self (evaluate_and_update_max_score fuel t claimed).2)
                    = eval_interval self /\
                    prev_eval_t (w_self (evaluate_and_update_max_score fuel t claimed).2)
                    = C_long.stored next /\
                    wrote_header (w_self (evaluate_and_update_max_score fuel t claimed).2)
                    = wrote_header self).
    { destruct Hs as [(_ & _ & ->) | (_ & _ & mean & _ & _ & ->)]; done. }
    destruct Hattr as (Ho & Hi & Hp & Hwh).
    destruct (evaluate_and_update_max_score fuel t claimed) as [[s | e |] w1]; simpl in *;
      (split; [done |]); (split; [done |]); (split; [done |]);
      exists evs; (split; [done |]); (split; [done |]); (split; [done |]);
      left; done.
Qed.
End AsyncCall.

Section BlockEffects.
Context `{Collaborators}.
Import AsyncEvaluator.

(** What one block of a worker does, by the place the worker stands at. *)
Lemma block_effects fuel t (wk : worker) (w : World AsyncEvaluator.t) :
  let self := w_self w in
  let path := os_path_join (outdir self) "scores.txt" in
  let next := prev_eval_t self + eval_interval self in
  let r := block fuel t wk w in
  let self' := w_self r.2 in
  outdir self' = outdir self /\
  eval_interval self' = eval_interval self /\
  exists evs,
    w_trace r.2 = w_trace w ++ evs /\
    match wk_at wk with
    | Outside =>
        evs = [] /\ sys_files (w_sys r.2) = sys_files (w_sys w) /\
        wrote_header self' = wrote_header self /\
        ((t < next /\ prev_eval_t self' = prev_eval_t self /\ wk_at r.1 = Outside) \/
         (next <= t /\ prev_eval_t self' = C_long.stored next /\ wk_at r.1 = Claimed t))
    | Claimed t0 =>
        prev_eval_t self' = prev_eval_t self /\ rows evs = [] /\
        ((wrote_header self <> 0 /\ evs = [] /\
          sys_files (w_sys r.2) = sys_files (w_sys w) /\
          wrote_header self' = wrote_header self /\ wk_at r.1 = HeaderChecked t0) \/
         (wrote_header self = 0 /\ wrote_header self' = 1 /\
          wk_at r.1 = HeaderChecked t0 /\
          exists stats,
            headers evs = [header_line stats] /\
            sys_files (w_sys r.2) = <[path := [header_line stats]]> (sys_files (w_sys w))) \/
         (wrote_header self = 0 /\ wrote_header self' = 0 /\ headers evs = [] /\
          wk_at r.1 = Outside))
    | HeaderChecked t0 =>
        prev_eval_t self' = prev_eval_t self /\
        wrote_header self' = wrote_header self /\
        headers evs = [] /\ (length (rows evs) <= 1)%nat /\
        sys_files (w_sys r.2) = appended path (rows evs) (sys_files (w_sys w)) /\
        wk_at r.1 = Outside
    end.
Proof.
  intros self path next r self'. subst r self'. unfold block.
  destruct (wk_at wk) as [| t0 | t0]; simpl.
  - destruct (Z_lt_le_dec t next) as [Hlt | Hdue].
    + rewrite (AsyncEvaluator_claim_not_due t (load wk w)) by done. simpl.
      split; [done |]. split; [done |]. exists []. rewrite app_nil_r.
      repeat split; auto.
    + rewrite (AsyncEvaluator_claim_due t (load wk w)) by done. simpl.
      split; [done |]. split; [done |]. exists []. rewrite app_nil_r.
      repeat split; auto.
  - rewrite AsyncEvaluator_ensure_header_run. simpl. fold self path.
    destruct (Z.eqb_spec (wrote_header self) 0) as [Hw | Hw]; simpl.
    2:{ split; [done |]. split; [done |]. exists []. rewrite app_nil_r.
        repeat split; auto. left. repeat split; auto. }
    destruct (decide _) as [? | Hden]; simpl.
    { split; [done |]. split; [done |]. eexists. split; [reflexivity |].
      repeat split; auto. right. right. repeat split; auto. }
    destruct (get_statistics _) as [stats |]; simpl.
    + split; [done |]. split; [done |]. eexists. split; [reflexivity |].
      repeat split; auto. right. left. repeat split; auto. exists stats. split; done.
    + split; [done |]. split; [done |]. eexists. split; [reflexivity |].
      repeat split; auto. right. right. repeat split; auto.
  - destruct (AsyncEvaluator_evaluation_effects fuel t0 (load wk w))
      as (evs & E & Hh & Hr & Hf & Hs).
    simpl in E, Hf, Hs. fold self path in Hf, Hs.
    assert (Hattr : outdir (w_self (evaluate_and_update_max_score fuel t0 (load wk w)).2)
                    = outdir self /\
                    eval_interval (w_self (evaluate_and_update_max_score fuel t0 (load wk w)).2)
                    = eval_interval self /\
                    prev_eval_t (w_self (evaluate_and_update_max_score fuel t0 (load wk w)).2)
                    = prev_eval_t self /\
                    wrote_header (w_self (evaluate_and_update_max_score fuel t0 (load wk w)).2)
                    = wrote_header self).
    { destruct Hs as [(_ & _ & ->) | (_ & _ & mean & _ & _ & ->)]; done. }
    destruct Hattr as (Ho & Hi & Hp & Hwh).
    split; [done |]. split; [done |]. exists evs. repeat split; auto.
Qed.
End BlockEffects.

Section Names.

Lemma str_int_inj (a b : Z) : str_int a = str_int b -> a = b.
Proof.
  unfold str_int. intros Hs.
  apply DecimalZ.to_int_inj.
  assert (Hn : forall n, NilZero.int_of_string (NilZero.string_of_int (Z.to_int n))
                         = Some (Z.to_int n)).
  { intros n. apply NilZero.isi; destruct n; simpl; try discriminate;
      intros [= Hp]; by apply DecimalPos.Unsigned.to_uint_nonnil in Hp. }
  pose proof (Hn a) as Ha. rewrite Hs, Hn in Ha. by injection Ha.
Qed.

Lemma prefix_slash_cons (c : ascii) (x y : string) :
  String.prefix "/" (String c x) = String.prefix "/" (String c y).
Proof.
  cbn [String.prefix]. destruct (ascii_dec "/" c); [| done]. by destruct x, y.
Qed.

Lemma string_of_uint_digit (d : Decimal.uint) :
  String.prefix "/" (NilZero.string_of_uint d) = false /\
  NilZero.string_of_uint d <> "".
Proof. destruct d; simpl; split; done. Qed.

(** [str(t)] is never empty and starts with a digit or a minus sign. *)
Lemma str_int_no_slash (t : Z) (s : string) :
  String.prefix "/" (str_int t +:+ s) = false.
Proof.
  unfold str_int, NilZero.string_of_int.
  destruct (Z.to_int t) as [d | d].
  - destruct (string_of_uint_digit d) as [Hp Hne].
    destruct (NilZero.string_of_uint d) as [| c u]; [done |].
    change (String c u +:+ s) with (String c (u +:+ s)).
    by rewrite (prefix_slash_cons c _ u).
  - done.
Qed.

Lemma append_length (a b : string) :
  String.length (a +:+ b) = (String.length a + String.length b)%nat.
Proof.
  induction a as [| c a IH]; [done |].
  change (String c a +:+ b) with (String c (a +:+ b)). simpl. by rewrite IH.
Qed.

Lemma append_inj_r (a a' b : string) : a +:+ b = a' +:+ b -> a = a'.
Proof.
  revert a'. induction a as [| c a IH]; intros [| c' a'] Hab.
  - done.
  - apply (f_equal String.length) in Hab.
    change (String c' a' +:+ b) with (String c' (a' +:+ b)) in Hab.
    change ("" +:+ b) with b in Hab.
    simpl in Hab. rewrite append_length in Hab. lia.
  - apply (f_equal String.length) in Hab.
    change (String c a +:+ b) with (String c (a +:+ b)) in Hab.
    change ("" +:+ b) with b in Hab.
    simpl in Hab. rewrite append_length in Hab. lia.
  - change (String c (a +:+ b) = String c' (a' +:+ b)) in Hab.
    injection Hab as -> Hab. f_equal. by apply IH.
Qed.

(** [os.path.join(a, .)] keeps relative names apart. *)
Lemma os_path_join_inj (a b b' : string) :
  String.prefix "/" b = false -> String.prefix "/" b' = false ->
  os_path_join a b = os_path_join a b' -> b = b'.
Proof.
  unfold os_path_join. intros -> ->.
  destruct (String.eqb a ""); [done |].
  destruct (String.eqb _ "/"); intros Hj.
  - by apply String.app_inj in Hj.
  - apply String.app_inj in Hj. by apply String.app_inj in Hj.
Qed.

(** The directory [save_agent] writes to determines the step count, for a
    given [outdir] and [suffix]. *)
Lemma save_agent_dirname_inj (outdir suffix : string) (t t' : Z) :
  os_path_join outdir (str_int t +:+ suffix) = os_path_join outdir (str_int t' +:+ suffix) ->
  t = t'.
Proof.
  intros Hj. apply os_path_join_inj in Hj; try apply str_int_no_slash.
  apply append_inj_r in Hj. by apply str_int_inj.
Qed.
End Names.

(** ** The module-level functions *)

(** X1.  [record_stats(outdir, values)] appends exactly one line to
    [outdir/scores.txt], the values rendered by [str] and joined by tabs: the
    file is created when it is missing and what it held is kept (it is never
    truncated); no other file, no saved agent and nothing of the caller's
    object changes.  When [open] refuses the file the call raises that error
    and no file has changed. *)
Theorem record_stats_appends_one_line `{Collaborators} {Self : Type}
    (outdir : string) (values : list pyvalue) (w : World Self) :
  let path := os_path_join outdir "scores.txt" in
  let line := join_tab (map str values) in
  let r := record_stats outdir values w in
  (path ∉ sys_denied (w_sys w) ->
   r.1 = Returns tt /\
   sys_files (w_sys r.2) !! path =
     Some (default [] (sys_files (w_sys w) !! path) ++ [line]) /\
   rows (drop (length (w_trace w)) (w_trace r.2)) = [line]) /\
  (path ∈ sys_denied (w_sys w) ->
   r.1 = Raises (IOError path) /\
   sys_files (w_sys r.2) = sys_files (w_sys w)) /\
  (forall p, p <> path -> sys_files (w_sys r.2) !! p = sys_files (w_sys w) !! p) /\
  sys_saved (w_sys r.2) = sys_saved (w_sys w) /\
  w_self r.2 = w_self w.
Proof.
  intros path line r. subst r. rewrite record_stats_run. fold path line.
  destruct (decide (path ∈ sys_denied (w_sys w))) as [Hden | Hden]; simpl.
  - repeat split; try done.
  - repeat split; try done.
    + by rewrite lookup_insert_eq.
    + by rewrite drop_app_length.
    + intros p Hp. by rewrite lookup_insert_ne.
Qed.

(** X1 on scripted collaborators: on a file that holds a header, and on a file that [open]
    refuses. *)
Lemma record_stats_appends_one_line_witness :
  let w0 := Scripted.world [] in
  let w := mkWorld (with_files (w_sys w0) {["out/scores.txt" := ["header"]]}) [] tt in
  let wd := mkWorld (mkSys (sys_env (w_sys w0)) O None ∅ {["out/scores.txt"]} ∅
                       (sys_clock (w_sys w0)) O) [] tt in
  let r := @record_stats Scripted.collaborators unit "out" [PyInt 100; PyStr "x"] w in
  let rd := @record_stats Scripted.collaborators unit "out" [PyInt 100; PyStr "x"] wd in
  (("out/scores.txt" ∉ sys_denied (w_sys w)) /\ ("out/scores.txt" ∈ sys_denied (w_sys wd))) /\
  r.1 = Returns tt /\
  sys_files (w_sys r.2) !! "out/scores.txt" = Some ["header"; "100" +:+ tab +:+ "x"] /\
  rd.1 = Raises (IOError "out/scores.txt") /\
  sys_files (w_sys rd.2) = ∅.
Proof.
  intros w0 w wd r rd.
  assert (Hok : "out/scores.txt" ∉ sys_denied (w_sys w)) by (vm_compute; set_solver).
  assert (Hden : "out/scores.txt" ∈ sys_denied (w_sys wd)) by (vm_compute; set_solver).
  split; [split; assumption |].
  destruct (@record_stats_appends_one_line Scripted.collaborators unit "out"
              [PyInt 100; PyStr "x"] w) as (Hret & _).
  destruct (@record_stats_appends_one_line Scripted.collaborators unit "out"
              [PyInt 100; PyStr "x"] wd) as (_ & Hraise & _).
  destruct (Hret Hok) as (R & F & _). destruct (Hraise Hden) as (Rd & Fd).
  split; [exact R |]. split; [exact F |]. split; [exact Rd | exact Fd].
Defined.

(** X2.  [save_agent(agent, t, outdir, logger, suffix)] saves the agent as it
    is into [outdir/<t><suffix>], once; when [agent.save] raises, the call
    raises the same error and nothing is recorded as saved.  For one [outdir]
    and one [suffix], different step counts give different directories, so a
    save at [t] leaves the directory of every other step count as it
    was. *)
Theorem save_agent_keeps_other_steps `{Collaborators} {Self : Type}
    (t t' : Z) (outdir suffix : string) (w : World Self) :
  let dirname := os_path_join outdir (str_int t +:+ suffix) in
  let dirname' := os_path_join outdir (str_int t' +:+ suffix) in
  let r := save_agent t outdir suffix w in
  (r.1 = Returns tt ->
   sys_saved (w_sys r.2) !! dirname = Some (sys_agent (w_sys w)) /\
   saved_dirs (drop (length (w_trace w)) (w_trace r.2)) = [dirname]) /\
  (forall e, r.1 = Raises e ->
             save dirname (sys_agent (w_sys w)) = Err e /\
             sys_saved (w_sys r.2) = sys_saved (w_sys w)) /\
  (t' <> t ->
   dirname' <> dirname /\
   sys_saved (w_sys r.2) !! dirname' = sys_saved (w_sys w) !! dirname').
Proof.
  intros dirname dirname' r. subst r. unfold save_agent. exec. fold dirname.
  assert (Hne : t' <> t -> dirname' <> dirname).
  { intros Ht Hj. apply Ht. by apply (save_agent_dirname_inj outdir suffix). }
  destruct (save dirname (sys_agent (w_sys w))) as [[] | e]; simpl.
  - split; [intros _ | split; [done |]].
    + split; [by rewrite lookup_insert_eq |].
      by rewrite <- app_assoc, drop_app_length.
    + intros Ht. split; [by apply Hne |]. rewrite lookup_insert_ne; [done |].
      intros Hj. by apply (Hne Ht).
  - split; [done |]. split.
    + by intros e' [= ->].
    + intros Ht. split; [by apply Hne | done].
Qed.

(** X2 on scripted collaborators: two saves, at steps 100 and 200, with the suffix [_best]. *)
Lemma save_agent_keeps_other_steps_witness :
  let w0 := Scripted.world [] in
  let r1 := @save_agent Scripted.collaborators unit 100 "out" "_best" w0 in
  let r2 := @save_agent Scripted.collaborators unit 200 "out" "_best" r1.2 in
  (r1.1 = Returns tt /\ r2.1 = Returns tt /\ 100 <> 200) /\
  sys_saved (w_sys r1.2) !! "out/100_best" = Some O /\
  sys_saved (w_sys r2.2) !! "out/100_best" = Some O /\
  sys_saved (w_sys r2.2) !! "out/200_best" = Some O.
Proof.
  intros w0 r1 r2.
  assert (H1 : r1.1 = Returns tt) by (vm_compute; reflexivity).
  assert (H2 : r2.1 = Returns tt) by (vm_compute; reflexivity).
  assert (Hne : 100 <> 200) by discriminate.
  split; [repeat split; assumption |].
  destruct (@save_agent_keeps_other_steps Scripted.collaborators unit 100 200 "out" "_best" w0)
    as (Hs1 & _).
  destruct (@save_agent_keeps_other_steps Scripted.collaborators unit 200 100 "out" "_best" r1.2)
    as (Hs2 & _ & Hk2).
  destruct (Hs1 H1) as [S1 _]. destruct (Hs2 H2) as [S2 _]. destruct (Hk2 Hne) as [_ K2].
  split; [exact S1 |]. split; [| exact S2].
  exact (eq_trans K2 S1).
Defined.

(** X3.  However it ends, [eval_performance] only talks to the environment,
    the agent, the explorer, [statistics] and the logger: it writes no file,
    saves no agent, does not read the clock and leaves the caller's object
    alone. *)
Theorem eval_performance_writes_nothing `{Collaborators} {Self : Type}
    (fuel : nat) (n_runs : Z) (max_episode_len : option Z) (w : World Self) :
  let r := eval_performance fuel n_runs max_episode_len w in
  sys_files (w_sys r.2) = sys_files (w_sys w) /\
  sys_saved (w_sys r.2) = sys_saved (w_sys w) /\
  sys_ticks (w_sys r.2) = sys_ticks (w_sys w) /\
  w_self r.2 = w_self w /\
  exists evs,
    w_trace r.2 = w_trace w ++ evs /\
    Forall episode_event evs /\
    saved_dirs evs = [] /\ headers evs = [] /\ rows evs = [].
Proof.
  intros r. subst r.
  destruct (eval_performance_frame fuel n_runs max_episode_len w) as [Hframe (evs & E & F)].
  unfold episode_frame in Hframe.
  injection Hframe as Hself Hfiles Hsaved Hdenied Hclock Hticks.
  repeat split; try done.
  exists evs. split; [done |]. split; [done |]. by apply episode_events_quiet.
Qed.

Section Protocol.
Context `{Collaborators} {Self : Type}.

Lemma test_episodes_app evs1 evs2 :
  test_episodes (evs1 ++ evs2) = test_episodes evs1 ++ test_episodes evs2.
Proof.
  induction evs1 as [| ev evs1 IH]; [done |].
  simpl. repeat case_match; by rewrite ?IH.
Qed.

Lemma episode_marks_app evs1 evs2 :
  episode_marks (evs1 ++ evs2) = episode_marks evs1 ++ episode_marks evs2.
Proof.
  induction evs1 as [| ev evs1 IH]; [done |].
  simpl. repeat case_match; by rewrite ?IH.
Qed.

Lemma loop_events_no_marks evs :
  Forall loop_event evs -> test_episodes evs = [] /\ episode_marks evs = [].
Proof.
  induction 1 as [| ev evs Hev _ [IH1 IH2]]; [done |].
  destruct ev as [[] | |[]]; try discriminate Hev; simpl; auto.
Qed.

Lemma run_episodes_protocol fuel cap runs scores0 (w w' : World Self) scores :
  run_episodes fuel cap runs scores0 w = (Returns scores, w') ->
  exists evs new,
    w_trace w' = w_trace w ++ evs /\
    scores = scores0 ++ new /\
    test_episodes evs = zip runs new /\
    episode_marks evs = concat (replicate (length runs) [EnvReset; AgentStopEpisode]).
Proof.
  revert scores0 w. induction runs as [| i runs IH]; intros scores0 w; simpl.
  - intros [= <- <-]. exists [], []. by rewrite !app_nil_r.
  - unfold mbind, M_bind, bind.
    destruct (run_episode fuel cap i w) as [[score | e |] w1] eqn:Hep; try done.
    destruct (run_episode_spec _ _ _ _ _ _ Hep) as (evs1 & E1 & Hloop & Hscore).
    destruct (loop_events_no_marks _ Hloop) as [Ht Hm].
    intros Hrest. destruct (IH _ _ Hrest) as (evs2 & new & E2 & -> & Ht2 & Hm2).
    eexists (_ ++ evs2), (score :: new). split; [by rewrite E2, E1, <- app_assoc |].
    split; [by rewrite <- app_assoc |].
    rewrite test_episodes_app, episode_marks_app. simpl.
    rewrite !test_episodes_app, !episode_marks_app, Ht, Hm, Ht2, Hm2. done.
Qed.
End Protocol.

(** X4.  When [eval_performance] returns, it has run [n_runs] episodes:
    [env.reset()] and [agent.stop_episode()] were called [n_runs] times each,
    strictly alternating and starting with a reset; it has logged one record
    per episode, with the episode numbers [0 .. n_runs - 1] in order, each
    with the score of that episode (the sum of its rewards); and the mean and
    the median it returns are those of exactly these scores. *)
Theorem eval_performance_episode_protocol `{Collaborators} {Self : Type}
    (fuel : nat) (n_runs : Z) (max_episode_len : option Z)
    (w w1 : World Self) (mean median stdev : float) :
  eval_performance fuel n_runs max_episode_len w = (Returns (mean, median, stdev), w1) ->
  exists evs scores,
    w_trace w1 = w_trace w ++ evs /\
    length scores = Z.to_nat n_runs /\
    scores = episode_scores evs /\
    test_episodes evs = zip (range n_runs) scores /\
    episode_marks evs = concat (replicate (Z.to_nat n_runs) [EnvReset; AgentStopEpisode]) /\
    statistics.mean scores = Ok mean /\
    statistics.median scores = Ok median.
Proof.
  unfold eval_performance, call, perform, pure.
  unfold mbind, M_bind, bind, mret, M_ret, ret.
  destruct (run_episodes fuel max_episode_len (range n_runs) [] w)
    as [[scores | e |] w0] eqn:Hrun; try done.
  destruct (run_episodes_protocol _ _ _ _ _ _ _ Hrun) as (evs & new & E & Hs & Ht & Hm).
  destruct (run_episodes_spec _ _ _ _ _ _ _ Hrun) as (evs' & new' & E' & Hs' & Hlen & Hfrom).
  rewrite E in E'. apply app_inv_head in E' as <-.
  simpl in Hs, Hs'. subst new new'.
  assert (Hn : length (range n_runs) = Z.to_nat n_runs)
    by (unfold range; by rewrite length_map, length_seq).
  rewrite Hn in Hm, Hlen. simpl.
  assert (Hfin : forall tail (w' : World Self),
             w_trace w' = w_trace w0 ++ tail ->
             (forall cur, scores_from cur tail = option_list cur) ->
             test_episodes tail = [] -> episode_marks tail = [] ->
             exists evs0,
               w_trace w' = w_trace w ++ evs0 /\
               length scores = Z.to_nat n_runs /\
               scores = episode_scores evs0 /\
               test_episodes evs0 = zip (range n_runs) scores /\
               episode_marks evs0
               = concat (replicate (Z.to_nat n_runs) [EnvReset; AgentStopEpisode])).
  { intros tail w' Etail Hq Htt Hmt. exists (evs ++ tail).
    split; [by rewrite Etail, E, app_assoc |]. split; [done |]. split.
    - unfold episode_scores. rewrite scores_from_quiet by done. by rewrite Hfrom.
    - by rewrite test_episodes_app, episode_marks_app, Ht, Hm, Htt, Hmt, !app_nil_r. }
  destruct (statistics.mean scores) as [m |] eqn:Hmean; simpl; [| done].
  destruct (statistics.median scores) as [md |] eqn:Hmed; simpl; [| done].
  destruct (n_runs >=? 2).
  - destruct (statistics.stdev scores) as [sd |]; simpl; [| done].
    intros [= <- <- <- <-].
    destruct (Hfin [Called StatisticsMean; Called StatisticsMedian; Called StatisticsStdev]
                (mkWorld (w_sys w0)
                   (((w_trace w0 ++ [Called StatisticsMean]) ++ [Called StatisticsMedian])
                      ++ [Called StatisticsStdev]) (w_self w0)))
      as (evs0 & E0 & H0); try done.
    { simpl. by rewrite <- !app_assoc. }
    exists evs0, scores. destruct H0 as (? & ? & ? & ?). done.
  - intros [= <- <- <- <-].
    destruct (Hfin [Called StatisticsMean; Called StatisticsMedian]
                (mkWorld (w_sys w0)
                   ((w_trace w0 ++ [Called StatisticsMean]) ++ [Called StatisticsMedian])
                   (w_self w0)))
      as (evs0 & E0 & H0); try done.
    { simpl. by rewrite <- !app_assoc. }
    exists evs0, scores. destruct H0 as (? & ? & ? & ?). done.
Qed.

(** X4 on scripted collaborators: three episodes with total rewards 1, 3 and 2. *)
Lemma eval_performance_episode_protocol_witness :
  let s := [F64.of_Z 1; F64.of_Z 3; F64.of_Z 2] in
  let w := Scripted.world (map Scripted.one_step s) in
  let r := @eval_performance Scripted.collaborators unit 5 3 None w in
  r = (Returns (F64.of_Z 2, F64.of_Z 2, F64.of_Z 1), r.2) /\
  exists evs scores,
    w_trace r.2 = w_trace w ++ evs /\
    test_episodes evs = zip [0; 1; 2] scores /\
    episode_marks evs = [EnvReset; AgentStopEpisode; EnvReset; AgentStopEpisode;
                         EnvReset; AgentStopEpisode].
Proof.
  intros s w r.
  assert (Hr : r = (Returns (F64.of_Z 2, F64.of_Z 2, F64.of_Z 1), r.2))
    by (vm_compute; reflexivity).
  split; [exact Hr |].
  destruct (@eval_performance_episode_protocol Scripted.collaborators unit 5 3 None w r.2
              _ _ _ Hr) as (evs & scores & E & _ & _ & Ht & Hm & _).
  exists evs, scores. split; [exact E |]. split; [exact Ht | exact Hm].
Defined.

Section Selection.
Context `{Collaborators} {Self : Type}.

Lemma select_times_app evs1 evs2 :
  select_times (evs1 ++ evs2) = select_times evs1 ++ select_times evs2.
Proof.
  induction evs1 as [| ev evs1 IH]; [done |].
  simpl. repeat case_match; by rewrite ?IH.
Qed.

Lemma acts_app evs1 evs2 : acts (evs1 ++ evs2) = (acts evs1 + acts evs2)%nat.
Proof.
  induction evs1 as [| ev evs1 IH]; [done |].
  simpl. repeat case_match; by rewrite ?IH.
Qed.

Lemma sys_select_action_explorer t (s s' : Sys) c :
  sys_select_action t s = Ok (c, s') -> is_Some (sys_explorer s').
Proof.
  unfold sys_select_action. destruct (sys_explorer s) as [x |]; [| done].
  destruct (select_action t x) as [[c' x'] |]; [| done].
  intros [= <- <-]. simpl. by eexists.
Qed.

Lemma sys_act_explorer obs (s s' : Sys) a :
  sys_act obs s = Ok (a, s') -> sys_explorer s' = sys_explorer s.
Proof.
  unfold sys_act. destruct (act obs (sys_agent s)) as [[a' ag] |]; [| done].
  by intros [= <- <-].
Qed.

(** One choice of an action: one call of the explorer when there is one,
    which may call [agent.act] once; one call of [agent.act] otherwise. *)
Lemma select_calls t obs (w : World Self) :
  let r := select t obs w in
  exists evs,
    w_trace r.2 = w_trace w ++ evs /\ steps_of evs = [] /\
    r.1 <> OutOfFuel /\
    match sys_explorer (w_sys w) with
    | None =>
        sys_explorer (w_sys r.2) = None /\ select_times evs = [] /\ acts evs = 1%nat
    | Some _ =>
        is_Some (sys_explorer (w_sys r.2)) /\ select_times evs = [t] /\
        (acts evs <= 1)%nat
    end.
Proof.
  unfold select, mbind, M_bind, bind, get_sys, explorer_select_action, agent_act,
    call, perform, mret, M_ret, ret; simpl.
  destruct (sys_explorer (w_sys w)) as [x |] eqn:Hx.
  - destruct (sys_select_action t (w_sys w)) as [[[a | post] s'] | e] eqn:Hsel; simpl.
    + eexists. split; [reflexivity |]. simpl. repeat split; eauto.
      by eapply sys_select_action_explorer.
    + apply sys_select_action_explorer in Hsel.
      destruct (sys_act obs s') as [[a s''] | e'] eqn:Hact; simpl;
        (eexists; split; [by rewrite <- app_assoc |]); simpl; repeat split; eauto.
      by rewrite (sys_act_explorer _ _ _ _ Hact).
    + eexists. split; [reflexivity |]. simpl. rewrite Hx. repeat split; eauto.
  - destruct (sys_act obs (w_sys w)) as [[a s''] | e] eqn:Hact; simpl;
      (eexists; split; [reflexivity |]); simpl; repeat split; eauto.
    by rewrite (sys_act_explorer _ _ _ _ Hact).
Qed.

Lemma env_step_explorer a (w : World Self) :
  sys_explorer (w_sys (env_step a w).2) = sys_explorer (w_sys w).
Proof.
  unfold env_step, perform, sys_step.
  by destruct (step a (sys_env (w_sys w))) as [[[[obs r] d] e] |].
Qed.

Lemma times_from_cons (t : Z) (n : nat) :
  t :: map (fun j => t + 1 + Z.of_nat j) (seq 0 n)
  = map (fun j => t + Z.of_nat j) (seq 0 (S n)).
Proof.
  simpl. rewrite Z.add_0_r. f_equal. rewrite <- seq_shift, map_map.
  apply map_ext. intros j. lia.
Qed.

Lemma episode_loop_calls fuel cap obs test_r t (w : World Self) :
  let r := episode_loop fuel cap obs false test_r t w in
  exists evs,
    w_trace r.2 = w_trace w ++ evs /\
    let n := match r.1 with
             | Raises _ => S (length (steps_of evs))
             | _ => length (steps_of evs)
             end in
    match sys_explorer (w_sys w) with
    | None => select_times evs = [] /\ acts evs = n
    | Some _ =>
        select_times evs = map (fun j => t + Z.of_nat j) (seq 0 n) /\ (acts evs <= n)%nat
    end.
Proof.
  revert obs test_r t w.
  induction fuel as [| fuel IH]; intros obs test_r t w; simpl;
    destruct (reached t cap) eqn:Hr; simpl;
    try (exists []; rewrite app_nil_r; split; [done |]; simpl;
         by destruct (sys_explorer (w_sys w))).
  unfold mbind, M_bind, bind.
  destruct (select_calls t obs w) as (evs1 & E1 & S1 & N1 & Hsel). simpl in *.
  destruct (select t obs w) as [[a | e |] w1]; simpl in *; [| | done].
  2:{ exists evs1. split; [done |]. rewrite S1. simpl.
      destruct (sys_explorer (w_sys w)); [| by destruct Hsel as (_ & ? & ?)].
      destruct Hsel as (_ & -> & ?). simpl. by rewrite Z.add_0_r. }
  pose proof (env_step_explorer a w1) as Hx.
  unfold env_step, perform in *.
  destruct (sys_step a (w_sys w1)) as [[[[obs' r] done'] s'] | e]; simpl in *.
  2:{ exists (evs1 ++ [Failed EnvStep e]). rewrite E1, <- app_assoc. split; [done |].
      rewrite steps_of_app, select_times_app, acts_app, S1. simpl.
      destruct (sys_explorer (w_sys w)).
      - destruct Hsel as (_ & -> & ?). simpl. rewrite Z.add_0_r. split; [done | lia].
      - destruct Hsel as (_ & -> & ->). simpl. split; [done | lia]. }
  destruct done'.
  - rewrite episode_loop_done. simpl.
    exists (evs1 ++ [Stepped r true]). rewrite E1, <- app_assoc. split; [done |].
    rewrite steps_of_app, select_times_app, acts_app, S1. simpl.
    destruct (sys_explorer (w_sys w)).
    + destruct Hsel as (_ & -> & ?). simpl. rewrite Z.add_0_r. split; [done | lia].
    + destruct Hsel as (_ & -> & ->). simpl. split; [done | lia].
  - match goal with |- context [episode_loop fuel cap obs' false ?x ?t' ?w'] =>
      destruct (IH obs' x t' w') as (evs2 & E2 & Hloop) end.
    simpl in E2, Hloop. rewrite Hx in Hloop.
    exists (evs1 ++ Stepped r false :: evs2).
    split; [by rewrite E2, E1, <- !app_assoc |].
    rewrite steps_of_app, select_times_app, acts_app, S1. simpl.
    destruct (sys_explorer (w_sys w)).
    + destruct Hsel as ([x' Hx'] & -> & Ha). rewrite Hx' in Hloop.
      destruct Hloop as [-> Hacts]. simpl.
      destruct (episode_loop fuel cap obs' false (F64.add test_r r) (t + 1) _).1;
        (split; [apply times_from_cons | lia]).
    + destruct Hsel as (Hx' & -> & ->). rewrite Hx' in Hloop.
      destruct Hloop as [-> ->]. simpl.
      by destruct (episode_loop fuel cap obs' false (F64.add test_r r) (t + 1) _).1.
Qed.
End Selection.

(** X5.  In the [while] loop of an episode as many actions are chosen as the
    environment is stepped, and one more when the loop ends by an exception.
    Without an explorer each choice is one call of [agent.act], and the
    explorer is never called.  With an explorer each choice is one call of
    [explorer.select_action(t, ...)], with [t = 0, 1, 2, ...] in order. *)
Theorem episode_loop_one_action_per_step `{Collaborators} {Self : Type}
    (fuel : nat) (max_episode_len : option Z) (obs : Obs) (w : World Self) :
  let r := episode_loop fuel max_episode_len obs false F64.zero 0 w in
  exists evs,
    w_trace r.2 = w_trace w ++ evs /\
    let n := match r.1 with
             | Raises _ => S (length (steps_of evs))
             | _ => length (steps_of evs)
             end in
    (sys_explorer (w_sys w) = None -> select_times evs = [] /\ acts evs = n) /\
    (is_Some (sys_explorer (w_sys w)) -> select_times evs = map Z.of_nat (seq 0 n)).
Proof.
  intros r. subst r.
  destruct (episode_loop_calls fuel max_episode_len obs F64.zero 0 w) as (evs & E & Hc).
  exists evs. split; [exact E |]. simpl in *.
  destruct (sys_explorer (w_sys w)) as [x |].
  - split; [done |]. intros _. exact (proj1 Hc).
  - split; [done |]. by intros [x Hx].
Qed.

(** X5 on scripted collaborators: an episode of three steps, without and with an explorer. *)
Lemma episode_loop_one_action_per_step_witness :
  let one := F64.of_Z 1 in
  let w0 := Scripted.world [[(one, false); (one, false); (one, true)]] in
  let w := (env_reset w0).2 in
  let wx := mkWorld (with_explorer (w_sys w) (Some tt)) (w_trace w) tt in
  let r := @episode_loop Scripted.collaborators unit 5 None tt false F64.zero 0 w in
  let rx := @episode_loop Scripted.collaborators unit 5 None tt false F64.zero 0 wx in
  (sys_explorer (w_sys w) = None /\ is_Some (sys_explorer (w_sys wx))) /\
  (r.1 = Returns (F64.of_Z 3) /\ rx.1 = Returns (F64.of_Z 3)) /\
  (exists evs, w_trace r.2 = w_trace w ++ evs /\
               select_times evs = [] /\ acts evs = length (steps_of evs)) /\
  (exists evs, w_trace rx.2 = w_trace wx ++ evs /\
               select_times evs = map Z.of_nat (seq 0 (length (steps_of evs)))).
Proof.
  intros one w0 w wx r rx.
  assert (Hn : sys_explorer (w_sys w) = None) by reflexivity.
  assert (Hx : is_Some (sys_explorer (w_sys wx))) by (by eexists).
  assert (Hr : r.1 = Returns (F64.of_Z 3)) by (vm_compute; reflexivity).
  assert (Hrx : rx.1 = Returns (F64.of_Z 3)) by (vm_compute; reflexivity).
  split; [split; assumption |]. split; [split; assumption |].
  split.
  - destruct (@episode_loop_one_action_per_step Scripted.collaborators unit 5 None tt w)
      as (evs & E & Hc).
    fold r in E, Hc. rewrite Hr in Hc. destruct Hc as [Hnone _].
    exists evs. split; [exact E | exact (Hnone Hn)].
  - destruct (@episode_loop_one_action_per_step Scripted.collaborators unit 5 None tt wx)
      as (evs & E & Hc).
    fold rx in E, Hc. rewrite Hrx in Hc. destruct Hc as [_ Hsome].
    exists evs. split; [exact E | exact (Hsome Hx)].
Defined.

Section Caps.
Context `{Collaborators} {Self : Type}.

(** A negative [max_episode_len] is never reached by [t], which counts up
    from [0]. *)
Lemma episode_loop_negative_cap fuel n obs (d : bool) test_r t (w : World Self) :
  n < 0 -> 0 <= t ->
  episode_loop fuel (Some n) obs d test_r t w = episode_loop fuel None obs d test_r t w.
Proof.
  intros Hn. revert obs d test_r t w.
  induction fuel as [| fuel IH]; intros obs d test_r t w Ht; simpl;
    destruct (Z.eqb_spec t n); try lia; destruct d; simpl; try done.
  unfold mbind, M_bind, bind.
  destruct (select t obs w) as [[a | e |] w1]; try done.
  destruct (env_step a w1) as [[[[obs' r] done'] | e |] w2]; try done.
  apply IH. lia.
Qed.

Lemma run_episodes_negative_cap fuel n runs scores (w : World Self) :
  n < 0 ->
  run_episodes fuel (Some n) runs scores w = run_episodes fuel None runs scores w.
Proof.
  intros Hn. revert scores w. induction runs as [| i runs IH]; intros scores w; [done |].
  simpl. unfold run_episode, mbind, M_bind, bind.
  destruct (env_reset w) as [[obs | e |] w1]; try done.
  rewrite episode_loop_negative_cap by lia.
  destruct (episode_loop fuel None obs false F64.zero 0 w1) as [[x | e |] w2]; try done.
  destruct (agent_stop_episode w2) as [[[] | e |] w3]; try done.
  destruct (logger_info (LogTestEpisode i x) w3) as [[[] | e |] w4]; try done.
  unfold mret, M_ret, ret. apply IH.
Qed.

(** With [max_episode_len = 0] the loop is left at once. *)
Lemma episode_loop_zero_cap fuel obs (w : World Self) :
  episode_loop fuel (Some 0) obs false F64.zero 0 w = (Returns F64.zero, w).
Proof. by destruct fuel. Qed.

Lemma run_episodes_zero_cap fuel runs scores0 (w : World Self) :
  let r := run_episodes fuel (Some 0) runs scores0 w in
  r.1 <> OutOfFuel /\
  (forall scores, r.1 = Returns scores ->
                  scores = scores0 ++ replicate (length runs) F64.zero) /\
  exists evs,
    w_trace r.2 = w_trace w ++ evs /\
    steps_of evs = [] /\ acts evs = 0%nat /\ select_times evs = [].
Proof.
  revert scores0 w. induction runs as [| i runs IH]; intros scores0 w; simpl.
  { split; [done |]. split.
    - intros scores [= <-]. by rewrite app_nil_r.
    - exists []. by rewrite app_nil_r. }
  unfold run_episode, mbind, M_bind, bind, env_reset, agent_stop_episode, logger_info,
    call, perform, pure, mret, M_ret, ret.
  destruct (sys_reset (w_sys w)) as [[obs s1] | e]; simpl.
  2:{ split; [done |]. split; [done |]. by eexists. }
  rewrite episode_loop_zero_cap. simpl.
  destruct (sys_stop_episode s1) as [[[] s2] | e]; simpl.
  2:{ split; [done |]. split; [done |]. eexists. by rewrite <- app_assoc. }
  match goal with |- context [run_episodes fuel (Some 0) runs ?s ?w0] =>
    destruct (IH s w0) as (Hfuel & Hscores & evs & E & Hs & Ha & Ht) end.
  simpl in E. split; [done |]. split.
  - intros scores Hr. rewrite (Hscores _ Hr), <- app_assoc. done.
  - eexists. split; [rewrite E, <- !app_assoc; reflexivity |].
    simpl. rewrite Hs, Ha, Ht. done.
Qed.
End Caps.

(** X6.  A negative [max_episode_len] is no cap at all: [t] counts up from
    [0] and never equals it, so [eval_performance] behaves exactly as with
    [max_episode_len = None]. *)
Theorem negative_max_episode_len_is_no_cap `{Collaborators} {Self : Type}
    (fuel : nat) (n_runs n : Z) (w : World Self) :
  n < 0 ->
  eval_performance fuel n_runs (Some n) w = eval_performance fuel n_runs None w.
Proof.
  intros Hn. unfold eval_performance, mbind, M_bind, bind.
  by rewrite run_episodes_negative_cap.
Qed.

(** X6 on scripted collaborators: [max_episode_len = -1]. *)
Lemma negative_max_episode_len_is_no_cap_witness :
  let w := Scripted.world [Scripted.one_step (F64.of_Z 5)] in
  -1 < 0 /\
  @eval_performance Scripted.collaborators unit 5 1 (Some (-1)) w
  = @eval_performance Scripted.collaborators unit 5 1 None w /\
  (@eval_performance Scripted.collaborators unit 5 1 (Some (-1)) w).1
  = Returns (F64.of_Z 5, F64.of_Z 5, F64.zero).
Proof.
  intros w.
  assert (Hn : -1 < 0) by reflexivity.
  split; [exact Hn |]. split.
  - exact (@negative_max_episode_len_is_no_cap Scripted.collaborators unit 5 1 (-1) w Hn).
  - vm_compute. reflexivity.
Defined.

(** X7.  With [max_episode_len = 0] the loop condition fails at once in every
    episode: [eval_performance] never steps the environment and asks for no
    action, it ends within any bound on the iterations, every score is [0.0],
    and the mean and the median it returns are those of [n_runs] zeros. *)
Theorem zero_max_episode_len_takes_no_step `{Collaborators} {Self : Type}
    (fuel : nat) (n_runs : Z) (w : World Self) :
  let r := eval_performance fuel n_runs (Some 0) w in
  let scores := replicate (Z.to_nat n_runs) F64.zero in
  r.1 <> OutOfFuel /\
  (exists evs,
      w_trace r.2 = w_trace w ++ evs /\
      steps_of evs = [] /\ acts evs = 0%nat /\ select_times evs = []) /\
  (forall mean median stdev,
      r.1 = Returns (mean, median, stdev) ->
      statistics.mean scores = Ok mean /\ statistics.median scores = Ok median).
Proof.
  intros r scores. subst r scores.
  destruct (run_episodes_zero_cap fuel (range n_runs) [] w)
    as (Hfuel & Hscores & evs & E & Hs & Ha & Ht).
  assert (Hn : length (range n_runs) = Z.to_nat n_runs)
    by (unfold range; by rewrite length_map, length_seq).
  rewrite Hn in Hscores. simpl in *.
  unfold eval_performance, call, perform, pure.
  unfold mbind, M_bind, bind, mret, M_ret, ret.
  destruct (run_episodes fuel (Some 0) (range n_runs) [] w) as [[scores | e |] w0];
    simpl in *; [| | done].
  2:{ split; [done |]. split; [by exists evs | done]. }
  rewrite (Hscores _ eq_refl).
  destruct (statistics.mean _) as [m |]; simpl.
  2:{ split; [done |]. split; [| done]. eexists. split; [rewrite E, <- !app_assoc; reflexivity |].
      rewrite steps_of_app, acts_app, select_times_app, Hs, Ha, Ht. done. }
  destruct (statistics.median _) as [md |]; simpl.
  2:{ split; [done |]. split; [| done]. eexists. split; [rewrite E, <- !app_assoc; reflexivity |].
      rewrite steps_of_app, acts_app, select_times_app, Hs, Ha, Ht. done. }
  destruct (n_runs >=? 2).
  - destruct (statistics.stdev _) as [sd |]; simpl.
    + split; [done |]. split; [| by intros ? ? ? [= <- <- <-]].
      eexists. split; [rewrite E, <- !app_assoc; reflexivity |].
      rewrite steps_of_app, acts_app, select_times_app, Hs, Ha, Ht. done.
    + split; [done |]. split; [| done].
      eexists. split; [rewrite E, <- !app_assoc; reflexivity |].
      rewrite steps_of_app, acts_app, select_times_app, Hs, Ha, Ht. done.
  - simpl. split; [done |]. split; [| by intros ? ? ? [= <- <- <-]].
    eexists. split; [rewrite E, <- !app_assoc; reflexivity |].
    rewrite steps_of_app, acts_app, select_times_app, Hs, Ha, Ht. done.
Qed.

(** X7 on scripted collaborators: two episodes. *)
Lemma zero_max_episode_len_takes_no_step_witness :
  let w := Scripted.world [Scripted.one_step (F64.of_Z 5); Scripted.one_step (F64.of_Z 7)] in
  let r := @eval_performance Scripted.collaborators unit 5 2 (Some 0) w in
  r.1 = Returns (F64.zero, F64.zero, F64.zero) /\
  statistics.mean (API := cpython.api) [F64.zero; F64.zero] = Ok F64.zero /\
  exists evs, w_trace r.2 = w_trace w ++ evs /\ steps_of evs = [].
Proof.
  intros w r.
  assert (Hr : r.1 = Returns (F64.zero, F64.zero, F64.zero)) by (vm_compute; reflexivity).
  split; [exact Hr |].
  destruct (@zero_max_episode_len_takes_no_step Scripted.collaborators unit 5 2 w)
    as (_ & (evs & E & Hs & _) & Hstat).
  split.
  - exact (proj1 (Hstat _ _ _ Hr)).
  - exists evs. split; [exact E | exact Hs].
Defined.

Section Termination.
Context `{Collaborators}.

Lemma run_episodes_terminates {Self : Type} fuel n runs scores (w : World Self) :
  0 <= n -> (Z.to_nat n <= fuel)%nat ->
  (run_episodes fuel (Some n) runs scores w).1 <> OutOfFuel.
Proof.
  intros Hn Hfuel. revert scores w. induction runs as [| i runs IH]; intros scores w;
    [done |].
  simpl. unfold run_episode, mbind, M_bind, bind, env_reset, agent_stop_episode,
    logger_info, call, perform, pure, mret, M_ret, ret.
  destruct (sys_reset (w_sys w)) as [[obs s1] | e]; simpl; [| done].
  match goal with |- context [episode_loop fuel (Some n) obs false F64.zero 0 ?w0] =>
    destruct (episode_loop_spec fuel (Some n) obs F64.zero 0 w0) as (evs & _ & _ & Hout);
    destruct (episode_loop fuel (Some n) obs false F64.zero 0 w0) as [[x | e |] w2] end;
    simpl in *; [| done |].
  - destruct (sys_stop_episode (w_sys w2)) as [[[] s3] | e]; simpl; [| done]. apply IH.
  - destruct Hout as (_ & _ & Hno). exfalso. apply (Hno n eq_refl). lia.
Qed.

Lemma eval_performance_terminates {Self : Type} fuel n n_runs (w : World Self) :
  0 <= n -> (Z.to_nat n <= fuel)%nat ->
  (eval_performance fuel n_runs (Some n) w).1 <> OutOfFuel.
Proof.
  intros Hn Hfuel. unfold eval_performance, call, perform, pure.
  unfold mbind, M_bind, bind, mret, M_ret, ret.
  pose proof (run_episodes_terminates fuel n (range n_runs) [] w Hn Hfuel) as Hrun.
  destruct (run_episodes fuel (Some n) (range n_runs) [] w) as [[scores | e |] w0];
    simpl in *; try done.
  destruct (statistics.mean scores); simpl; [| done].
  destruct (statistics.median scores); simpl; [| done].
  destruct (n_runs >=? 2); [| done].
  by destruct (statistics.stdev scores).
Qed.
End Termination.

(** X8.  With [max_episode_len = n >= 0] an evaluation always ends, whatever
    the environment does: no episode loop runs for more than [n] iterations,
    so a call of [evaluate_if_necessary], of either class, returns or raises
    (a bound of [n] iterations per episode is never exhausted). *)
Theorem evaluation_ends_under_max_episode_len `{Collaborators} (fuel : nat) (n t : Z) :
  0 <= n -> (Z.to_nat n <= fuel)%nat ->
  (forall (w : World Evaluator.t),
      Evaluator.max_episode_len (w_self w) = Some n ->
      (Evaluator.evaluate_if_necessary fuel t w).1 <> OutOfFuel) /\
  (forall (w : World AsyncEvaluator.t),
      AsyncEvaluator.max_episode_len (w_self w) = Some n ->
      (AsyncEvaluator.evaluate_if_necessary fuel t w).1 <> OutOfFuel).
Proof.
  intros Hn Hfuel. split.
  - intros w Hcap.
    destruct (Z_lt_le_dec t (Evaluator.prev_eval_t (w_self w)
                             + Evaluator.eval_interval (w_self w))) as [Hlt | Hdue].
    { by rewrite (Evaluator_not_due _ _ _ Hlt). }
    rewrite (Evaluator_due _ _ _ Hdue), Evaluator_evaluation_run, Hcap.
    pose proof (eval_performance_terminates fuel n (Evaluator.n_runs (w_self w)) w Hn Hfuel)
      as Hp.
    destruct (eval_performance _ _ _ w) as [[[[m md] sd] | e |] w1]; simpl in *; try done.
    destruct (get_statistics _); simpl; [| done].
    destruct (decide _); simpl; [done |].
    destruct (float_gt m _); simpl.
    + destruct (save _ _); simpl; [| done]. by destruct (Evaluator.eval_interval _ =? 0).
    + by destruct (Evaluator.eval_interval _ =? 0).
  - intros w Hcap.
    destruct (Z_lt_le_dec t (AsyncEvaluator.prev_eval_t (w_self w)
                             + AsyncEvaluator.eval_interval (w_self w))) as [Hlt | Hdue].
    { by rewrite (AsyncEvaluator_not_due _ _ _ Hlt). }
    rewrite (AsyncEvaluator_due _ _ _ Hdue).
    unfold mbind, M_bind, bind, mret, M_ret, ret.
    rewrite AsyncEvaluator_ensure_header_run. simpl.
    destruct (AsyncEvaluator.wrote_header (w_self w) =? 0); simpl.
    + destruct (decide _); simpl; [done |].
      destruct (get_statistics _); simpl; [| done].
      rewrite AsyncEvaluator_evaluation_run. simpl. rewrite Hcap.
      match goal with |- context [eval_performance fuel ?k (Some n) ?w0] =>
        pose proof (eval_performance_terminates fuel n k w0 Hn Hfuel) as Hp;
        destruct (eval_performance fuel k (Some n) w0) as [[[[m md] sd] | e |] w1] end;
        simpl in *; try done.
      destruct (get_statistics _); simpl; [| done].
      destruct (decide _); simpl; [done |].
      destruct (F64.gtb m _); simpl; [| done].
      by destruct (save _ _).
    + rewrite AsyncEvaluator_evaluation_run. simpl. rewrite Hcap.
      match goal with |- context [eval_performance fuel ?k (Some n) ?w0] =>
        pose proof (eval_performance_terminates fuel n k w0 Hn Hfuel) as Hp;
        destruct (eval_performance fuel k (Some n) w0) as [[[[m md] sd] | e |] w1] end;
        simpl in *; try done.
      destruct (get_statistics _); simpl; [| done].
      destruct (decide _); simpl; [done |].
      destruct (F64.gtb m _); simpl; [| done].
      by destruct (save _ _).
Qed.

(** X8 on scripted collaborators: an environment that never reports [done], capped at two
    steps. *)
Lemma evaluation_ends_under_max_episode_len_witness :
  let one := F64.of_Z 1 in
  let endless := [(one, false); (one, false); (one, false); (one, false)] in
  let e := bound (Evaluator.mk (NpFloat32 np_finfo_float32_min) F64.zero 1 100 "out" (Some 2) 0 0)
             (Scripted.world [endless]) in
  let a := bound (AsyncEvaluator.mk F64.zero 1 100 "out" (Some 2) 0 0
                    np_finfo_float32_min 0)
             (Scripted.world [endless]) in
  (0 <= 2 /\ (Z.to_nat 2 <= 2)%nat) /\
  (@Evaluator.evaluate_if_necessary Scripted.collaborators 2 100 e).1 <> OutOfFuel /\
  (@AsyncEvaluator.evaluate_if_necessary Scripted.collaborators 2 100 a).1 <> OutOfFuel /\
  (@Evaluator.evaluate_if_necessary Scripted.collaborators 2 100 e).1
  = Returns (Some (F64.of_Z 2)).
Proof.
  intros one endless e a.
  assert (Hn : 0 <= 2) by discriminate.
  assert (Hf : (Z.to_nat 2 <= 2)%nat) by (vm_compute; repeat constructor).
  split; [split; assumption |].
  destruct (@evaluation_ends_under_max_episode_len Scripted.collaborators 2 2 100 Hn Hf)
    as [HE HA].
  split; [exact (HE e eq_refl) |]. split; [exact (HA a eq_refl) |].
  vm_compute. reflexivity.
Defined.

(** ** The constructors, when they fail and when they do not *)

(** X9.  Both constructors raise [ZeroDivisionError] when [eval_interval] is
    [0]: [step_offset % eval_interval] is computed right after the clock is
    read and before [scores.txt] is opened, so no file is touched. *)
Theorem init_with_zero_eval_interval_raises `{Collaborators}
    (n_runs : Z) (outdir : string) (max_episode_len : option Z) (step_offset : Z)
    (w : World unit) :
  let re := Evaluator.__init__ n_runs 0 outdir max_episode_len step_offset w in
  let ra := AsyncEvaluator.__init__ n_runs 0 outdir max_episode_len step_offset w in
  re.1 = Raises ZeroDivisionError /\
  ra.1 = Raises ZeroDivisionError /\
  sys_files (w_sys re.2) = sys_files (w_sys w) /\
  sys_files (w_sys ra.2) = sys_files (w_sys w) /\
  w_trace re.2 =
    w_trace w ++ [Called TimeTime; Failed (IntMod step_offset 0) ZeroDivisionError] /\
  w_trace ra.2 =
    w_trace w ++ [Called TimeTime; Failed (IntMod step_offset 0) ZeroDivisionError].
Proof.
  unfold Evaluator.__init__, AsyncEvaluator.__init__. exec.
  rewrite <- !app_assoc. done.
Qed.

(** X10.  What a failing [Evaluator] constructor leaves behind
    ([eval_interval] not zero).  When [open] refuses [outdir/scores.txt] the
    constructor raises that error and no file has changed.  When
    [agent.get_statistics()] raises, the file was already opened with ['w']:
    the constructor raises that error and leaves [scores.txt] empty, without
    a header, whatever it held before. *)
Theorem Evaluator_init_failures `{Collaborators}
    (n_runs eval_interval : Z) (outdir : string) (max_episode_len : option Z)
    (step_offset : Z) (w : World unit) :
  let path := os_path_join outdir "scores.txt" in
  let r := Evaluator.__init__ n_runs eval_interval outdir max_episode_len step_offset w in
  eval_interval <> 0 ->
  (path ∈ sys_denied (w_sys w) ->
   r.1 = Raises (IOError path) /\ sys_files (w_sys r.2) = sys_files (w_sys w)) /\
  (path ∉ sys_denied (w_sys w) ->
   forall e, get_statistics (sys_agent (w_sys w)) = Err e ->
             r.1 = Raises e /\
             sys_files (w_sys r.2) = <[path := []]> (sys_files (w_sys w)) /\
             headers (drop (length (w_trace w)) (w_trace r.2)) = []).
Proof.
  intros path r Hi. subst r. unfold Evaluator.__init__. exec. fold path.
  destruct (Z.eqb_spec eval_interval 0); [done |]. simpl.
  destruct (decide (path ∈ sys_denied (w_sys w))) as [Hden | Hden]; simpl.
  - split; [done |]. done.
  - split; [done |]. intros _ e ->. simpl.
    split; [done |]. split; [done |].
    by rewrite <- !app_assoc, drop_app_length.
Qed.

(** X10 on scripted collaborators: a refused file, and an agent that has no statistics yet. *)
Lemma Evaluator_init_failures_witness :
  let w0 := Scripted.world [] in
  let wd := mkWorld (mkSys (sys_env (w_sys w0)) O None ∅ {["out/scores.txt"]} ∅
                       (sys_clock (w_sys w0)) O) [] tt in
  let rd := @Evaluator.__init__ Scripted.collaborators 1 100 "out" None 0 wd in
  let rs := @Evaluator.__init__ Faulty.collaborators 1 100 "out" None 0 w0 in
  (100 <> 0 /\ ("out/scores.txt" ∈ sys_denied (w_sys wd)) /\
   ("out/scores.txt" ∉ sys_denied (w_sys w0))) /\
  rd.1 = Raises (IOError "out/scores.txt") /\
  sys_files (w_sys rd.2) = ∅ /\
  rs.1 = Raises (Error "NotReady") /\
  sys_files (w_sys rs.2) !! "out/scores.txt" = Some [].
Proof.
  intros w0 wd rd rs.
  assert (Hi : 100 <> 0) by discriminate.
  assert (Hden : "out/scores.txt" ∈ sys_denied (w_sys wd)) by (vm_compute; set_solver).
  assert (Hok : "out/scores.txt" ∉ sys_denied (w_sys w0)) by (vm_compute; set_solver).
  split; [repeat split; assumption |].
  destruct (@Evaluator_init_failures Scripted.collaborators 1 100 "out" None 0 wd Hi)
    as (Hd & _).
  destruct (@Evaluator_init_failures Faulty.collaborators 1 100 "out" None 0 w0 Hi)
    as (_ & Hs).
  destruct (Hd Hden) as (Rd & Fd).
  destruct (Hs Hok (Error "NotReady") eq_refl) as (Rs & Fs & _).
  split; [exact Rd |]. split; [exact Fd |]. split; [exact Rs |].
  subst rs. rewrite Fs. apply lookup_insert_eq.
Defined.

(** X11.  [AsyncEvaluator.__init__] ([eval_interval] not zero,
    [outdir/scores.txt] can be opened) returns, and only makes sure that
    [scores.txt] exists: a missing file is created empty, an existing one
    keeps its lines (it is opened with ['a'], unlike in [Evaluator]), and no
    other file changes. *)
Theorem AsyncEvaluator_init_keeps_scores_file `{Collaborators}
    (n_runs eval_interval : Z) (outdir : string) (max_episode_len : option Z)
    (step_offset : Z) (w : World unit) :
  let path := os_path_join outdir "scores.txt" in
  let r := AsyncEvaluator.__init__ n_runs eval_interval outdir max_episode_len step_offset w in
  eval_interval <> 0 -> path ∉ sys_denied (w_sys w) ->
  (exists self, r.1 = Returns self) /\
  sys_files (w_sys r.2) !! path = Some (default [] (sys_files (w_sys w) !! path)) /\
  (forall p, p <> path -> sys_files (w_sys r.2) !! p = sys_files (w_sys w) !! p).
Proof.
  intros path r Hi Hden. subst r.
  rewrite (AsyncEvaluator_init_returns _ _ _ _ _ _ Hi Hden). simpl. fold path.
  split; [by eexists |].
  destruct (sys_files (w_sys w) !! path) eqn:Hf; simpl.
  - split; [done |]. done.
  - split; [by rewrite lookup_insert_eq |]. intros p Hp. by rewrite lookup_insert_ne.
Qed.

(** X11 on scripted collaborators: over a stale file, and over no file. *)
Lemma AsyncEvaluator_init_keeps_scores_file_witness :
  let w0 := Scripted.world [] in
  let w := mkWorld (with_files (w_sys w0) {["out/scores.txt" := ["stale"; "lines"]]})
             [] tt in
  let r := @AsyncEvaluator.__init__ Scripted.collaborators 1 100 "out" None 0 w in
  let r0 := @AsyncEvaluator.__init__ Scripted.collaborators 1 100 "out" None 0 w0 in
  (100 <> 0 /\ ("out/scores.txt" ∉ sys_denied (w_sys w)) /\
   ("out/scores.txt" ∉ sys_denied (w_sys w0))) /\
  sys_files (w_sys r.2) !! "out/scores.txt" = Some ["stale"; "lines"] /\
  sys_files (w_sys r0.2) !! "out/scores.txt" = Some [].
Proof.
  intros w0 w r r0.
  assert (Hi : 100 <> 0) by discriminate.
  assert (Hok : "out/scores.txt" ∉ sys_denied (w_sys w)) by (vm_compute; set_solver).
  assert (Hok0 : "out/scores.txt" ∉ sys_denied (w_sys w0)) by (vm_compute; set_solver).
  split; [repeat split; assumption |].
  destruct (@AsyncEvaluator_init_keeps_scores_file Scripted.collaborators 1 100 "out" None 0
              w Hi Hok) as (_ & F & _).
  destruct (@AsyncEvaluator_init_keeps_scores_file Scripted.collaborators 1 100 "out" None 0
              w0 Hi Hok0) as (_ & F0 & _).
  split; [exact F | exact F0].
Defined.

(** ** One evaluation *)

(** X12.  The row that a returning [evaluate_and_update_max_score(t)] appends,
    for both classes: the tab-separated [str] of [t], of the elapsed time
    [time.time() - start_time] (the clock is read once, after the episodes),
    of the mean, the median and the standard deviation returned by
    [eval_performance], and of the values of the agent's statistics as they
    are after the episodes, in their order.  The row has as many cells as the
    header written for the same statistics has columns. *)
Theorem evaluation_row_content `{Collaborators} (fuel : nat) (t : Z) :
  (forall (w w' : World Evaluator.t) (mean : float),
      Evaluator.evaluate_and_update_max_score fuel t w = (Returns mean, w') ->
      let self := w_self w in
      exists median stdev w1 stats,
        eval_performance fuel (Evaluator.n_runs self) (Evaluator.max_episode_len self) w
        = (Returns (mean, median, stdev), w1) /\
        get_statistics (sys_agent (w_sys w1)) = Ok stats /\
        let now := sys_clock (w_sys w) (sys_ticks (w_sys w)) in
        let cells :=
          [PyInt t; PyFloat (F64.sub now (Evaluator.start_time self)); PyFloat mean;
           PyFloat median; PyFloat stdev] ++ map snd stats in
        rows (drop (length (w_trace w)) (w_trace w')) = [join_tab (map str cells)] /\
        length cells = length (["steps"; "elapsed"; "mean"; "median"; "stdev"]
                                 ++ map fst stats) /\
        sys_ticks (w_sys w') = S (sys_ticks (w_sys w))) /\
  (forall (w w' : World AsyncEvaluator.t) (mean : float),
      AsyncEvaluator.evaluate_and_update_max_score fuel t w = (Returns mean, w') ->
      let self := w_self w in
      exists median stdev w1 stats,
        eval_performance fuel (AsyncEvaluator.n_runs self)
          (AsyncEvaluator.max_episode_len self) w
        = (Returns (mean, median, stdev), w1) /\
        get_statistics (sys_agent (w_sys w1)) = Ok stats /\
        let now := sys_clock (w_sys w) (sys_ticks (w_sys w)) in
        let cells :=
          [PyInt t; PyFloat (F64.sub now (AsyncEvaluator.start_time self)); PyFloat mean;
           PyFloat median; PyFloat stdev] ++ map snd stats in
        rows (drop (length (w_trace w)) (w_trace w')) = [join_tab (map str cells)] /\
        length cells = length (["steps"; "elapsed"; "mean"; "median"; "stdev"]
                                 ++ map fst stats) /\
        sys_ticks (w_sys w') = S (sys_ticks (w_sys w))).
Proof.
  split; intros w w' mean Hev self.
  - rewrite Evaluator_evaluation_run in Hev. fold self in Hev.
    destruct (eval_performance_frame fuel (Evaluator.n_runs self)
                (Evaluator.max_episode_len self) w) as [Hframe (evs1 & E1 & F1)].
    destruct (episode_events_quiet _ F1) as (Q1 & Q2 & Q3).
    destruct (eval_performance _ _ _ w) as [[[[m md] sd] | e |] w1]; try done.
    simpl in *. unfold episode_frame in Hframe.
    injection Hframe as Hself Hfiles Hsaved Hdenied Hclock Hticks.
    destruct (get_statistics _) as [stats |] eqn:Hst; simpl in *; [| done].
    exists md, sd, w1, stats.
    destruct (decide _); simpl in *; [done |].
    rewrite Hclock, Hticks in Hev.
    destruct (float_gt m _); simpl in *;
      [destruct (save _ _); simpl in *; [| done] |];
      injection Hev as <- <-; simpl; rewrite E1, <- !app_assoc, drop_app_length;
      rewrite !rows_app, Q3; simpl; rewrite !length_map; done.
  - rewrite AsyncEvaluator_evaluation_run in Hev. fold self in Hev.
    destruct (eval_performance_frame fuel (AsyncEvaluator.n_runs self)
                (AsyncEvaluator.max_episode_len self) w) as [Hframe (evs1 & E1 & F1)].
    destruct (episode_events_quiet _ F1) as (Q1 & Q2 & Q3).
    destruct (eval_performance _ _ _ w) as [[[[m md] sd] | e |] w1]; try done.
    simpl in *. unfold episode_frame in Hframe.
    injection Hframe as Hself Hfiles Hsaved Hdenied Hclock Hticks.
    destruct (get_statistics _) as [stats |] eqn:Hst; simpl in *; [| done].
    exists md, sd, w1, stats.
    destruct (decide _); simpl in *; [done |].
    rewrite Hclock, Hticks in Hev.
    destruct (F64.gtb m _); simpl in *;
      [destruct (save _ _); simpl in *; [| done] |];
      injection Hev as <- <-; simpl; rewrite E1, <- !app_assoc, drop_app_length;
      rewrite !rows_app, Q3; simpl; rewrite !length_map; done.
Qed.

(** X12 on scripted collaborators: a first evaluation, with mean 5. *)
Lemma evaluation_row_content_witness :
  let five := F64.of_Z 5 in
  let e0 := Scripted.evaluator 100 [Scripted.one_step five] in
  let a0 := Scripted.async_evaluator 100 [Scripted.one_step five] in
  let e1 := Evaluator.evaluate_and_update_max_score 5 100 e0 in
  let a1 := AsyncEvaluator.evaluate_and_update_max_score 5 100 a0 in
  let row := join_tab ["100"; "0.0"; "<float>"; "<float>"; "0.0"; "1"] in
  (e1 = (Returns five, e1.2) /\ a1 = (Returns five, a1.2)) /\
  rows (drop (length (w_trace e0)) (w_trace e1.2)) = [row] /\
  rows (drop (length (w_trace a0)) (w_trace a1.2)) = [row].
Proof.
  intros five e0 a0 e1 a1 row.
  assert (He : e1 = (Returns five, e1.2)) by (vm_compute; reflexivity).
  assert (Ha : a1 = (Returns five, a1.2)) by (vm_compute; reflexivity).
  split; [split; assumption |].
  destruct (@evaluation_row_content Scripted.collaborators 5 100) as [HE HA].
  destruct (HE e0 e1.2 five He) as (md & sd & w1 & stats & Hp & Hst & Hrow & _).
  destruct (HA a0 a1.2 five Ha) as (md' & sd' & w1' & stats' & Hp' & Hst' & Hrow' & _).
  split.
  - rewrite Hrow. vm_compute in Hp. injection Hp as <- <- <-.
    vm_compute in Hst. injection Hst as <-. vm_compute. reflexivity.
  - rewrite Hrow'. vm_compute in Hp'. injection Hp' as <- <- <-.
    vm_compute in Hst'. injection Hst' as <-. vm_compute. reflexivity.
Defined.

(** X13.  When [evaluate_and_update_max_score] raises after its row was
    written, for both classes, the error is that of [agent.save]: the mean
    beat [max_score] ([mean > max_score] evaluated to true) and the message
    that the best score is updated was logged just before, but [max_score] is
    unchanged and no agent is recorded as saved. *)
Theorem failed_checkpoint_leaves_max_score `{Collaborators} (fuel : nat) (t : Z) :
  (forall (w : World Evaluator.t) (e : exn),
      let self := w_self w in
      let dirname := os_path_join (Evaluator.outdir self) (str_int t) in
      let r := Evaluator.evaluate_and_update_max_score fuel t w in
      r.1 = Raises e ->
      rows (drop (length (w_trace w)) (w_trace r.2)) <> [] ->
      w_self r.2 = self /\
      sys_saved (w_sys r.2) = sys_saved (w_sys w) /\
      exists evs0 mean,
        float_gt mean (Evaluator.max_score self) = true /\
        w_trace r.2 =
          evs0 ++ [Called (LoggerInfo
                             (LogBestScore (number_value (Evaluator.max_score self)) mean));
                   Failed (AgentSave dirname) e]) /\
  (forall (w : World AsyncEvaluator.t) (e : exn),
      let self := w_self w in
      let dirname := os_path_join (AsyncEvaluator.outdir self) (str_int t) in
      let r := AsyncEvaluator.evaluate_and_update_max_score fuel t w in
      r.1 = Raises e ->
      rows (drop (length (w_trace w)) (w_trace r.2)) <> [] ->
      w_self r.2 = self /\
      sys_saved (w_sys r.2) = sys_saved (w_sys w) /\
      exists evs0 mean,
        F64.gtb mean (AsyncEvaluator._max_score self) = true /\
        w_trace r.2 =
          evs0 ++ [Called (LoggerInfo (LogBestScore (AsyncEvaluator._max_score self) mean));
                   Failed (AgentSave dirname) e]).
Proof.
  split; intros w e self dirname r; subst r.
  - rewrite Evaluator_evaluation_run. fold self dirname.
    destruct (eval_performance_frame fuel (Evaluator.n_runs self)
                (Evaluator.max_episode_len self) w) as [Hframe (evs1 & E1 & F1)].
    destruct (episode_events_quiet _ F1) as (Q1 & Q2 & Q3).
    destruct (eval_performance _ _ _ w) as [[[[m md] sd] | e' |] w1]; simpl in *;
      unfold episode_frame in Hframe;
      injection Hframe as Hself Hfiles Hsaved Hdenied Hclock Hticks.
    2:{ intros _. rewrite E1, drop_app_length, Q3. done. }
    2:{ done. }
    destruct (get_statistics _) as [stats |]; simpl.
    2:{ intros _. rewrite E1, <- !app_assoc, drop_app_length, rows_app, Q3. done. }
    destruct (decide _); simpl.
    { intros _. rewrite E1, <- !app_assoc, drop_app_length, rows_app, Q3. done. }
    destruct (float_gt m _) eqn:Hbest; simpl; [| done].
    destruct (save _ _); simpl; [done |].
    intros [= ->] _. split; [done |]. split; [done |].
    eexists _, m. split; [done |]. exact (eq_sym (app_assoc _ [_] [_])).
  - rewrite AsyncEvaluator_evaluation_run. fold self dirname.
    destruct (eval_performance_frame fuel (AsyncEvaluator.n_runs self)
                (AsyncEvaluator.max_episode_len self) w) as [Hframe (evs1 & E1 & F1)].
    destruct (episode_events_quiet _ F1) as (Q1 & Q2 & Q3).
    destruct (eval_performance _ _ _ w) as [[[[m md] sd] | e' |] w1]; simpl in *;
      unfold episode_frame in Hframe;
      injection Hframe as Hself Hfiles Hsaved Hdenied Hclock Hticks.
    2:{ intros _. rewrite E1, drop_app_length, Q3. done. }
    2:{ done. }
    destruct (get_statistics _) as [stats |]; simpl.
    2:{ intros _. rewrite E1, <- !app_assoc, drop_app_length, rows_app, Q3. done. }
    destruct (decide _); simpl.
    { intros _. rewrite E1, <- !app_assoc, drop_app_length, rows_app, Q3. done. }
    destruct (F64.gtb m _) eqn:Hbest; simpl; [| done].
    destruct (save _ _); simpl; [done |].
    intros [= ->] _. split; [done |]. split; [done |].
    eexists _, m. split; [done |]. exact (eq_sym (app_assoc _ [_] [_])).
Qed.

(** X13 on scripted collaborators: an agent whose [save] fails. *)
Lemma failed_checkpoint_leaves_max_score_witness :
  let five := F64.of_Z 5 in
  let e0 := Scripted.evaluator 100 [Scripted.one_step five] in
  let a0 := Scripted.async_evaluator 100 [Scripted.one_step five] in
  let re := @Evaluator.evaluate_and_update_max_score Faulty.collaborators 5 100 e0 in
  let ra := @AsyncEvaluator.evaluate_and_update_max_score Faulty.collaborators 5 100 a0 in
  (re.1 = Raises (Error "DiskFull") /\
   rows (drop (length (w_trace e0)) (w_trace re.2)) <> [] /\
   ra.1 = Raises (Error "DiskFull") /\
   rows (drop (length (w_trace a0)) (w_trace ra.2)) <> []) /\
  Evaluator.max_score (w_self re.2) = NpFloat32 np_finfo_float32_min /\
  AsyncEvaluator._max_score (w_self ra.2) = np_finfo_float32_min /\
  sys_saved (w_sys re.2) = ∅ /\ sys_saved (w_sys ra.2) = ∅.
Proof.
  intros five e0 a0 re ra.
  assert (Hre : re.1 = Raises (Error "DiskFull")) by (vm_compute; reflexivity).
  assert (Hra : ra.1 = Raises (Error "DiskFull")) by (vm_compute; reflexivity).
  assert (Hrow : rows (drop (length (w_trace e0)) (w_trace re.2)) <> [])
    by (vm_compute; discriminate).
  assert (Hrow' : rows (drop (length (w_trace a0)) (w_trace ra.2)) <> [])
    by (vm_compute; discriminate).
  split; [repeat split; assumption |].
  destruct (@failed_checkpoint_leaves_max_score Faulty.collaborators 5 100) as [HE HA].
  destruct (HE e0 _ Hre Hrow) as (Hs & Hsv & _).
  destruct (HA a0 _ Hra Hrow') as (Hs' & Hsv' & _).
  split; [exact (f_equal Evaluator.max_score Hs) |].
  split; [exact (f_equal AsyncEvaluator._max_score Hs') |].
  split; [exact Hsv | exact Hsv'].
Defined.

(** X14.  An evaluation that raises.  In [Evaluator] ([eval_interval] not
    zero) the object is left exactly as it was, so the evaluation is still
    due: [prev_eval_t] is only assigned after the evaluation.  In
    [AsyncEvaluator] the evaluation was due and [prev_eval_t] has already
    been moved by one interval, so the interval is spent. *)
Theorem failed_evaluation_and_prev_eval_t `{Collaborators} (fuel : nat) (t : Z) :
  (forall (w : World Evaluator.t) (e : exn),
      let r := Evaluator.evaluate_if_necessary fuel t w in
      Evaluator.eval_interval (w_self w) <> 0 ->
      r.1 = Raises e ->
      w_self r.2 = w_self w /\
      Evaluator.prev_eval_t (w_self r.2) + Evaluator.eval_interval (w_self r.2) <= t) /\
  (forall (w : World AsyncEvaluator.t) (e : exn),
      let next :=
        AsyncEvaluator.prev_eval_t (w_self w) + AsyncEvaluator.eval_interval (w_self w) in
      let r := AsyncEvaluator.evaluate_if_necessary fuel t w in
      r.1 = Raises e ->
      next <= t /\
      AsyncEvaluator.prev_eval_t (w_self r.2) = C_long.stored next).
Proof.
  split.
  - intros w e r Hi Hr. subst r.
    destruct (Z_lt_le_dec t (Evaluator.prev_eval_t (w_self w)
                             + Evaluator.eval_interval (w_self w))) as [Hlt | Hdue].
    { by rewrite (Evaluator_not_due _ _ _ Hlt) in Hr. }
    rewrite (Evaluator_due _ _ _ Hdue) in *.
    destruct (Evaluator_evaluation_effects fuel t w) as (evs & _ & _ & _ & _ & Hs).
    destruct (Evaluator.evaluate_and_update_max_score fuel t w) as [[s | e' |] w1];
      simpl in *; try done.
    + assert (Hint : Evaluator.eval_interval (w_self w1) = Evaluator.eval_interval (w_self w)).
      { destruct Hs as [(_ & _ & ->) | (_ & _ & mean & _ & _ & ->)]; done. }
      rewrite Hint in Hr.
      by destruct (Z.eqb_spec (Evaluator.eval_interval (w_self w)) 0).
    + destruct Hs as [(_ & _ & ->) | (_ & _ & mean & ? & _)]; done.
  - intros w e next r Hr. subst r.
    destruct (AsyncEvaluator_call_effects fuel t w) as (_ & _ & Hp & _).
    fold next in Hp.
    destruct (decide (next <= t)) as [Hdue | Hlt]; [done |].
    rewrite AsyncEvaluator_not_due in Hr by (fold next; lia). done.
Qed.

(** X14 on scripted collaborators: the environment raises at the first step. *)
Lemma failed_evaluation_and_prev_eval_t_witness :
  let e0 := Scripted.evaluator 100 [[]] in
  let a0 := Scripted.async_evaluator 100 [[]] in
  let re := Evaluator.evaluate_if_necessary 5 100 e0 in
  let ra := AsyncEvaluator.evaluate_if_necessary 5 100 a0 in
  (Evaluator.eval_interval (w_self e0) <> 0 /\
   re.1 = Raises (Error "StopIteration") /\ ra.1 = Raises (Error "StopIteration")) /\
  w_self re.2 = w_self e0 /\
  AsyncEvaluator.prev_eval_t (w_self ra.2) = 100.
Proof.
  intros e0 a0 re ra.
  assert (Hi : Evaluator.eval_interval (w_self e0) <> 0) by discriminate.
  assert (Hre : re.1 = Raises (Error "StopIteration")) by (vm_compute; reflexivity).
  assert (Hra : ra.1 = Raises (Error "StopIteration")) by (vm_compute; reflexivity).
  split; [repeat split; assumption |].
  destruct (@failed_evaluation_and_prev_eval_t Scripted.collaborators 5 100) as [HE HA].
  split.
  - exact (proj1 (HE e0 _ Hi Hre)).
  - exact (proj2 (HA a0 _ Hra)).
Defined.

(** X15.  [Evaluator], [eval_interval > 0]: a call of
    [evaluate_if_necessary(t)] that returns a score moves [prev_eval_t]
    strictly forward, to the start of the interval of [t]; after it, every
    call with a step count below the end of that interval, [t] itself
    included, returns [None] and changes nothing. *)
Theorem Evaluator_evaluates_once_per_interval `{Collaborators} (fuel : nat)
    (t t' : Z) (w : World Evaluator.t) (score : float) :
  let i := Evaluator.eval_interval (w_self w) in
  let r := Evaluator.evaluate_if_necessary fuel t w in
  i > 0 ->
  r.1 = Returns (Some score) ->
  Evaluator.prev_eval_t (w_self w) < Evaluator.prev_eval_t (w_self r.2) /\
  t < Evaluator.prev_eval_t (w_self r.2) + i /\
  (t' < t - t mod i + i ->
   Evaluator.evaluate_if_necessary fuel t' r.2 = (Returns None, r.2)).
Proof.
  intros i r Hi Hr. subst r.
  destruct (Z_lt_le_dec t (Evaluator.prev_eval_t (w_self w) + i)) as [Hlt | Hdue].
  { by rewrite (Evaluator_not_due _ _ _ Hlt) in Hr. }
  rewrite (Evaluator_due _ _ _ Hdue) in *.
  pose proof (Evaluator_evaluation_attributes fuel t w) as Hattr. simpl in Hattr.
  destruct (Evaluator.evaluate_and_update_max_score fuel t w) as [[s | e |] w1];
    try done.
  simpl in Hattr.
  assert (Hint : Evaluator.eval_interval (w_self w1) = i).
  { destruct Hattr as [-> | [x ->]]; done. }
  simpl in *. rewrite Hint in *.
  destruct (Z.eqb_spec i 0) as [? | _]; [lia |]. simpl in *.
  pose proof (Z.mod_pos_bound t i ltac:(lia)) as Hm.
  split; [lia |]. split; [lia |].
  intros Ht'. apply Evaluator_not_due. simpl. rewrite Hint. lia.
Qed.

(** X15 on scripted collaborators: two calls at [t = 250] with [eval_interval = 100]. *)
Lemma Evaluator_evaluates_once_per_interval_witness :
  let five := F64.of_Z 5 in
  let e0 := Scripted.evaluator 100 [Scripted.one_step five; Scripted.one_step five] in
  let r := Evaluator.evaluate_if_necessary 5 250 e0 in
  (Evaluator.eval_interval (w_self e0) > 0 /\ r.1 = Returns (Some five) /\
   250 < 250 - 250 mod 100 + 100) /\
  Evaluator.prev_eval_t (w_self r.2) = 200 /\
  Evaluator.evaluate_if_necessary 5 250 r.2 = (Returns None, r.2).
Proof.
  intros five e0 r.
  assert (Hi : Evaluator.eval_interval (w_self e0) > 0) by reflexivity.
  assert (Hr : r.1 = Returns (Some five)) by (vm_compute; reflexivity).
  assert (Ht : 250 < 250 - 250 mod 100 + 100) by reflexivity.
  split; [repeat split; assumption |].
  split; [vm_compute; reflexivity |].
  destruct (@Evaluator_evaluates_once_per_interval Scripted.collaborators 5 250 250 e0 five
              Hi Hr) as (_ & _ & Hagain).
  exact (Hagain Ht).
Defined.

(** X16.  [AsyncEvaluator] instead catches up one interval per call ([t] and
    [prev_eval_t + eval_interval] within the range of a C long): a call of
    [evaluate_if_necessary(t)] that returns a score leaves [prev_eval_t] one
    interval further, so a second call with the same [t] returns [None] when
    less than two intervals had elapsed, and claims another evaluation when
    two or more had. *)
Theorem AsyncEvaluator_catches_up_one_interval_per_call `{Collaborators} (fuel : nat)
    (t : Z) (w : World AsyncEvaluator.t) (score : float) :
  let i := AsyncEvaluator.eval_interval (w_self w) in
  let next := AsyncEvaluator.prev_eval_t (w_self w) + i in
  let r := AsyncEvaluator.evaluate_if_necessary fuel t w in
  C_long.min_value <= next -> t <= C_long.max_value ->
  r.1 = Returns (Some score) ->
  next <= t /\
  AsyncEvaluator.prev_eval_t (w_self r.2) = next /\
  (t < next + i ->
   AsyncEvaluator.evaluate_if_necessary fuel t r.2 = (Returns None, r.2)) /\
  (next + i <= t ->
   AsyncEvaluator.claim t r.2 =
     (Returns true,
      bound (AsyncEvaluator.store_prev_eval_t (w_self r.2) (next + i)) r.2)).
Proof.
  intros i next r Hmin Hmax Hr. subst r.
  destruct (AsyncEvaluator_call_effects fuel t w) as (_ & Hint & Hp & _).
  fold i next in Hint, Hp.
  destruct (decide (next <= t)) as [Hdue | Hlt].
  2:{ rewrite AsyncEvaluator_not_due in Hr by (fold i next; lia). done. }
  rewrite C_long_stored_in_range in Hp
    by (unfold C_long.max_value, C_long.min_value in *; lia).
  split; [done |]. split; [done |]. split.
  - intros Ht. apply AsyncEvaluator_not_due. rewrite Hp, Hint. lia.
  - intros Ht. rewrite AsyncEvaluator_claim_due by (rewrite Hp, Hint; lia).
    by rewrite Hp, Hint.
Qed.

(** X16 on scripted collaborators: [t = 250] with [eval_interval = 100] and [prev_eval_t = 0]. *)
Lemma AsyncEvaluator_catches_up_one_interval_per_call_witness :
  let five := F64.of_Z 5 in
  let a0 := Scripted.async_evaluator 100 [Scripted.one_step five; Scripted.one_step five] in
  let r := AsyncEvaluator.evaluate_if_necessary 5 250 a0 in
  (C_long.min_value <= 0 + 100 /\ 250 <= C_long.max_value /\
   r.1 = Returns (Some five) /\ 0 + 100 + 100 <= 250) /\
  AsyncEvaluator.prev_eval_t (w_self r.2) = 100 /\
  (AsyncEvaluator.claim 250 r.2).1 = Returns true.
Proof.
  intros five a0 r.
  assert (Hmin : C_long.min_value <= 0 + 100) by (vm_compute; discriminate).
  assert (Hmax : 250 <= C_long.max_value) by (vm_compute; discriminate).
  assert (Hr : r.1 = Returns (Some five)) by (vm_compute; reflexivity).
  assert (Ht : 0 + 100 + 100 <= 250) by (vm_compute; discriminate).
  split; [repeat split; assumption |].
  destruct (@AsyncEvaluator_catches_up_one_interval_per_call Scripted.collaborators 5 250 a0
              five Hmin Hmax Hr) as (_ & Hp & _ & Hagain).
  split; [exact Hp |].
  exact (f_equal fst (Hagain Ht)).
Defined.

(** ** Sequences of calls, and schedules of workers *)

Section EvaluatorCalls.
Context `{Collaborators}.
Import Evaluator.

Lemma Evaluator_calls_file fuel ts (w : World Evaluator.t) l :
  let path := os_path_join (outdir (w_self w)) "scores.txt" in
  sys_files (w_sys w) !! path = Some l ->
  let w' := Evaluator_calls fuel ts w in
  outdir (w_self w') = outdir (w_self w) /\
  exists evs,
    w_trace w' = w_trace w ++ evs /\
    headers evs = [] /\
    (length (rows evs) <= length ts)%nat /\
    sys_files (w_sys w') !! path = Some (l ++ rows evs).
Proof.
  revert w l. induction ts as [| t ts IH]; intros w l path Hl; simpl.
  { split; [done |]. exists []. rewrite !app_nil_r. simpl. repeat split; auto. }
  destruct (Evaluator_call_effects fuel t w) as (Ho & _ & evs1 & E1 & Hh1 & Hr1 & Hf1 & _).
  set (w1 := (evaluate_if_necessary fuel t w).2) in *.
  assert (Hl1 : sys_files (w_sys w1) !! os_path_join (outdir (w_self w1)) "scores.txt"
                = Some (l ++ rows evs1)).
  { rewrite Ho, Hf1. by apply appended_lookup. }
  destruct (IH w1 _ Hl1) as (Ho2 & evs2 & E2 & Hh2 & Hr2 & Hf2).
  split; [by rewrite Ho2 |].
  exists (evs1 ++ evs2). split; [by rewrite E2, E1, app_assoc |].
  rewrite headers_app, rows_app, Hh1, Hh2, length_app.
  split; [done |]. split; [lia |].
  rewrite Ho in Hf2. fold path in Hf2. by rewrite Hf2, app_assoc.
Qed.
End EvaluatorCalls.

(** X17.  The scores file of an [Evaluator]: after the constructor and any
    sequence of [evaluate_if_necessary] calls, however each of them ended,
    [outdir/scores.txt] holds the header written by the constructor followed
    by the rows appended since, in the order of the evaluations, and no
    second header; there is at most one row per call. *)
Theorem Evaluator_scores_file_is_header_then_rows `{Collaborators} (fuel : nat)
    (n_runs eval_interval : Z) (outdir : string) (max_episode_len : option Z)
    (step_offset : Z) (w0 w1 : World unit) (self : Evaluator.t) (ts : list Z) :
  Evaluator.__init__ n_runs eval_interval outdir max_episode_len step_offset w0
  = (Returns self, w1) ->
  let w' := Evaluator_calls fuel ts (bound self w1) in
  exists stats evs,
    get_statistics (sys_agent (w_sys w0)) = Ok stats /\
    w_trace w' = w_trace w1 ++ evs /\
    headers evs = [] /\
    (length (rows evs) <= length ts)%nat /\
    sys_files (w_sys w') !! os_path_join outdir "scores.txt" =
      Some (join_tab (["steps"; "elapsed"; "mean"; "median"; "stdev"] ++ map fst stats)
              :: rows evs).
Proof.
  intros Hinit w'.
  destruct (Evaluator_init_inv _ _ _ _ _ _ _ _ Hinit) as (Hi & Hden & stats & Hst).
  rewrite (Evaluator_init_returns _ _ _ _ _ _ _ Hi Hden Hst) in Hinit.
  injection Hinit as <- <-.
  exists stats.
  match goal with w' := Evaluator_calls fuel ts ?w0' |- _ =>
    destruct (Evaluator_calls_file fuel ts w0'
                [join_tab (["steps"; "elapsed"; "mean"; "median"; "stdev"] ++ map fst stats)])
      as (_ & evs & E & Hh & Hr & Hf) end.
  { simpl. by rewrite lookup_insert_eq. }
  exists evs. split; [done |]. split; [exact E |]. split; [done |]. split; [done |].
  exact Hf.
Qed.

(** X17 on scripted collaborators: the calls at 50, 100, 150 and 250 leave the header and two
    rows. *)
Lemma Evaluator_scores_file_is_header_then_rows_witness :
  let five := F64.of_Z 5 in
  let seven := F64.of_Z 7 in
  let w0 := Scripted.world [Scripted.one_step five; Scripted.one_step seven] in
  let init := Evaluator.__init__ 1 100 "out" None 0 w0 in
  let self := Evaluator.mk (NpFloat32 np_finfo_float32_min) F64.zero 1 100 "out" None 0 0 in
  let w' := Evaluator_calls 5 [50; 100; 150; 250] (bound self init.2) in
  init = (Returns self, init.2) /\
  exists evs,
    w_trace w' = w_trace init.2 ++ evs /\
    sys_files (w_sys w') !! "out/scores.txt" =
      Some (join_tab ["steps"; "elapsed"; "mean"; "median"; "stdev"; "n_actions"]
              :: rows evs) /\
    length (rows evs) = 2%nat.
Proof.
  intros five seven w0 init self w'.
  assert (Hinit : init = (Returns self, init.2)) by (vm_compute; reflexivity).
  split; [exact Hinit |].
  destruct (@Evaluator_scores_file_is_header_then_rows Scripted.collaborators 5
              1 100 "out" None 0 w0 init.2 self [50; 100; 150; 250] Hinit)
    as (stats & evs & Hst & E & _ & _ & Hf).
  assert (Hstats : stats = [("n_actions"%string, PyInt 0)]).
  { vm_compute in Hst. by injection Hst. }
  subst stats. exists evs. split; [exact E |]. split; [exact Hf |].
  apply (f_equal (option_map (@length string))) in Hf.
  assert (Hlen : option_map (@length string) (sys_files (w_sys w') !! "out/scores.txt")
                 = Some 3%nat) by (vm_compute; reflexivity).
  apply (eq_trans (eq_sym Hf)) in Hlen. simpl in Hlen. by injection Hlen.
Defined.

Section EvaluatorCheckpoints.
Context `{Collaborators}.
Import Evaluator.

Lemma best_dirname_inj (outdir : string) (t t' : Z) :
  os_path_join outdir (str_int t) = os_path_join outdir (str_int t') -> t = t'.
Proof.
  intros Hj. apply (save_agent_dirname_inj outdir ""). by rewrite !append_empty_r.
Qed.

Lemma aligned_window (i t : Z) : i > 0 -> t - i < t - t mod i <= t.
Proof. intros Hi. pose proof (Z.mod_pos_bound t i). lia. Qed.

Lemma Evaluator_calls_checkpoints fuel ts (w : World Evaluator.t) :
  let self := w_self w in
  let i := eval_interval self in
  i > 0 ->
  let w' := Evaluator_calls fuel ts w in
  eval_interval (w_self w') = i /\
  outdir (w_self w') = outdir self /\
  prev_eval_t self <= prev_eval_t (w_self w') /\
  exists evs,
    w_trace w' = w_trace w ++ evs /\
    NoDup (saved_dirs evs) /\
    Forall (fun d => exists t,
              d = os_path_join (outdir self) (str_int t) /\
              prev_eval_t self + i <= t < prev_eval_t (w_self w') + i)
      (saved_dirs evs) /\
    (forall d, d ∈ saved_dirs evs -> is_Some (sys_saved (w_sys w') !! d)) /\
    (forall d, d ∉ saved_dirs evs -> sys_saved (w_sys w') !! d = sys_saved (w_sys w) !! d).
Proof.
  revert w. induction ts as [| t ts IH]; intros w self i Hi; simpl.
  { repeat split; try done; try lia.
    exists []. rewrite app_nil_r. simpl. repeat split; try done; try constructor.
    intros d Hd. by apply elem_of_nil in Hd. }
  destruct (Evaluator_call_effects fuel t w)
    as (Ho & Hint & evs1 & E1 & _ & _ & _ & _ & Hs).
  fold self i in Ho, Hint, Hs.
  set (w1 := (evaluate_if_necessary fuel t w).2) in *.
  assert (Hi1 : eval_interval (w_self w1) > 0) by (rewrite Hint; done).
  destruct (IH w1 Hi1) as (Hint2 & Ho2 & Hp2 & evs2 & E2 & Hnd2 & Hall2 & Hin2 & Hout2).
  rewrite Hint in Hint2, Hall2. rewrite Ho in Ho2, Hall2.
  fold i in Hint2, Hall2.
  set (w' := Evaluator_calls fuel ts w1) in *.
  pose proof (aligned_window i t Hi) as Hw.
  assert (Hmono : prev_eval_t self <= prev_eval_t (w_self w1)).
  { destruct Hs as [(_ & _ & [-> | (Hdue & _ & ->)]) | (_ & _ & Hdue & Hp)];
      [lia | lia |]. rewrite Hp by lia. lia. }
  split; [done |]. split; [done |]. split; [lia |].
  exists (evs1 ++ evs2). split; [by rewrite E2, E1, app_assoc |].
  rewrite saved_dirs_app.
  destruct Hs as [(Hd & Hsv & _) | (Hd & Hsv & Hdue & Hp)]; rewrite Hd; simpl.
  - split; [done |]. split.
    + eapply Forall_impl; [exact Hall2 |]. intros d (t2 & -> & Ht2). exists t2. split; [done | lia].
    + split; [done |]. intros d Hd2. by rewrite Hout2, Hsv.
  - specialize (Hp ltac:(lia)).
    assert (Hfresh : os_path_join (outdir self) (str_int t) ∉ saved_dirs evs2).
    { intros Hin. rewrite Forall_forall in Hall2. destruct (Hall2 _ Hin) as (t2 & Hj & Ht2).
      apply best_dirname_inj in Hj. lia. }
    split; [by constructor |]. split.
    + constructor.
      * exists t. split; [done | lia].
      * eapply Forall_impl; [exact Hall2 |]. intros d (t2 & -> & Ht2). exists t2. split; [done | lia].
    + split.
      * intros d Hd2. apply elem_of_cons in Hd2 as [-> | Hd2]; [| by apply Hin2].
        rewrite Hout2 by done. rewrite Hsv, lookup_insert_eq. by eexists.
      * intros d Hd2. apply not_elem_of_cons in Hd2 as [Hne Hd2].
        rewrite Hout2 by done. by rewrite Hsv, lookup_insert_ne.
Qed.
End EvaluatorCheckpoints.

(** X18.  An [Evaluator] with [eval_interval > 0] never saves twice into the
    same directory: over any sequence of [evaluate_if_necessary] calls the
    directories of the checkpoints are pairwise different, each of them
    holds a saved agent at the end, and every other directory is as it
    was. *)
Theorem Evaluator_never_overwrites_a_checkpoint `{Collaborators} (fuel : nat)
    (ts : list Z) (w : World Evaluator.t) :
  Evaluator.eval_interval (w_self w) > 0 ->
  let w' := Evaluator_calls fuel ts w in
  exists evs,
    w_trace w' = w_trace w ++ evs /\
    NoDup (saved_dirs evs) /\
    (forall d, d ∈ saved_dirs evs -> is_Some (sys_saved (w_sys w') !! d)) /\
    (forall d, d ∉ saved_dirs evs -> sys_saved (w_sys w') !! d = sys_saved (w_sys w) !! d).
Proof.
  intros Hi w'.
  destruct (Evaluator_calls_checkpoints fuel ts w Hi)
    as (_ & _ & _ & evs & E & Hnd & _ & Hin & Hout).
  exists evs. repeat split; done.
Qed.

(** X18 on scripted collaborators: checkpoints at 100 and 250. *)
Lemma Evaluator_never_overwrites_a_checkpoint_witness :
  let five := F64.of_Z 5 in
  let seven := F64.of_Z 7 in
  let e0 := Scripted.evaluator 100 [Scripted.one_step five; Scripted.one_step seven] in
  let w' := Evaluator_calls 5 [50; 100; 150; 250] e0 in
  Evaluator.eval_interval (w_self e0) > 0 /\
  (exists evs, w_trace w' = w_trace e0 ++ evs /\ NoDup (saved_dirs evs)) /\
  sys_saved (w_sys w') !! "out/100" = Some 1%nat /\
  sys_saved (w_sys w') !! "out/250" = Some 2%nat.
Proof.
  intros five seven e0 w'.
  assert (Hi : Evaluator.eval_interval (w_self e0) > 0) by reflexivity.
  split; [exact Hi |]. split.
  - destruct (@Evaluator_never_overwrites_a_checkpoint Scripted.collaborators 5
                [50; 100; 150; 250] e0 Hi) as (evs & E & Hnd & _).
    exists evs. split; [exact E | exact Hnd].
  - split; vm_compute; reflexivity.
Defined.

Section FloatOrder.

(** [<] on floats is transitive. *)
Lemma ltb_trans (x y z : float) :
  F64.ltb x y = true -> F64.ltb y z = true -> F64.ltb x z = true.
Proof.
  unfold F64.ltb, SFltb, SFcompare.
  destruct x as [[] | [] | | [] mx ex], y as [[] | [] | | [] my ey],
    z as [[] | [] | | [] mz ez]; try done;
    rewrite ?Pos.compare_cont_spec; simpl;
    destruct (Z.compare_spec ex ey), (Z.compare_spec ey ez), (Z.compare_spec ex ez);
    try done; try lia; subst;
    destruct (Pos.compare_spec mx my), (Pos.compare_spec my mz), (Pos.compare_spec mx mz);
    simpl; try done; try lia.
Qed.

(** A score that does not beat [y] does not beat anything above [y]. *)
Lemma gtb_above (m x y : float) :
  F64.gtb x y = true -> F64.gtb m y = false -> F64.gtb m x = false.
Proof.
  unfold F64.gtb. intros Hxy Hmy.
  destruct (SFltb x m) eqn:Hxm; [| done].
  pose proof (ltb_trans y x m Hxy Hxm) as Hym. unfold F64.ltb in Hym. congruence.
Qed.
End FloatOrder.

Section RunningMaximum.
Context `{Collaborators}.
Import Evaluator.

Lemma float_gt_double (x : float) (n : number) :
  compared_in_double n -> float_gt x n = F64.gtb x (number_value n).
Proof.
  unfold float_gt, compared_in_double. destruct n; simpl; [done |]. by intros ->.
Qed.

(** One call either leaves [max_score] alone, and then the score it
    returned, if any, did not beat it, or replaces it by the mean it
    computed, which beat it. *)
Lemma Evaluator_call_max_score fuel t (w : World Evaluator.t) :
  let r := evaluate_if_necessary fuel t w in
  let old := max_score (w_self w) in
  let new := max_score (w_self r.2) in
  eval_interval (w_self r.2) = eval_interval (w_self w) /\
  ((new = old /\ forall score, r.1 = Returns (Some score) -> float_gt score old = false) \/
   (exists mean,
       new = PythonFloat mean /\ float_gt mean old = true /\
       (eval_interval (w_self w) <> 0 -> r.1 = Returns (Some mean)) /\
       (forall score, r.1 = Returns (Some score) -> score = mean))).
Proof.
  intros r old new. subst r old new.
  destruct (Z_lt_le_dec t (prev_eval_t (w_self w) + eval_interval (w_self w)))
    as [Hlt | Hdue].
  { rewrite (Evaluator_not_due _ _ _ Hlt). simpl. split; [done |]. left. by split. }
  rewrite (Evaluator_due _ _ _ Hdue).
  destruct (evaluate_and_update_max_score fuel t w) as [[score | e |] w1] eqn:Hev;
    simpl.
  - destruct (Evaluator_evaluation_anatomy _ _ _ _ _ Hev) as (_ & Hself & _).
    assert (Hint : eval_interval (w_self w1) = eval_interval (w_self w)).
    { rewrite Hself. by destruct (float_gt _ _). }
    assert (Hmax : max_score (w_self w1) =
                   if float_gt score (max_score (w_self w)) then PythonFloat score
                   else max_score (w_self w)).
    { rewrite Hself. by destruct (float_gt _ _). }
    rewrite Hint.
    destruct (Z.eqb_spec (eval_interval (w_self w)) 0) as [Hz | Hnz]; simpl;
      rewrite Hmax; destruct (float_gt score (max_score (w_self w))) eqn:Hbest;
      (split; [done |]).
    + right. exists score. by repeat split.
    + left. by split.
    + right. exists score. repeat split; try done. by intros s [= <-].
    + left. split; [done |]. by intros s [= <-].
  - pose proof (Evaluator_evaluation_effects fuel t w) as (evs & _ & _ & _ & _ & Hs).
    rewrite Hev in Hs. simpl in Hs.
    destruct Hs as [(_ & _ & ->) | (_ & _ & mean & ? & _)]; [| done].
    split; [done |]. left. by split.
  - pose proof (Evaluator_evaluation_effects fuel t w) as (evs & _ & _ & _ & _ & Hs).
    rewrite Hev in Hs. simpl in Hs.
    destruct Hs as [(_ & _ & ->) | (_ & _ & mean & ? & _)]; [| done].
    split; [done |]. left. by split.
Qed.

(** Once a Python float, always a Python float; and [max_score] is only ever
    replaced by a score that a call returned. *)
Lemma Evaluator_calls_max_score_in fuel ts (w : World Evaluator.t) :
  let new := max_score (w_self (Evaluator_calls fuel ts w)) in
  (new = max_score (w_self w) \/ exists b, new = PythonFloat b) /\
  (eval_interval (w_self w) <> 0 ->
   new = max_score (w_self w) \/
   exists b, b ∈ Evaluator_scores fuel ts w /\ new = PythonFloat b).
Proof.
  revert w. induction ts as [| t ts IH]; intros w; simpl; [by split; [left | left] |].
  destruct (Evaluator_call_max_score fuel t w) as (Hint & Hstep).
  set (r := evaluate_if_necessary fuel t w) in *.
  destruct (IH r.2) as (Hany & Hin). rewrite Hint in Hin. split.
  - destruct Hany as [-> | ?]; [| by right].
    destruct Hstep as [[-> _] | (mean & -> & _)]; [by left | right; by eexists].
  - intros Hi. destruct (Hin Hi) as [-> | (b & Hb & ->)].
    + destruct Hstep as [[-> _] | (mean & -> & _ & Hr & _)]; [by left |].
      right. exists mean. split; [| done]. rewrite (Hr Hi). by left.
    + right. exists b. split; [| done].
      destruct r.1 as [[s |] | |]; try done. by right.
Qed.

(** As long as [max_score] is the scalar it started as, no returned score
    has beaten it. *)
Lemma Evaluator_calls_never_updated fuel ts (w : World Evaluator.t) m :
  max_score (w_self w) = NpFloat32 m ->
  max_score (w_self (Evaluator_calls fuel ts w)) = NpFloat32 m ->
  forall score, score ∈ Evaluator_scores fuel ts w -> float_gt score (NpFloat32 m) = false.
Proof.
  revert w. induction ts as [| t ts IH]; intros w Hold; simpl.
  { intros _ score Hs. by apply elem_of_nil in Hs. }
  destruct (Evaluator_call_max_score fuel t w) as (_ & Hstep).
  set (r := evaluate_if_necessary fuel t w) in *.
  intros Hnew score Hs.
  destruct Hstep as [[Hsame Hret] | (mean & Hmean & _)].
  - rewrite Hold in Hsame, Hret.
    assert (Hcase : (r.1 = Returns (Some score)) \/ score ∈ Evaluator_scores fuel ts r.2).
    { destruct r.1 as [[s |] | |]; auto. apply elem_of_cons in Hs as [-> | ?]; auto. }
    destruct Hcase as [Hr | Hrest]; [by apply Hret | by apply (IH r.2)].
  - destruct (Evaluator_calls_max_score_in fuel ts r.2) as ([Hb | (b & Hb)] & _);
      rewrite Hb in Hnew; congruence.
Qed.

(** Where the comparison is the order of double precision, [max_score]
    never goes down and no returned score is greater than it. *)
Lemma Evaluator_calls_max_score fuel ts (w : World Evaluator.t) :
  let old := max_score (w_self w) in
  let new := max_score (w_self (Evaluator_calls fuel ts w)) in
  compared_in_double old ->
  compared_in_double new /\
  (new = old \/ F64.gtb (number_value new) (number_value old) = true) /\
  (forall score, score ∈ Evaluator_scores fuel ts w ->
                 F64.gtb score (number_value new) = false).
Proof.
  revert w. induction ts as [| t ts IH]; intros w; simpl; intros Hold.
  { split; [done |]. split; [by left |]. intros score Hs. by apply elem_of_nil in Hs. }
  destruct (Evaluator_call_max_score fuel t w) as (_ & Hstep).
  set (r := evaluate_if_necessary fuel t w) in *.
  assert (Hmid : compared_in_double (max_score (w_self r.2)) /\
                 (max_score (w_self r.2) = max_score (w_self w) \/
                  F64.gtb (number_value (max_score (w_self r.2)))
                    (number_value (max_score (w_self w))) = true) /\
                 forall score, r.1 = Returns (Some score) ->
                               F64.gtb score (number_value (max_score (w_self r.2))) = false).
  { destruct Hstep as [[-> Hret] | (mean & -> & Hbest & _ & Hret)].
    - split; [done |]. split; [by left |]. intros score Hr.
      rewrite <- float_gt_double by done. by apply Hret.
    - split; [done |]. rewrite float_gt_double in Hbest by done.
      split; [by right |]. intros score Hr. rewrite (Hret _ Hr). apply gtb_irrefl. }
  destruct Hmid as (Hdbl & Hup & Hret).
  destruct (IH r.2 Hdbl) as (Hdbl2 & Hup2 & Hall2).
  set (new := max_score (w_self (Evaluator_calls fuel ts r.2))) in *.
  split; [done |]. split.
  - destruct Hup as [<- | Hgt]; [done |].
    destruct Hup2 as [-> | Hgt2]; [by right |].
    right. unfold F64.gtb in *. by eapply ltb_trans.
  - intros score Hs.
    assert (Hcase : (r.1 = Returns (Some score)) \/ score ∈ Evaluator_scores fuel ts r.2).
    { destruct r.1 as [[s |] | |]; auto. apply elem_of_cons in Hs as [-> | ?]; auto. }
    destruct Hcase as [Hr | Hrest]; [| by apply Hall2].
    destruct Hup2 as [-> | Hgt]; [by apply Hret |].
    eapply gtb_above; [exact Hgt | by apply Hret].
Qed.
End RunningMaximum.

(** X19.  [Evaluator.max_score] over any sequence of [evaluate_if_necessary]
    calls ([eval_interval] not zero).  It is either what it was at the start
    or, as a Python float, one of the scores the calls returned; if it is
    what it was at the start, no returned score has beaten it.  Where
    [mean > max_score] is the order of double precision (from the first
    update on, or with NumPy 1.x from the start) it is the running maximum:
    it is not below its initial value, and no score returned by any of the
    calls is greater than it.  (With NumPy 2 a score returned before the
    first update can be greater than the initial [max_score] without beating
    it.) *)
Theorem Evaluator_max_score_is_running_maximum `{Collaborators} (fuel : nat)
    (ts : list Z) (w : World Evaluator.t) :
  let w' := Evaluator_calls fuel ts w in
  let scores := Evaluator_scores fuel ts w in
  let old := Evaluator.max_score (w_self w) in
  let best := Evaluator.max_score (w_self w') in
  Evaluator.eval_interval (w_self w) <> 0 ->
  (best = old \/ exists b, b ∈ scores /\ best = PythonFloat b) /\
  (best = old -> forall score, score ∈ scores -> float_gt score best = false) /\
  (compared_in_double old ->
   (best = old \/ F64.gtb (number_value best) (number_value old) = true) /\
   (forall score, score ∈ scores -> F64.gtb score (number_value best) = false)).
Proof.
  intros w' scores old best Hi.
  destruct (Evaluator_calls_max_score_in fuel ts w) as (_ & Hin).
  split; [by apply Hin |]. split.
  - intros Hsame score Hs. rewrite Hsame. subst old best w' scores.
    destruct (Evaluator.max_score (w_self w)) as [x | m] eqn:Hold.
    + destruct (Evaluator_calls_max_score fuel ts w) as (_ & _ & Hall);
        [by rewrite Hold |].
      rewrite Hsame in Hall. by apply Hall.
    + exact (Evaluator_calls_never_updated fuel ts w m Hold Hsame score Hs).
  - intros Hdbl. destruct (Evaluator_calls_max_score fuel ts w Hdbl) as (_ & Hup & Hall).
    by split.
Qed.

(** X19 on scripted collaborators, with NumPy 2: the scores 5, 7 and 3
    leave [max_score = 7]; from the first update on, when [max_score] is the
    Python float 5, it is the running maximum. *)
Lemma Evaluator_max_score_is_running_maximum_witness :
  let five := F64.of_Z 5 in
  let seven := F64.of_Z 7 in
  let three := F64.of_Z 3 in
  let e0 := Scripted.evaluator 100
              [Scripted.one_step five; Scripted.one_step seven; Scripted.one_step three] in
  let e1 := (Evaluator.evaluate_if_necessary 5 100 e0).2 in
  let w' := Evaluator_calls 5 [100; 200; 300] e0 in
  (Evaluator.eval_interval (w_self e1) <> 0 /\
   Evaluator.max_score (w_self e1) = PythonFloat five) /\
  Evaluator_scores 5 [100; 200; 300] e0 = [five; seven; three] /\
  Evaluator.max_score (w_self w') = PythonFloat seven /\
  (forall score, score ∈ [seven; three] -> F64.gtb score seven = false).
Proof.
  intros five seven three e0 e1 w'.
  assert (Hi : Evaluator.eval_interval (w_self e1) <> 0) by (vm_compute; discriminate).
  assert (H1 : Evaluator.max_score (w_self e1) = PythonFloat five)
    by (vm_compute; reflexivity).
  split; [split; [exact Hi | exact H1] |]. split; [vm_compute; reflexivity |].
  split; [vm_compute; reflexivity |].
  destruct (@Evaluator_max_score_is_running_maximum Scripted.collaborators 5 [200; 300] e1
              Hi) as (_ & _ & Hrun).
  assert (Hdbl : @compared_in_double (@the_numpy Scripted.collaborators)
                   (Evaluator.max_score (w_self e1))) by (rewrite H1; exact I).
  destruct (Hrun Hdbl) as [_ Hall].
  assert (Hs : Evaluator_scores 5 [200; 300] e1 = [seven; three])
    by (vm_compute; reflexivity).
  assert (Hb : Evaluator.max_score (w_self (Evaluator_calls 5 [200; 300] e1))
               = PythonFloat seven) by (vm_compute; reflexivity).
  rewrite Hs, Hb in Hall. exact Hall.
Defined.

Section Schedules.
Context `{Collaborators}.
Import AsyncEvaluator.

Lemma busy_workers_insert (workers : list worker) k wk wk' :
  workers !! k = Some wk ->
  (busy_workers (<[k := wk']> workers) + busy wk = busy_workers workers + busy wk')%nat.
Proof.
  unfold busy_workers. revert k.
  induction workers as [| x workers IH]; intros [| k] Hk; simpl in *; try done.
  - injection Hk as ->. lia.
  - specialize (IH k Hk). lia.
Qed.

Lemma busy_workers_outside (workers : list worker) :
  Forall (fun wk => wk_at wk = Outside) workers -> busy_workers workers = 0%nat.
Proof.
  unfold busy_workers, busy. induction 1 as [| wk workers Hwk _ IH]; simpl; [done |].
  by rewrite Hwk, IH.
Qed.

(** No row before the header, and the file is the header and the rows:
    kept by every block. *)
Lemma schedule_layout fuel schedule :
  forall workers (w : World AsyncEvaluator.t) tr0 evs0 path,
    path = os_path_join (outdir (w_self w)) "scores.txt" ->
    w_trace w = tr0 ++ evs0 ->
    ((wrote_header (w_self w) = 0 /\ rows evs0 = [] /\ headers evs0 = [] /\
      Forall (fun wk => forall t0, wk_at wk <> HeaderChecked t0) workers) \/
     (wrote_header (w_self w) <> 0 /\
      exists stats,
        headers evs0 = [header_line stats] /\
        sys_files (w_sys w) !! path = Some (header_line stats :: rows evs0))) ->
    let w' := (run_schedule fuel schedule workers w).2 in
    exists evs,
      w_trace w' = tr0 ++ evs /\
      ((wrote_header (w_self w') = 0 /\ rows evs = [] /\ headers evs = []) \/
       (wrote_header (w_self w') <> 0 /\
        exists stats,
          headers evs = [header_line stats] /\
          sys_files (w_sys w') !! path = Some (header_line stats :: rows evs))).
Proof.
  induction schedule as [| [k t] schedule IH]; intros workers w tr0 evs0 path Hpath E0 Hinv;
    simpl.
  { exists evs0. split; [done |].
    destruct Hinv as [(? & ? & ? & _) | ?]; [by left | by right]. }
  destruct (workers !! k) as [wk |] eqn:Hk; [| by eapply IH].
  destruct (block_effects fuel t wk w) as (Ho & _ & evs1 & E1 & Hcase).
  rewrite <- Hpath in Hcase.
  set (r := block fuel t wk w) in *.
  apply (IH (<[k := r.1]> workers) r.2 tr0 (evs0 ++ evs1) path).
  { by rewrite Ho. }
  { by rewrite E1, E0, app_assoc. }
  rewrite rows_app, headers_app.
  destruct Hinv as [(Hw0 & Hr0 & Hh0 & Hall) | (Hw1 & stats & Hh0 & Hf0)].
  - pose proof (Forall_lookup_1 _ _ _ _ Hall Hk) as Hwk.
    destruct (wk_at wk) as [| t0 | t0] eqn:Hat.
    + destruct Hcase as (-> & Hf & Hwh & Hr). left. rewrite Hwh, Hr0, Hh0.
      repeat split; auto. apply Forall_insert; [done |].
      intros t0. destruct Hr as [(_ & _ & ->) | (_ & _ & ->)]; done.
    + destruct Hcase as (_ & Hr1 & [(Hne & _) | [(_ & Hwh & _ & st & Hh1 & Hf) | (_ & Hwh & Hh1 & Hr)]]).
      * done.
      * right. rewrite Hwh. split; [done |]. exists st.
        rewrite Hh0, Hh1, Hr0, Hr1, Hf, lookup_insert_eq. done.
      * left. rewrite Hwh, Hr0, Hr1, Hh0, Hh1. repeat split; auto.
        apply Forall_insert; [done |]. intros t1. by rewrite Hr.
    + by destruct (Hwk t0).
  - right. destruct (wk_at wk) as [| t0 | t0] eqn:Hat.
    + destruct Hcase as (-> & Hf & Hwh & _). rewrite Hwh, Hf. split; [done |].
      exists stats. by rewrite !app_nil_r.
    + destruct Hcase as (_ & Hr1 & [(_ & -> & Hf & Hwh & _) | [(Hz & _) | (Hz & _)]]);
        try done.
      rewrite Hwh, Hf. split; [done |]. exists stats. by rewrite !app_nil_r.
    + destruct Hcase as (_ & Hwh & Hh1 & _ & Hf & _). rewrite Hwh, Hf, Hh1.
      split; [done |]. exists stats. rewrite app_nil_r. split; [done |].
      by apply (appended_lookup _ _ _ (header_line stats :: rows evs0)).
Qed.

(** The same over calls made one after the other. *)
Lemma calls_layout fuel ts :
  forall (w : World AsyncEvaluator.t) tr0 evs0 path,
    path = os_path_join (outdir (w_self w)) "scores.txt" ->
    w_trace w = tr0 ++ evs0 ->
    ((wrote_header (w_self w) = 0 /\ rows evs0 = [] /\ headers evs0 = []) \/
     (wrote_header (w_self w) <> 0 /\
      exists stats,
        headers evs0 = [header_line stats] /\
        sys_files (w_sys w) !! path = Some (header_line stats :: rows evs0))) ->
    let w' := AsyncEvaluator_calls fuel ts w in
    exists evs,
      w_trace w' = tr0 ++ evs /\
      ((wrote_header (w_self w') = 0 /\ rows evs = [] /\ headers evs = []) \/
       (wrote_header (w_self w') <> 0 /\
        exists stats,
          headers evs = [header_line stats] /\
          sys_files (w_sys w') !! path = Some (header_line stats :: rows evs))).
Proof.
  induction ts as [| t ts IH]; intros w tr0 evs0 path Hpath E0 Hinv; simpl.
  { by exists evs0. }
  destruct (AsyncEvaluator_call_effects fuel t w) as (Ho & _ & _ & evs1 & E1 & _ & _ & Hcase).
  rewrite <- Hpath in Hcase.
  set (w1 := (evaluate_if_necessary fuel t w).2) in *.
  apply (IH w1 tr0 (evs0 ++ evs1) path).
  { by rewrite Ho. }
  { by rewrite E1, E0, app_assoc. }
  rewrite rows_app, headers_app.
  destruct Hinv as [(Hw0 & Hr0 & Hh0) | (Hw1 & stats & Hh0 & Hf0)].
  - destruct Hcase as [(Hne & _) | [(_ & Hwh & Hh1 & Hr1) | (_ & Hwh & st & Hh1 & Hf)]].
    + done.
    + left. by rewrite Hwh, Hr0, Hr1, Hh0, Hh1.
    + right. rewrite Hwh. split; [done |]. exists st. by rewrite Hh0, Hh1, Hr0, Hf.
  - right. destruct Hcase as [(_ & Hwh & Hh1 & Hf) | [(Hz & _) | (Hz & _)]]; try done.
    rewrite Hwh, Hf, Hh1. split; [done |]. exists stats. rewrite app_nil_r.
    split; [done |]. by apply (appended_lookup _ _ _ (header_line stats :: rows evs0)).
Qed.
End Schedules.

(** X20.  The scores file of an [AsyncEvaluator] whose [wrote_header] is unset,
    over any sequence of [evaluate_if_necessary] calls and over any schedule
    of the blocks of the calls of several workers (all of them outside a call
    at the start): as long as [wrote_header] is unset no row and no header
    has been written; once it is set, exactly one header has been written and
    [outdir/scores.txt] holds that header followed by all the rows, in order.
    So no row is ever written before the header or lost to it. *)
Theorem AsyncEvaluator_scores_file_is_header_then_rows `{Collaborators} (fuel : nat)
    (w : World AsyncEvaluator.t) :
  let path := os_path_join (AsyncEvaluator.outdir (w_self w)) "scores.txt" in
  AsyncEvaluator.wrote_header (w_self w) = 0 ->
  (forall ts : list Z,
      let w' := AsyncEvaluator_calls fuel ts w in
      exists evs,
        w_trace w' = w_trace w ++ evs /\
        ((AsyncEvaluator.wrote_header (w_self w') = 0 /\ rows evs = [] /\ headers evs = []) \/
         (AsyncEvaluator.wrote_header (w_self w') <> 0 /\
          exists stats,
            headers evs = [header_line stats] /\
            sys_files (w_sys w') !! path = Some (header_line stats :: rows evs)))) /\
  (forall (schedule : list (nat * Z)) (workers : list worker),
      Forall (fun wk => wk_at wk = Outside) workers ->
      let w' := (run_schedule fuel schedule workers w).2 in
      exists evs,
        w_trace w' = w_trace w ++ evs /\
        ((AsyncEvaluator.wrote_header (w_self w') = 0 /\ rows evs = [] /\ headers evs = []) \/
         (AsyncEvaluator.wrote_header (w_self w') <> 0 /\
          exists stats,
            headers evs = [header_line stats] /\
            sys_files (w_sys w') !! path = Some (header_line stats :: rows evs)))).
Proof.
  intros path Hw. split.
  - intros ts w'. apply (calls_layout fuel ts w (w_trace w) [] path); try done.
    + by rewrite app_nil_r.
    + by left.
  - intros schedule workers Hout w'.
    apply (schedule_layout fuel schedule workers w (w_trace w) [] path); try done.
    + by rewrite app_nil_r.
    + left. repeat split; try done.
      eapply Forall_impl; [exact Hout |]. intros wk -> t0. done.
Qed.

(** X20 on scripted collaborators: the calls at 50, 100, 150 and 250, and two workers
    interleaved. *)
Lemma AsyncEvaluator_scores_file_is_header_then_rows_witness :
  let five := F64.of_Z 5 in
  let seven := F64.of_Z 7 in
  let a0 := Scripted.async_evaluator 100 [Scripted.one_step five; Scripted.one_step seven] in
  let a250 := AsyncEvaluator_calls 5 [50; 100; 150; 250] a0 in
  let workers :=
    [@mkWorker Scripted.collaborators (Scripted.mkEnv [Scripted.one_step five] []) O Outside;
     @mkWorker Scripted.collaborators (Scripted.mkEnv [Scripted.one_step seven] []) O Outside]
  in
  let schedule := [(0%nat, 100); (1%nat, 200); (1%nat, 200); (0%nat, 100);
                   (0%nat, 100); (1%nat, 200)] in
  let b := (run_schedule 5 schedule workers a0).2 in
  let h := header_line [("n_actions"%string, PyInt 0)] in
  AsyncEvaluator.wrote_header (w_self a0) = 0 /\
  Forall (fun wk => wk_at wk = Outside) workers /\
  (exists evs,
      w_trace a250 = w_trace a0 ++ evs /\
      sys_files (w_sys a250) !! "out/scores.txt" = Some (h :: rows evs)) /\
  (exists evs,
      w_trace b = w_trace a0 ++ evs /\
      sys_files (w_sys b) !! "out/scores.txt" = Some (h :: rows evs)).
Proof.
  intros five seven a0 a250 workers schedule b h.
  assert (Hw : AsyncEvaluator.wrote_header (w_self a0) = 0) by reflexivity.
  assert (Hout : Forall (fun wk => wk_at wk = Outside) workers)
    by (repeat constructor).
  split; [exact Hw |]. split; [exact Hout |].
  destruct (@AsyncEvaluator_scores_file_is_header_then_rows Scripted.collaborators 5 a0 Hw)
    as [Hcalls Hsched].
  split.
  - destruct (Hcalls [50; 100; 150; 250]) as (evs & E & [(Hz & _) | (_ & stats & Hh & Hf)]).
    + exfalso. revert Hz. vm_compute. discriminate.
    + exists evs. split; [exact E |].
      assert (Hhd : option_map (@head string) (sys_files (w_sys a250) !! "out/scores.txt")
                    = Some (Some h)) by (vm_compute; reflexivity).
      apply (eq_trans (eq_sym (f_equal (option_map (@head string)) Hf))) in Hhd.
      cbn [option_map head] in Hhd. do 2 apply (inj Some) in Hhd.
      rewrite <- Hhd. exact Hf.
  - destruct (Hsched schedule workers Hout)
      as (evs & E & [(Hz & _) | (_ & stats & Hh & Hf)]).
    + exfalso. revert Hz. vm_compute. discriminate.
    + exists evs. split; [exact E |].
      assert (Hhd : option_map (@head string) (sys_files (w_sys b) !! "out/scores.txt")
                    = Some (Some h)) by (vm_compute; reflexivity).
      apply (eq_trans (eq_sym (f_equal (option_map (@head string)) Hf))) in Hhd.
      cbn [option_map head] in Hhd. do 2 apply (inj Some) in Hhd.
      rewrite <- Hhd. exact Hf.
Defined.

Section Claims.
Context `{Collaborators}.
Import AsyncEvaluator.

Lemma rows_nil_or_due (evs : list event) (P : Prop) :
  (rows evs <> [] -> P) -> rows evs = [] \/ P.
Proof. destruct (rows evs); [by left | right; auto]. Qed.

(** Every row is paid for by one step of [prev_eval_t], over calls made one
    after the other and over schedules. *)
Lemma calls_claims fuel (T p0 : Z) ts :
  forall (w : World AsyncEvaluator.t) tr0 evs0,
    let i := eval_interval (w_self w) in
    i > 0 -> C_long.min_value <= p0 -> T <= C_long.max_value ->
    Forall (fun t => t <= T) ts ->
    w_trace w = tr0 ++ evs0 ->
    Z.of_nat (length (rows evs0)) * i <= prev_eval_t (w_self w) - p0 ->
    p0 <= prev_eval_t (w_self w) <= Z.max p0 T ->
    let w' := AsyncEvaluator_calls fuel ts w in
    exists evs,
      w_trace w' = tr0 ++ evs /\
      Z.of_nat (length (rows evs)) * i <= prev_eval_t (w_self w') - p0 /\
      p0 <= prev_eval_t (w_self w') <= Z.max p0 T.
Proof.
  induction ts as [| t ts IH]; intros w tr0 evs0 i Hi Hmin Hmax Hts E0 Hrows Hprev; simpl.
  { by exists evs0. }
  apply Forall_cons in Hts as [Ht Hts].
  destruct (AsyncEvaluator_call_effects fuel t w)
    as (_ & Hint & Hp & evs1 & E1 & Hr1 & Hdue & _).
  fold i in Hint, Hp, Hdue.
  set (w1 := (evaluate_if_necessary fuel t w).2) in *.
  specialize (IH w1 tr0 (evs0 ++ evs1)). simpl in IH. rewrite Hint in IH.
  apply IH; try done.
  - by rewrite E1, E0, app_assoc.
  - rewrite rows_app, length_app, Hp.
    destruct (decide _) as [Hd | Hd].
    + rewrite C_long_stored_in_range by (unfold C_long.max_value, C_long.min_value in *; lia).
      nia.
    + destruct (rows_nil_or_due _ _ Hdue) as [-> | ?]; [| done]. simpl. lia.
  - rewrite Hp. destruct (decide _) as [Hd | Hd]; [| done].
    rewrite C_long_stored_in_range by (unfold C_long.max_value, C_long.min_value in *; lia).
    lia.
Qed.

Lemma schedule_claims fuel (T p0 : Z) schedule :
  forall workers (w : World AsyncEvaluator.t) tr0 evs0,
    let i := eval_interval (w_self w) in
    i > 0 -> C_long.min_value <= p0 -> T <= C_long.max_value ->
    Forall (fun kt => kt.2 <= T) schedule ->
    w_trace w = tr0 ++ evs0 ->
    Z.of_nat (length (rows evs0) + busy_workers workers) * i
      <= prev_eval_t (w_self w) - p0 ->
    p0 <= prev_eval_t (w_self w) <= Z.max p0 T ->
    let w' := (run_schedule fuel schedule workers w).2 in
    exists evs,
      w_trace w' = tr0 ++ evs /\
      Z.of_nat (length (rows evs)) * i <= prev_eval_t (w_self w') - p0 /\
      p0 <= prev_eval_t (w_self w') <= Z.max p0 T.
Proof.
  induction schedule as [| [k t] schedule IH];
    intros workers w tr0 evs0 i Hi Hmin Hmax Hts E0 Hrows Hprev; simpl.
  { exists evs0. split; [done |]. split; [nia | done]. }
  apply Forall_cons in Hts as [Ht Hts]. simpl in Ht.
  destruct (workers !! k) as [wk |] eqn:Hk; [| by eapply IH].
  destruct (block_effects fuel t wk w) as (_ & Hint & evs1 & E1 & Hcase).
  fold i in Hint, Hcase.
  pose proof (busy_workers_insert workers k wk (block fuel t wk w).1 Hk) as Hbusy.
  set (r := block fuel t wk w) in *.
  specialize (IH (<[k := r.1]> workers) r.2 tr0 (evs0 ++ evs1)). simpl in IH.
  rewrite Hint in IH.
  unfold busy in Hbusy.
  destruct (wk_at wk) as [| t0 | t0].
  - destruct Hcase as (-> & _ & _ & [(_ & Hp & Hat) | (Hdue & Hp & Hat)]);
      rewrite Hat in Hbusy; rewrite app_nil_r in *.
    + apply IH; try done.
      * by rewrite E1, E0.
      * rewrite Hp. nia.
      * by rewrite Hp.
    + rewrite C_long_stored_in_range in Hp
        by (unfold C_long.max_value, C_long.min_value in *; lia).
      apply IH; try done.
      * by rewrite E1, E0.
      * rewrite Hp. nia.
      * rewrite Hp. lia.
  - destruct Hcase as (Hp & Hr1 & Hcase).
    assert (Hb : (match wk_at r.1 with Outside => 0 | _ => 1 end <= 1)%nat)
      by (destruct (wk_at r.1); lia).
    apply IH; try done.
    + by rewrite E1, E0, app_assoc.
    + rewrite rows_app, Hr1, app_nil_r, Hp. nia.
    + by rewrite Hp.
  - destruct Hcase as (Hp & _ & _ & Hr1 & _ & Hat). rewrite Hat in Hbusy.
    apply IH; try done.
    + by rewrite E1, E0, app_assoc.
    + rewrite rows_app, length_app, Hp. nia.
    + by rewrite Hp.
Qed.
End Claims.

(** X21.  An [AsyncEvaluator] never evaluates more often than intervals have
    elapsed ([eval_interval > 0], step counts up to [T] within the range of a
    C long).  Over any sequence of calls, and over any schedule of the blocks
    of the calls of several workers, every row written is paid for by one
    step of [prev_eval_t]: [rows * eval_interval <= prev_eval_t - p0], where
    [p0] is [prev_eval_t] at the start, and [prev_eval_t] never passes
    [max p0 T].  In particular two workers that call with the same [t] when
    one interval has elapsed do not both evaluate. *)
Theorem AsyncEvaluator_evaluations_bounded_by_intervals `{Collaborators} (fuel : nat)
    (w : World AsyncEvaluator.t) (T : Z) :
  let i := AsyncEvaluator.eval_interval (w_self w) in
  let p0 := AsyncEvaluator.prev_eval_t (w_self w) in
  i > 0 -> C_long.min_value <= p0 -> T <= C_long.max_value ->
  (forall ts : list Z,
      Forall (fun t => t <= T) ts ->
      let w' := AsyncEvaluator_calls fuel ts w in
      exists evs,
        w_trace w' = w_trace w ++ evs /\
        Z.of_nat (length (rows evs)) * i <= AsyncEvaluator.prev_eval_t (w_self w') - p0 /\
        AsyncEvaluator.prev_eval_t (w_self w') <= Z.max p0 T) /\
  (forall (schedule : list (nat * Z)) (workers : list worker),
      Forall (fun kt => kt.2 <= T) schedule ->
      Forall (fun wk => wk_at wk = Outside) workers ->
      let w' := (run_schedule fuel schedule workers w).2 in
      exists evs,
        w_trace w' = w_trace w ++ evs /\
        Z.of_nat (length (rows evs)) * i <= AsyncEvaluator.prev_eval_t (w_self w') - p0 /\
        AsyncEvaluator.prev_eval_t (w_self w') <= Z.max p0 T).
Proof.
  intros i p0 Hi Hmin Hmax. split.
  - intros ts Hts w'. subst w'.
    destruct (calls_claims fuel T p0 ts w (w_trace w) []) as (evs & E & Hr & Hp); try done.
    + by rewrite app_nil_r.
    + simpl. fold p0. lia.
    + fold p0. lia.
    + exists evs. repeat split; try done. lia.
  - intros schedule workers Hts Hout w'. subst w'.
    destruct (schedule_claims fuel T p0 schedule workers w (w_trace w) [])
      as (evs & E & Hr & Hp); try done.
    + by rewrite app_nil_r.
    + rewrite (busy_workers_outside _ Hout). simpl. fold p0. lia.
    + fold p0. lia.
    + exists evs. repeat split; try done. lia.
Qed.

(** X21 on scripted collaborators: three calls at 150 and one at 250 give two evaluations. *)
Lemma AsyncEvaluator_evaluations_bounded_by_intervals_witness :
  let five := F64.of_Z 5 in
  let seven := F64.of_Z 7 in
  let a0 := Scripted.async_evaluator 100
              [Scripted.one_step five; Scripted.one_step seven; Scripted.one_step five] in
  let a' := AsyncEvaluator_calls 5 [150; 150; 150; 250] a0 in
  (AsyncEvaluator.eval_interval (w_self a0) > 0 /\
   C_long.min_value <= AsyncEvaluator.prev_eval_t (w_self a0) /\
   250 <= C_long.max_value /\
   Forall (fun t => t <= 250) [150; 150; 150; 250]) /\
  AsyncEvaluator.prev_eval_t (w_self a') = 200 /\
  exists evs,
    w_trace a' = w_trace a0 ++ evs /\
    Z.of_nat (length (rows evs)) * 100 <= 200.
Proof.
  intros five seven a0 a'.
  assert (Hi : AsyncEvaluator.eval_interval (w_self a0) > 0) by reflexivity.
  assert (Hmin : C_long.min_value <= AsyncEvaluator.prev_eval_t (w_self a0))
    by (vm_compute; discriminate).
  assert (Hmax : 250 <= C_long.max_value) by (vm_compute; discriminate).
  assert (Hts : Forall (fun t => t <= 250) [150; 150; 150; 250])
    by (repeat constructor; vm_compute; discriminate).
  split; [repeat split; assumption |].
  assert (Hp : AsyncEvaluator.prev_eval_t (w_self a') = 200) by (vm_compute; reflexivity).
  split; [exact Hp |].
  destruct (@AsyncEvaluator_evaluations_bounded_by_intervals Scripted.collaborators 5 a0 250
              Hi Hmin Hmax) as [Hcalls _].
  destruct (Hcalls [150; 150; 150; 250] Hts) as (evs & E & Hr & _).
  exists evs. split; [exact E |].
  change (AsyncEvaluator.eval_interval (w_self a0)) with 100 in Hr.
  change (AsyncEvaluator.prev_eval_t (w_self a0)) with 0 in Hr.
  fold a' in Hr. rewrite Hp in Hr. exact Hr.
Defined.
